(** * Fund-AI-Advisor: technical reading, position decision and ledger

    A shallow embedding of the decision core of the advisor:

    - [portfolio_tracker.py]  : the ledger ([PortfolioTracker] on
                                numbers, [FloatLedger] with NaN and
                                exceptions, [LedgerStore] for the file);
    - [main.py]               : [calculate_position_v13], the position
                                decision engine, and [process_single_fund];
    - [technical_analyzer.py] : [TechnicalAnalyzer.calculate_indicators];
    - [valuation_engine.py], [news_analyst.py], [utils.py]: the valuation
                                multiplier, the advisory override, [retry].

    Numbers.  Python [int] is [Z].  Python [float] is modelled by exact
    rationals: a finite float is a [Q], compared with [==] and [<] the way
    Python compares values, and a float that may be NaN is an [option Q]
    with [None] for NaN (every comparison with NaN is false, every
    arithmetic operation on NaN is NaN).  Binary rounding error and
    infinities are outside the model.

    Effects.  Dictionaries mutated in place are threaded explicitly: a
    function that mutates its argument returns the new value.  Logging and
    the JSON file behind the ledger are not part of the state. *)

From Stdlib Require Import ZArith QArith Qround Qabs Lqa Lia Ascii.
From stdpp Require Import gmap strings list fin_maps pretty.

Local Open Scope Q_scope.

(* ================================================================== *)
(** ** Python numbers *)

Module PyNum.

(** [a < b] on finite floats. *)
Definition Qltb (a b : Q) : bool := negb (Qle_bool b a).

(** [min(a, b)] and [max(a, b)]: the first argument wins a tie. *)
Definition py_min (a b : Q) : Q := if Qltb b a then b else a.
Definition py_max (a b : Q) : Q := if Qltb a b then b else a.

(** [int(x)]: truncation toward zero. *)
Definition py_int (x : Q) : Z := Z.quot (Qnum x) (Zpos (Qden x)).

(** Round to the nearest integer, ties to the even one. *)
Definition round_half_even (x : Q) : Z :=
  let f := Qfloor x in
  match Qcompare (x - inject_Z f) 0.5 with
  | Lt => f
  | Gt => (f + 1)%Z
  | Eq => if Z.even f then f else (f + 1)%Z
  end.

(** [round(x, ndigits)] *)
Definition py_round (x : Q) (ndigits : nat) : Q :=
  let scale := inject_Z (10 ^ Z.of_nat ndigits) in
  inject_Z (round_half_even (x * scale)) / scale.

(** A float that may be NaN. *)
Definition float : Type := option Q.
Definition NaN : float := None.

Definition lift2 (f : Q -> Q -> Q) (a b : float) : float :=
  match a, b with
  | Some x, Some y => Some (f x y)
  | _, _ => None
  end.
Definition fadd := lift2 Qplus.
Definition fsub := lift2 Qminus.
Definition fmul := lift2 Qmult.
(** Used only where the divisor is known to be non-zero. *)
Definition fdiv := lift2 Qdiv.

Definition fltb (a b : float) : bool :=
  match a, b with
  | Some x, Some y => Qltb x y
  | _, _ => false
  end.
Definition fgtb (a b : float) : bool := fltb b a.

Definition fround (a : float) (ndigits : nat) : float :=
  match a with
  | Some x => Some (py_round x ndigits)
  | None => None
  end.

(** Equality of possibly-NaN values as mathematical values (NaN only
    matches NaN); used in statements, never by the code. *)
Definition feq (a b : float) : Prop :=
  match a, b with
  | Some x, Some y => x == y
  | None, None => True
  | _, _ => False
  end.

End PyNum.
Import PyNum.

(* ================================================================== *)
(** ** portfolio_tracker.py, on numbers *)

(** The ledger for prices, amounts and holdings that are numbers: on
    these no call raises.  [FloatLedger] below is the same code on floats
    that may be NaN, where a call can raise half-way; on numbers the two
    agree ([FloatLedgerFacts.add_trade_float_finite]). *)
Module PortfolioTracker.

(** One entry of [pos['history']]. *)
Record TradeRecord := {
  rec_date : string;   (* "date" *)
  rec_price : Q;       (* "price" *)
  rec_s : string;      (* "s" *)
  rec_amt : Z          (* "amt" *)
}.

(** One value of [self.portfolio]. *)
Record Position := {
  name : string;
  shares : Q;
  cost : Q;
  held_days : Z;
  history : list TradeRecord
}.

(** The dictionary handed out by [get_position] and read by the decision
    engine.  [get_position] always sets ['held_days']; the engine reads the
    key with [pos.get('held_days', 999)], so it is optional here. *)
Record PositionView := {
  view_shares : Q;
  view_cost : Q;
  view_held_days : option Z
}.

(** The entry [add_trade] creates for an unknown code. *)
Definition new_position (name : string) : Position :=
  {| name := name; shares := 0; cost := 0.0; held_days := 0; history := [] |}.


(** [pos['history'].append(record)] followed by the cut to the last ten. *)
Definition append_history (record : TradeRecord) (h : list TradeRecord)
  : list TradeRecord :=
  let h' := h ++ [record] in
  if (10 <? length h')%nat then drop (length h' - 10) h' else h'.

(** The body of [add_trade] once [pos] is bound; [today] is
    [datetime.now().strftime("%Y-%m-%d")]. *)
Definition trade_position (today : string) (amount_or_value price : Q)
    (is_sell : bool) (pos : Position) : Position :=
  let shares_change := amount_or_value / price in
  if is_sell then
    let real_sell_shares := py_min (shares pos) shares_change in
    let shares' := py_max 0 (shares pos - real_sell_shares) in
    let record := {| rec_date := today; rec_price := py_round price 3; rec_s := "S";
                     rec_amt := (- py_int (real_sell_shares * price))%Z |} in
    let reset := Qeq_bool shares' 0 in
    {| name := name pos;
       shares := shares';
       cost := if reset then 0.0 else cost pos;
       held_days := if reset then 0%Z else held_days pos;
       history := append_history record (history pos) |}
  else
    let old_value := shares pos * cost pos in
    let new_invest := shares_change * price in
    let total_shares := shares pos + shares_change in
    let record := {| rec_date := today; rec_price := py_round price 3; rec_s := "B";
                     rec_amt := py_int amount_or_value |} in
    {| name := name pos;
       shares := total_shares;
       cost := if Qltb 0 total_shares
               then py_round ((old_value + new_invest) / total_shares) 4
               else cost pos;
       held_days := if Z.eqb (held_days pos) 0 then 1%Z else held_days pos;
       history := append_history record (history pos) |}.

Definition add_trade (today code name : string) (amount_or_value price : Q)
    (is_sell : bool) (portfolio : gmap string Position)
  : gmap string Position :=
  if Qle_bool price 0 then portfolio
  else
    let pos := default (new_position name) (portfolio !! code) in
    <[code := trade_position today amount_or_value price is_sell pos]> portfolio.

Definition confirm_trades (portfolio : gmap string Position)
  : gmap string Position :=
  (fun pos =>
     if Qltb 0 (shares pos)
     then {| name := name pos; shares := shares pos; cost := cost pos;
             held_days := (held_days pos + 1)%Z; history := history pos |}
     else pos) <$> portfolio.

(** The calls that change the ledger, and a run of them. *)
Inductive ledger_call :=
| AddTrade (today code name : string) (amount_or_value price : Q) (is_sell : bool)
| ConfirmTrades.

Definition call (c : ledger_call) (portfolio : gmap string Position)
  : gmap string Position :=
  match c with
  | AddTrade today code name a p is_sell => add_trade today code name a p is_sell portfolio
  | ConfirmTrades => confirm_trades portfolio
  end.

Definition run_calls (cs : list ledger_call) (portfolio : gmap string Position)
  : gmap string Position :=
  foldl (fun p c => call c p) portfolio cs.




End PortfolioTracker.

(* ================================================================== *)
(** ** Python exceptions *)

Module PyExc.

(** A computation that may raise: [inl msg] carries [str(e)] of the
    exception, [inr a] the value. *)
Definition result (A : Type) : Type := (string + A)%type.

#[global] Instance result_ret : MRet result := fun A a => inr a.
#[global] Instance result_bind : MBind result :=
  fun A B k m => match m with inl e => inl e | inr a => k a end.

Definition raise {A : Type} (msg : string) : result A := inl msg.

(** [l.iloc[-k]] for [k >= 1]. *)
Definition iloc_back {A : Type} (l : list A) (k : nat) : result A :=
  match l !! (length l - k)%nat with
  | Some x => if (length l <? k)%nat
              then raise "single positional indexer is out-of-bounds"
              else mret x
  | None => raise "single positional indexer is out-of-bounds"
  end.

End PyExc.

(* ================================================================== *)
(** ** portfolio_tracker.py on floats that may be NaN *)

(** [PortfolioTracker] above is [add_trade] on finite numbers, where no
    call raises.  Here a number is a Python float that may be NaN: a price
    of NaN passes the guard [price <= 0], and [int()] of a NaN raises in
    the middle of the update.  A call returns the ledger as it leaves it
    and whether it raised.  Finite values are exact rationals; rounding
    and overflow are not modelled. *)
Module FloatLedger.
Import PortfolioTracker.
Import PyExc.

Record FloatRecord := {
  fr_date : string;
  fr_price : float;
  fr_s : string;
  fr_amt : Z
}.

Record FloatPosition := {
  fp_name : string;
  fp_shares : float;
  fp_cost : float;
  fp_held_days : Z;
  fp_history : list FloatRecord
}.

(** The dictionary of [get_position]. *)
Record FloatView := {
  fv_shares : float;
  fv_cost : float;
  fv_held_days : option Z
}.

(** [a <= b], false when one side is NaN. *)
Definition float_leb (a b : float) : bool :=
  match a, b with
  | Some x, Some y => Qle_bool x y
  | _, _ => false
  end.

(** [a == b], false when one side is NaN. *)
Definition float_eqb (a b : float) : bool :=
  match a, b with
  | Some x, Some y => Qeq_bool x y
  | _, _ => false
  end.

(** [min(a, b)] and [max(a, b)]: the second argument is taken only when
    it compares below (above) the first, so a NaN never replaces the
    first argument. *)
Definition float_min (a b : float) : float := if fltb b a then b else a.
Definition float_max (a b : float) : float := if fltb a b then b else a.

(** [int(x)] *)
Definition float_int (x : float) : result Z :=
  match x with
  | Some q => mret (py_int q)
  | None => raise "cannot convert float NaN to integer"
  end.

Definition new_float_position (name : string) : FloatPosition :=
  {| fp_name := name; fp_shares := Some 0; fp_cost := Some 0.0;
     fp_held_days := 0; fp_history := [] |}.

Definition get_position_float (code : string)
    (portfolio : gmap string FloatPosition) : FloatView :=
  match portfolio !! code with
  | None => {| fv_shares := Some 0; fv_cost := Some 0.0; fv_held_days := Some 0%Z |}
  | Some pos =>
      {| fv_shares := fp_shares pos; fv_cost := fp_cost pos;
         fv_held_days := Some (fp_held_days pos) |}
  end.

Definition append_history_float (record : FloatRecord) (h : list FloatRecord)
  : list FloatRecord :=
  let h' := h ++ [record] in
  if (10 <? length h')%nat then drop (length h' - 10) h' else h'.

(** [add_trade].  The entry of [code] exists from the second statement
    on.  In a sell the shares are written before [int(real_sell_shares *
    price)] is evaluated, in a buy the cost and the shares are written
    before [int(amount_or_value)]: when that [int()] raises, the position
    keeps what was written and the rest of the update (reset, held_days,
    history, save) does not happen. *)
Definition add_trade_float (today code name : string)
    (amount_or_value price : float) (is_sell : bool)
    (portfolio : gmap string FloatPosition)
  : gmap string FloatPosition * result unit :=
  if float_leb price (Some 0) then (portfolio, mret tt)
  else
    let pos := default (new_float_position name) (portfolio !! code) in
    let shares_change := fdiv amount_or_value price in
    let record_price := fround price 3 in
    if is_sell then
      let real_sell_shares := float_min (fp_shares pos) shares_change in
      let shares' := float_max (Some 0) (fsub (fp_shares pos) real_sell_shares) in
      match float_int (fmul real_sell_shares price) with
      | inl e =>
          (<[code := {| fp_name := fp_name pos; fp_shares := shares';
                        fp_cost := fp_cost pos; fp_held_days := fp_held_days pos;
                        fp_history := fp_history pos |}]> portfolio, inl e)
      | inr sold =>
          let record := {| fr_date := today; fr_price := record_price; fr_s := "S";
                           fr_amt := (- sold)%Z |} in
          let reset := float_eqb shares' (Some 0) in
          (<[code := {| fp_name := fp_name pos; fp_shares := shares';
                        fp_cost := if reset then Some 0.0 else fp_cost pos;
                        fp_held_days := if reset then 0%Z else fp_held_days pos;
                        fp_history := append_history_float record (fp_history pos) |}]>
             portfolio, mret tt)
      end
    else
      let old_value := fmul (fp_shares pos) (fp_cost pos) in
      let new_invest := fmul shares_change price in
      let total_shares := fadd (fp_shares pos) shares_change in
      let cost' :=
        if fgtb total_shares (Some 0)
        then fround (fdiv (fadd old_value new_invest) total_shares) 4
        else fp_cost pos in
      match float_int amount_or_value with
      | inl e =>
          (<[code := {| fp_name := fp_name pos; fp_shares := total_shares;
                        fp_cost := cost'; fp_held_days := fp_held_days pos;
                        fp_history := fp_history pos |}]> portfolio, inl e)
      | inr amt =>
          let record := {| fr_date := today; fr_price := record_price; fr_s := "B";
                           fr_amt := amt |} in
          (<[code := {| fp_name := fp_name pos; fp_shares := total_shares;
                        fp_cost := cost';
                        fp_held_days := if Z.eqb (fp_held_days pos) 0
                                        then 1%Z else fp_held_days pos;
                        fp_history := append_history_float record (fp_history pos) |}]>
             portfolio, mret tt)
      end.

Definition confirm_trades_float (portfolio : gmap string FloatPosition)
  : gmap string FloatPosition :=
  (fun pos =>
     if fgtb (fp_shares pos) (Some 0)
     then {| fp_name := fp_name pos; fp_shares := fp_shares pos;
             fp_cost := fp_cost pos; fp_held_days := (fp_held_days pos + 1)%Z;
             fp_history := fp_history pos |}
     else pos) <$> portfolio.

(** The calls that change the ledger.  A caller that catches the
    exception of a call goes on with the ledger as the call left it. *)
Inductive float_call :=
| FloatAddTrade (today code name : string) (amount_or_value price : float)
                (is_sell : bool)
| FloatConfirmTrades.



(** "if shares == 0 then cost == 0 and held_days == 0", with the
    comparisons of the interpreter. *)
Definition float_position_inv (pos : FloatPosition) : Prop :=
  float_eqb (fp_shares pos) (Some 0) = true ->
  float_eqb (fp_cost pos) (Some 0) = true /\ fp_held_days pos = 0%Z.




(** *** The finite ledger inside the float ledger *)

Definition lift_record (r : TradeRecord) : FloatRecord :=
  {| fr_date := rec_date r; fr_price := Some (rec_price r); fr_s := rec_s r;
     fr_amt := rec_amt r |}.

Definition lift_position (pos : Position) : FloatPosition :=
  {| fp_name := name pos; fp_shares := Some (shares pos); fp_cost := Some (cost pos);
     fp_held_days := held_days pos; fp_history := lift_record <$> history pos |}.

Definition lift_call (c : ledger_call) : float_call :=
  match c with
  | AddTrade today code name a p is_sell =>
      FloatAddTrade today code name (Some a) (Some p) is_sell
  | ConfirmTrades => FloatConfirmTrades
  end.

Definition lower_call (c : float_call) : ledger_call :=
  match c with
  | FloatAddTrade today code name a p is_sell =>
      AddTrade today code name (default 0 a) (default 0 p) is_sell
  | FloatConfirmTrades => ConfirmTrades
  end.

End FloatLedger.
Import PyExc.

(* ================================================================== *)
(** ** technical_analyzer.py *)

Module TechnicalAnalyzer.

(** *** The reading *)

Record MacdReading := {
  line : float;
  signal : float;
  hist : float;
  trend : string
}.

Record RiskFactors := {
  bollinger_pct_b : float;
  vol_ratio : float;
  divergence : option string
}.

Record Flow := { obv_slope : float }.

(** The dictionary returned by [calculate_indicators].  A key that the
    dictionary may lack is an [option]: ['final_score'] is present only in
    the safe default, and ['ai_adjustment'], ['valuation_desc'] and
    ['quant_reasons'] are absent until [calculate_position_v13] writes
    them. *)
Record TechnicalReading := {
  rsi : float;
  macd : MacdReading;
  risk_factors : RiskFactors;
  flow : Flow;
  trend_weekly : string;
  price : float;
  quant_score : Z;
  final_score : option Z;
  tech_cro_signal : string;
  tech_cro_comment : string;
  ai_adjustment : option Z;
  valuation_desc : option string;
  quant_reasons : option (list string)
}.

Definition _get_safe_default_indicators (error_msg : string) : TechnicalReading :=
  {| rsi := Some 50;
     macd := {| line := Some 0; signal := Some 0; hist := Some 0; trend := "未知" |};
     risk_factors := {| bollinger_pct_b := Some 0.5; vol_ratio := Some 1.0;
                        divergence := Some "无"%string |};
     flow := {| obv_slope := Some 0 |};
     trend_weekly := "Unknown";
     price := Some 0;
     quant_score := 0;
     final_score := Some 0%Z;
     tech_cro_signal := "VETO";
     tech_cro_comment := "系统风控: " +:+ error_msg;
     ai_adjustment := None;
     valuation_desc := None;
     quant_reasons := None |}.

(** *** Time of day *)

(** A [datetime]: the calendar day as days since 1970-01-01, and the
    wall-clock hour and minute. *)
Record datetime := { day : Z; hour : Z; minute : Z }.

(** [t.time() < dt_time(h, m)] *)
Definition time_ltb (t : datetime) (h m : Z) : bool :=
  (hour t <? h)%Z || ((hour t =? h)%Z && (minute t <? m)%Z).

Definition _calculate_trade_minutes (current_time : datetime) : Z :=
  let t_min := (hour current_time * 60 + minute current_time)%Z in
  let t_open_am := (9 * 60 + 30)%Z in
  let t_close_am := (11 * 60 + 30)%Z in
  let t_open_pm := (13 * 60)%Z in
  let t_close_pm := (15 * 60)%Z in
  if (t_min <? t_open_am)%Z then 0%Z
  else if (t_open_am <=? t_min)%Z && (t_min <=? t_close_am)%Z then (t_min - t_open_am)%Z
  else if (t_close_am <? t_min)%Z && (t_min <? t_open_pm)%Z then 120%Z
  else if (t_open_pm <=? t_min)%Z && (t_min <=? t_close_pm)%Z
       then (120 + (t_min - t_open_pm))%Z
  else 240%Z.

(** *** The price frame *)

(** One row: its index entry (the trading day, as days since 1970-01-01)
    and its cells after [pd.to_numeric(errors='coerce')], which turns
    whatever does not parse into NaN.  A cell of a column the frame does
    not have is ignored. *)
Record Bar := {
  bar_date : Z;
  c_open : float;
  c_high : float;
  c_low : float;
  c_close : float;
  c_volume : float;
  c_amount : float;
  c_fetch_time : option datetime
}.

(** A frame: the column labels as delivered, and the rows in index order. *)
Record DataFrame := {
  columns : list string;
  bars : list Bar
}.

(** [df.empty]: some axis has length zero. *)
Definition df_empty (df : DataFrame) : bool :=
  (length (columns df) =? 0)%nat || (length (bars df) =? 0)%nat.

(** [c.lower().strip()].  A label is the UTF-8 encoding of the Python
    string. *)
Definition utf8 (bytes : list nat) : string :=
  String.string_of_list_ascii (map ascii_of_nat bytes).

(** The white space of [str.strip()]: the characters for which
    [str.isspace] holds, U+0009 to U+000D, U+001C to U+0020, U+0085,
    U+00A0, U+1680, U+2000 to U+200A, U+2028, U+2029, U+202F, U+205F and
    U+3000. *)
Definition whitespace : list string :=
  map utf8
    [[9]; [10]; [11]; [12]; [13]; [28]; [29]; [30]; [31]; [32];
     [194; 133]; [194; 160]; [225; 154; 128];
     [226; 128; 128]; [226; 128; 129]; [226; 128; 130]; [226; 128; 131];
     [226; 128; 132]; [226; 128; 133]; [226; 128; 134]; [226; 128; 135];
     [226; 128; 136]; [226; 128; 137]; [226; 128; 138];
     [226; 128; 168]; [226; 128; 169]; [226; 128; 175]; [226; 129; 159];
     [227; 128; 128]]%nat.

(** [s] without its prefix [p]. *)
Definition drop_prefix (p s : string) : option string :=
  if String.prefix p s
  then Some (String.substring (String.length p)
                              (String.length s - String.length p) s)
  else None.

(** [s] without one leading character of [ws]. *)
Definition drop_space (ws : list string) (s : string) : option string :=
  foldr (fun w rest => match drop_prefix w s with
                       | Some r => Some r
                       | None => rest
                       end) None ws.

Fixpoint lstrip_with (ws : list string) (fuel : nat) (s : string) : string :=
  match fuel with
  | O => s
  | S fuel =>
      match drop_space ws s with
      | Some r => lstrip_with ws fuel r
      | None => s
      end
  end.

Definition lstrip (s : string) : string :=
  lstrip_with whitespace (String.length s) s.

(** The trailing white space is the leading one of the reversed bytes; an
    encoded character is never the tail of another one. *)
Definition rstrip (s : string) : string :=
  String.rev (lstrip_with (map String.rev whitespace) (String.length s)
                          (String.rev s)).

Definition strip (s : string) : string := rstrip (lstrip s).

Definition lower_char (c : ascii) : ascii :=
  let n := nat_of_ascii c in
  if (65 <=? n)%nat && (n <=? 90)%nat then ascii_of_nat (n + 32) else c.

Definition is_byte (n : nat) (c : ascii) : bool := (nat_of_ascii c =? n)%nat.

(** [s.lower()]: the ASCII capitals, and the two other characters whose
    lower case contains an ASCII letter, U+212A (Kelvin sign, to k) and
    U+0130 (to i followed by U+0307).  Every other character is left as
    it is: Python may change it, but only into characters outside ASCII,
    and the labels are only compared with ASCII names. *)
Fixpoint lower (s : string) : string :=
  match s with
  | EmptyString => EmptyString
  | String c1 t =>
      match t with
      | String c2 t2 =>
          if is_byte 196 c1 && is_byte 176 c2
          then String "i" (utf8 [204; 135]%nat +:+ lower t2)
          else
            match t2 with
            | String c3 t3 =>
                if is_byte 226 c1 && is_byte 132 c2 && is_byte 170 c3
                then String "k" (lower t3)
                else String (lower_char c1) (lower t)
            | EmptyString => String (lower_char c1) (lower t)
            end
      | EmptyString => String (lower_char c1) EmptyString
      end
  end.

Definition has_column (col : string) (cols : list string) : bool :=
  bool_decide (col ∈ cols).

(** [df.rename(columns={'amount': 'volume'})]: the label changes and the
    volume cells are the amount cells from now on. *)
Definition amount_as_volume (b : Bar) : Bar :=
  {| bar_date := bar_date b; c_open := c_open b; c_high := c_high b;
     c_low := c_low b; c_close := c_close b; c_volume := c_amount b;
     c_amount := c_amount b; c_fetch_time := c_fetch_time b |}.

Definition rename_amount (cols : list string) : list string :=
  map (fun c => if String.eqb c "amount" then "volume"%string else c) cols.

Definition required_cols : list string := ["close"; "volume"; "high"; "low"; "open"].

(** [str] of a list of strings, as in [f"{missing}"]. *)
Definition str_list (l : list string) : string :=
  "[" +:+ String.concat ", " (map (fun c => "'" +:+ c +:+ "'") l) +:+ "]".

Definition with_volume (v : float) (b : Bar) : Bar :=
  {| bar_date := bar_date b; c_open := c_open b; c_high := c_high b;
     c_low := c_low b; c_close := c_close b; c_volume := v;
     c_amount := c_amount b; c_fetch_time := c_fetch_time b |}.

(** The block "全时段动态成交量投影": the volume of the bar still forming
    is scaled to a full day.  [now] is [get_beijing_time()]. *)
Definition project_volume (now : datetime) (cols : list string) (rows : list Bar)
  : result (list Bar) :=
  last_bar ← iloc_back rows 1;
  let last_date := bar_date last_bar in
  let current_ref_time :=
    if has_column "fetch_time" cols
    then default now (c_fetch_time last_bar)
    else now in
  if (last_date =? day current_ref_time)%Z && time_ltb current_ref_time 15 0 then
    let trade_mins := _calculate_trade_minutes current_ref_time in
    if (15 <? trade_mins)%Z then
      let original_vol := c_volume last_bar in
      let multiplier := 240 / inject_Z trade_mins in
      let multiplier :=
        if (trade_mins <? 120)%Z then multiplier * 0.9 else multiplier * 1.05 in
      match fmul original_vol (Some multiplier) with
      | Some projected_vol =>
          mret (alter (with_volume (Some (inject_Z (py_int projected_vol))))
                      (length rows - 1)%nat rows)
      | None => raise "cannot convert float NaN to integer"
      end
    else mret rows
  else mret rows.

(** *** pandas series *)

Fixpoint ffill_from (prev : float) (l : list float) : list float :=
  match l with
  | [] => []
  | x :: t =>
      let x' := match x with Some _ => x | None => prev end in
      x' :: ffill_from x' t
  end.

Definition ffill (l : list float) : list float := ffill_from NaN l.
Definition bfill (l : list float) : list float := rev (ffill (rev l)).

(** [series.rolling(w).mean().iloc[-1]]: the mean of the last [w]
    entries, NaN when there are fewer or one of them is NaN. *)
Definition rolling_mean_last (w : nat) (l : list float) : float :=
  if (length l <? w)%nat then NaN
  else fdiv (foldl fadd (Some 0) (drop (length l - w) l))
            (Some (inject_Z (Z.of_nat w))).

(** The week a day falls in, for weeks that end on Sunday (pandas ['W']):
    day 3 is Sunday 1970-01-04 and closes week 0. *)
Definition week_of (d : Z) : Z := ((d + 3) `div` 7)%Z.

(** The last entry that is not NaN, NaN when there is none. *)
Definition last_valid (l : list float) : float :=
  default NaN (last (filter (fun x => is_Some x) l)).

(** [df.resample('W').agg({'close': 'last'})['close']] for rows in
    chronological order: one entry per week from the first week to the
    last, NaN for a week without a row. *)
Definition resample_W_last (dates : list Z) (close : list float) : list float :=
  match dates with
  | [] => []
  | d0 :: _ =>
      let weeks := map week_of dates in
      let lo := foldr Z.min (week_of d0) weeks in
      let hi := foldr Z.max (week_of d0) weeks in
      map (fun w =>
             last_valid (map snd (filter (fun dc => week_of (fst dc) = w)
                                         (zip dates close))))
          (seqZ lo (hi - lo + 1))
  end.

(** *** The indicator package *)

(** The series computed by the [ta] package, at the window sizes given at
    the call sites. *)
Class IndicatorLibrary := {
  (** [RSIIndicator(close, window).rsi()] *)
  RSIIndicator : list float -> nat -> result (list float);
  (** [MACD(close, window_slow, window_fast, window_sign)] and its
      [macd()], [macd_signal()], [macd_diff()] *)
  MACD_macd : list float -> nat -> nat -> nat -> result (list float);
  MACD_macd_signal : list float -> nat -> nat -> nat -> result (list float);
  MACD_macd_diff : list float -> nat -> nat -> nat -> result (list float);
  (** [BollingerBands(close, window, window_dev).bollinger_pband()] *)
  BollingerBands_pband : list float -> nat -> nat -> result (list float);
  (** [OnBalanceVolumeIndicator(close, volume).on_balance_volume()] *)
  OnBalanceVolume : list float -> list float -> result (list float)
}.

(** *** Trend, score and risk signal *)

(** "6. 趋势状态 (周线 MA5)" *)
Definition weekly_trend (dates : list Z) (close : list float) : string :=
  let df_weekly := resample_W_last dates close in
  if (5 <=? length df_weekly)%nat then
    let ma5_weekly := rolling_mean_last 5 df_weekly in
    let current_weekly_close := default NaN (last df_weekly) in
    if fgtb current_weekly_close ma5_weekly then "UP" else "DOWN"
  else "Unknown".

(** The label of the MACD histogram; [prev_hist] is the outcome of
    [macd_diff().iloc[-2]] inside the [try]. *)
Definition macd_trend_label (macd_hist : float) (prev_hist : result float) : string :=
  match prev_hist with
  | inr prev_hist =>
      let macd_trend := if fgtb macd_hist (Some 0) then "金叉" else "死叉" in
      if fgtb macd_hist (Some 0) && fltb macd_hist prev_hist then "红柱缩短"
      else if fltb macd_hist (Some 0) && fgtb macd_hist prev_hist then "绿柱缩短"
      else macd_trend
  | inl _ => "未知"
  end.

(** "7. 综合打分" *)
Definition quant_score_of (rsi macd_hist : float) (trend_status : string)
    (vol_ratio obv_slope : float) : Z :=
  let score := 50%Z in
  let score := if fltb rsi (Some 30) then (score + 15)%Z else score in
  let score := if fgtb rsi (Some 70) then (score - 10)%Z else score in
  let score := if fgtb macd_hist (Some 0) then (score + 10)%Z else score in
  let score := if String.eqb trend_status "UP" then (score + 20)%Z else score in
  let score := if fgtb vol_ratio (Some 1.2) then (score + 5)%Z else score in
  let score := if fltb vol_ratio (Some 0.6) then (score - 15)%Z else score in
  let score := if fgtb obv_slope (Some 0) then (score + 10)%Z else score in
  Z.max 0 (Z.min 100 score).

(** "8. CRO 信号生成": the three variables the rules update. *)
Record CroState := {
  current_risk_level : Z;
  cro_signal : string;
  cro_reason : string
}.

Definition cro_initial : CroState :=
  {| current_risk_level := 0; cro_signal := "PASS"; cro_reason := "技术指标正常" |}.

(** 规则 A: 周线趋势 *)
Definition rule_A (trend_status : string) (st : CroState) : CroState :=
  if String.eqb trend_status "DOWN" && (current_risk_level st <? 1)%Z
  then {| current_risk_level := 1; cro_signal := "WARN"; cro_reason := "周线趋势向下" |}
  else st.

Section Rules.
(** [str_float x] is the text of [x] inside an f-string. *)
Context (str_float : float -> string).

(** 规则 B: 流动性枯竭 *)
Definition rule_B (vol_ratio : float) (st : CroState) : CroState :=
  if fltb vol_ratio (Some 0.6) && (current_risk_level st <? 3)%Z
  then {| current_risk_level := 3; cro_signal := "VETO";
          cro_reason := "流动性枯竭(VR " +:+ str_float vol_ratio +:+ "<0.6)" |}
  else st.

(** 规则 C: RSI 极度超买 *)
Definition rule_C (rsi : float) (st : CroState) : CroState :=
  if fgtb rsi (Some 85) && (current_risk_level st <? 3)%Z
  then {| current_risk_level := 3; cro_signal := "VETO";
          cro_reason := "RSI极度超买(" +:+ str_float rsi +:+ ")" |}
  else st.

Definition cro_rules (trend_status : string) (vol_ratio rsi : float) : CroState :=
  rule_C rsi (rule_B vol_ratio (rule_A trend_status cro_initial)).

(** *** calculate_indicators *)

Context (lib : IndicatorLibrary).

(** The local variables of the [try] block that the score, the risk
    signal and the returned dictionary are built from. *)
Record Locals := {
  current_price : float;
  rsi_val : float;
  macd_line : float;
  macd_signal : float;
  macd_hist : float;
  macd_trend : string;
  pct_b : float;
  vol_ratio_raw : float;      (* [vol_ratio] *)
  obv_slope_raw : float;      (* [obv_slope] *)
  trend_status : string
}.

(** Sections 1 to 6 of the [try] block, on the rows after the projection:
    [df.ffill().bfill()], the indicator package, the volume ratio, the OBV
    slope and the weekly trend. *)
Definition compute_locals (rows : list Bar) : result Locals :=
  let dates := map bar_date rows in
  let close := bfill (ffill (map c_close rows)) in
  let volume := bfill (ffill (map c_volume rows)) in
  current_price ← iloc_back close 1;
  (* 1. RSI *)
  rsi_series ← RSIIndicator close 14;
  rsi_val ← iloc_back rsi_series 1;
  (* 2. MACD *)
  macd_series ← MACD_macd close 26 12 9;
  macd_line ← iloc_back macd_series 1;
  signal_series ← MACD_macd_signal close 26 12 9;
  macd_signal ← iloc_back signal_series 1;
  diff_series ← MACD_macd_diff close 26 12 9;
  macd_hist ← iloc_back diff_series 1;
  let macd_trend := macd_trend_label macd_hist (iloc_back diff_series 2) in
  (* 3. Bollinger %B *)
  pband ← BollingerBands_pband close 20 2;
  pct_b ← iloc_back pband 1;
  (* 4. Volume ratio *)
  let ma_vol_5 := rolling_mean_last 5 volume in
  last_volume ← iloc_back volume 1;
  let vol_ratio :=
    if fgtb ma_vol_5 (Some 0) then fdiv last_volume ma_vol_5 else Some 1.0 in
  (* 5. OBV *)
  obv ← OnBalanceVolume close volume;
  let obv_slope :=
    match (a ← iloc_back obv 1; b ← iloc_back obv 10;
           mret (fdiv (fsub a b) (Some 10))) with
    | inr slope => slope
    | inl _ => Some 0
    end in
  (* 6. weekly trend *)
  let trend_status := weekly_trend dates close in
  mret {| current_price := current_price; rsi_val := rsi_val;
          macd_line := macd_line; macd_signal := macd_signal;
          macd_hist := macd_hist; macd_trend := macd_trend; pct_b := pct_b;
          vol_ratio_raw := vol_ratio; obv_slope_raw := obv_slope;
          trend_status := trend_status |}.

(** The [indicators] dictionary, with the score of section 7 and the risk
    signal of section 8.  The score and the rules read the rounded RSI
    ([indicators['rsi']]) and the unrounded volume ratio, histogram and
    OBV slope. *)
Definition build_indicators (v : Locals) : TechnicalReading :=
  let rsi := fround (rsi_val v) 2 in
  let score := quant_score_of rsi (macd_hist v) (trend_status v)
                              (vol_ratio_raw v) (obv_slope_raw v) in
  let cro := cro_rules (trend_status v) (vol_ratio_raw v) rsi in
  {| rsi := rsi;
     macd := {| line := fround (macd_line v) 3; signal := fround (macd_signal v) 3;
                hist := fround (macd_hist v) 3; trend := macd_trend v |};
     risk_factors := {| bollinger_pct_b := fround (pct_b v) 2;
                        vol_ratio := fround (vol_ratio_raw v) 2;
                        divergence := None |};
     flow := {| obv_slope := fround (fdiv (obv_slope_raw v) (Some 10000)) 2 |};
     trend_weekly := trend_status v;
     price := current_price v;
     quant_score := score;
     final_score := None;
     tech_cro_signal := cro_signal cro;
     tech_cro_comment := cro_reason cro;
     ai_adjustment := None;
     valuation_desc := None;
     quant_reasons := None |}.

(** [[c.lower().strip() for c in df.columns]] *)
Definition clean_columns (df : DataFrame) : list string :=
  map (fun c => strip (lower c)) (columns df).

(** The body of the [try]: column clean-up, the check for the required
    columns (which returns early), the projection and the indicators. *)
Definition try_block (now : datetime) (df : DataFrame) : result TechnicalReading :=
  let cols := clean_columns df in
  let renamed := negb (has_column "volume" cols) && has_column "amount" cols in
  let cols := if renamed then rename_amount cols else cols in
  let rows := if renamed then map amount_as_volume (bars df) else bars df in
  let missing := filter (fun col => col ∉ cols) required_cols in
  match missing with
  | _ :: _ => mret (_get_safe_default_indicators ("缺少关键列:" +:+ str_list missing))
  | [] =>
      rows ← project_volume now cols rows;
      locals ← compute_locals rows;
      mret (build_indicators locals)
  end.

(** [df] is [None] or a frame; [now] is the clock read by
    [get_beijing_time()]. *)
Definition calculate_indicators (now : datetime) (df : option DataFrame)
  : TechnicalReading :=
  match df with
  | None => _get_safe_default_indicators "K线数据不足(<30)"
  | Some df =>
      if df_empty df || (length (bars df) <? 30)%nat
      then _get_safe_default_indicators "K线数据不足(<30)"
      else
        match try_block now df with
        | inr indicators => indicators
        | inl e => _get_safe_default_indicators ("计算异常: " +:+ String.substring 0 20 e)
        end
  end.

End Rules.

(** *** Well-formed price series *)

(** Dates strictly increasing, no duplicates. *)
Fixpoint increasing (dates : list Z) : bool :=
  match dates with
  | x :: ((y :: _) as rest) => (x <? y)%Z && increasing rest
  | _ => true
  end.

(** Identical flat bars: every price cell is [c], every volume is [v]. *)
Definition flat_bar (c v : Q) (b : Bar) : Prop :=
  c_open b = Some c /\ c_high b = Some c /\ c_low b = Some c /\
  c_close b = Some c /\ c_volume b = Some v.

(** The frame carries the five required columns under clean labels. *)
Definition has_required (df : DataFrame) : bool :=
  forallb (fun col => has_column col (clean_columns df)) required_cols.

(** A weekly value of a flat series: the flat price, or NaN for a week
    without a row. *)
Definition flat_or_nan (c : Q) (x : float) : Prop := x = None \/ x = Some c.

End TechnicalAnalyzer.

(* ================================================================== *)
(** ** main.py: the position decision *)

Module Main.
Import TechnicalAnalyzer.
Import PortfolioTracker.

(** The advisory adjustment as it arrives: a value [int()] converts (an
    [int], a numeric string), a [float], or a value on which [int()]
    raises. *)
Inductive AiAdj :=
| AdjInt (z : Z)
| AdjFloat (x : float)
| AdjInvalid.

(** [int(ai_adj)] *)
Definition int_of_adj (ai_adj : AiAdj) : result Z :=
  match ai_adj with
  | AdjInt z => mret z
  | AdjFloat (Some x) => mret (py_int x)
  | AdjFloat None => raise "cannot convert float NaN to integer"
  | AdjInvalid => raise "int() argument must be a string, a bytes-like object or a real number"
  end.

(** The returned tuple [(final_amt, label, is_sell, sell_val)]. *)
Record Decision := {
  final_amt : Z;
  label : string;
  is_sell : bool;
  sell_val : float
}.

Definition LABEL_HOLD : string := "观望".
Definition LABEL_BUY : string := "买入".
Definition LABEL_SELL : string := "卖出".

(** The [try] around [int(ai_adj)]. *)
Definition ai_adj_int_of (ai_adj : AiAdj) : Z :=
  match int_of_adj ai_adj with
  | inr z => z
  | inl _ => 0%Z
  end.

(** "1. 初始计算" and "2. CIO 一票否决权" *)
Definition tactical_score_of (base_score ai_adj_int : Z) (ai_decision : string) : Z :=
  let tactical_score := Z.max 0 (Z.min 100 (base_score + ai_adj_int)) in
  if String.eqb ai_decision "REJECT" then 0%Z
  else if String.eqb ai_decision "HOLD" then
    if (60 <=? tactical_score)%Z then 59%Z else tactical_score
  else tactical_score.

(** "4. 定档": the tier multiplier and the reason it appends. *)
Definition tactical_tier (tactical_score : Z) : Q * list string :=
  if (85 <=? tactical_score)%Z then (2.0, ["战术:极强"%string])
  else if (70 <=? tactical_score)%Z then (1.0, ["战术:走强"%string])
  else if (60 <=? tactical_score)%Z then (0.5, ["战术:企稳"%string])
  else if (tactical_score <=? 25)%Z then (-1.0, ["战术:破位"%string])
  else (0, []).

(** [strategy_type in ['core', 'dividend']] *)
Definition is_core_or_dividend (strategy_type : option string) : bool :=
  match strategy_type with
  | Some t => String.eqb t "core" || String.eqb t "dividend"
  | None => false
  end.

(** "5. 结合估值系数" *)
Definition valuation_blend (tactical_mult val_mult : Q)
    (strategy_type : option string) (reasons : list string) : Q * list string :=
  if Qltb 0 tactical_mult then
    if Qltb val_mult 0.5 then (0, reasons ++ ["战略:高估刹车"%string])
    else if Qltb 1.0 val_mult then (tactical_mult * val_mult, reasons ++ ["战略:低估加倍"%string])
    else (tactical_mult, reasons)
  else if Qltb tactical_mult 0 then
    if Qltb 1.2 val_mult then (0, reasons ++ ["战略:底部锁仓"%string])
    else if Qltb val_mult 0.8 then (tactical_mult * 1.5, reasons ++ ["战略:高估止损"%string])
    else (tactical_mult, reasons)
  else
    if Qle_bool 1.5 val_mult && is_core_or_dividend strategy_type
    then (0.5, reasons ++ ["战略:左侧定投"%string])
    else (tactical_mult, reasons).

(** "6. 风控" *)
Definition risk_gate (cro_signal : string) (final_mult : Q) (reasons : list string)
  : Q * list string :=
  if String.eqb cro_signal "VETO" && Qltb 0 final_mult
  then (0, reasons ++ ["🛡️风控:否决买入"%string])
  else (final_mult, reasons).

(** [pos.get('held_days', 999)] *)
Definition held_days_of (pos : PositionView) : Z :=
  default 999%Z (view_held_days pos).

(** "7. 锁仓规则" *)
Definition lock_rule (pos : PositionView) (final_mult : Q) (reasons : list string)
  : Q * list string :=
  let held_days := held_days_of pos in
  if Qltb final_mult 0 && Qltb 0 (view_shares pos) && (held_days <? 7)%Z
  then (0, reasons ++ ["规则:锁仓(" +:+ pretty held_days +:+ "天)"])
  else (final_mult, reasons).

(** The multiplier after steps 4 to 7, with the reasons collected. *)
Definition final_mult_of (tactical_score : Z) (cro_signal : string) (val_mult : Q)
    (pos : PositionView) (strategy_type : option string) : Q * list string :=
  let '(tactical_mult, reasons) := tactical_tier tactical_score in
  let '(final_mult, reasons) := valuation_blend tactical_mult val_mult strategy_type reasons in
  let '(final_mult, reasons) := risk_gate cro_signal final_mult reasons in
  lock_rule pos final_mult reasons.

(** "8. 计算最终金额" *)
Definition resolve_amount (final_mult base_amt max_daily : Q) (pos : PositionView)
    (price : float) : Decision :=
  if Qltb 0 final_mult then
    let amt := py_int (base_amt * final_mult) in
    {| final_amt := Z.max 0 (Z.min amt (py_int max_daily));
       label := LABEL_BUY; is_sell := false; sell_val := Some 0 |}
  else if Qltb final_mult 0 then
    let sell_ratio := py_min (Qabs final_mult) 1.0 in
    {| final_amt := 0; label := LABEL_SELL; is_sell := true;
       sell_val := fmul (fmul (Some (view_shares pos)) price) (Some sell_ratio) |}
  else
    {| final_amt := 0; label := LABEL_HOLD; is_sell := false; sell_val := Some 0 |}.

(** [calculate_position_v13]: the reading with the keys the function
    writes into it, and the returned tuple.  [tech] always carries
    ['quant_score'], ['tech_cro_signal'] and ['price'], so the defaults of
    [tech.get] for them are never taken. *)
Definition calculate_position_v13 (tech : TechnicalReading) (ai_adj : AiAdj)
    (ai_decision : string) (val_mult : Q) (val_desc : string)
    (base_amt max_daily : Q) (pos : PositionView) (strategy_type : option string)
  : TechnicalReading * Decision :=
  let base_score := quant_score tech in
  let ai_adj_int := ai_adj_int_of ai_adj in
  let tactical_score := tactical_score_of base_score ai_adj_int ai_decision in
  let cro_signal := tech_cro_signal tech in
  let '(final_mult, reasons) :=
    final_mult_of tactical_score cro_signal val_mult pos strategy_type in
  let decision := resolve_amount final_mult base_amt max_daily pos (price tech) in
  let tech' :=
    {| rsi := rsi tech;
       macd := macd tech;
       risk_factors := risk_factors tech;
       flow := flow tech;
       trend_weekly := trend_weekly tech;
       price := price tech;
       quant_score := quant_score tech;
       final_score := Some tactical_score;
       tech_cro_signal := tech_cro_signal tech;
       tech_cro_comment := tech_cro_comment tech;
       ai_adjustment := Some ai_adj_int;
       valuation_desc := Some val_desc;
       quant_reasons := match reasons with
                        | [] => quant_reasons tech
                        | _ :: _ => Some reasons
                        end |} in
  (tech', decision).

(** The amount the specification gives for a positive multiplier:
    clamp(round(base_amount × multiplier), 0, max_daily_amount). *)
Definition spec_buy_amount (base_amt final_mult max_daily : Q) : Q :=
  py_max 0 (py_min (inject_Z (round_half_even (base_amt * final_mult))) max_daily).

End Main.

(* ================================================================== *)
(** ** Sample inputs *)

Module Samples.
Import TechnicalAnalyzer.
Import PortfolioTracker.

(** A reading as [calculate_indicators] returns it on its normal path,
    with the given score, risk signal and latest price. *)
Definition reading (score : Z) (signal : string) (latest_price : Q) : TechnicalReading :=
  {| rsi := Some 55;
     macd := {| line := Some 0.012; signal := Some 0.01; hist := Some 0.002;
                trend := "金叉" |};
     risk_factors := {| bollinger_pct_b := Some 0.5; vol_ratio := Some 1.0;
                        divergence := None |};
     flow := {| obv_slope := Some 0 |};
     trend_weekly := "UP";
     price := Some latest_price;
     quant_score := score;
     final_score := None;
     tech_cro_signal := signal;
     tech_cro_comment := "技术指标正常";
     ai_adjustment := None;
     valuation_desc := None;
     quant_reasons := None |}.

(** A position as [get_position] returns it. *)
Definition holding (n : Q) (avg_cost : Q) (days : Z) : PositionView :=
  {| view_shares := n; view_cost := avg_cost; view_held_days := Some days |}.

(** [n] identical bars on consecutive days from [first_day] on, in a frame
    with the five price columns. *)
Definition flat_frame (n : nat) (first_day : Z) (c v : Q) : DataFrame :=
  {| columns := ["open"; "high"; "low"; "close"; "volume"];
     bars := map (fun d => {| bar_date := d;
                              c_open := Some c; c_high := Some c; c_low := Some c;
                              c_close := Some c; c_volume := Some v;
                              c_amount := NaN; c_fetch_time := None |})
                 (seqZ first_day (Z.of_nat n)) |}.

(** An indicator package that reports a quiet market whatever the input:
    RSI 50, MACD line, signal and histogram 0, %B 0.5 and a level OBV. *)
Definition quiet_library : IndicatorLibrary :=
  {| RSIIndicator := fun close _ => inr (map (fun _ => Some 50) close);
     MACD_macd := fun close _ _ _ => inr (map (fun _ => Some 0) close);
     MACD_macd_signal := fun close _ _ _ => inr (map (fun _ => Some 0) close);
     MACD_macd_diff := fun close _ _ _ => inr (map (fun _ => Some 0) close);
     BollingerBands_pband := fun close _ _ => inr (map (fun _ => Some 0.5) close);
     OnBalanceVolume := fun close _ => inr (map (fun _ => Some 0) close) |}.

(** The text of a float inside an f-string, for the samples: the decimal
    digits are not modelled. *)
Definition plain_str_float (x : float) : string :=
  match x with
  | Some _ => "<float>"
  | None => "nan"
  end.

(** The locals of a run with RSI 90, volume ratio 1.0 and the weekly
    trend UP. *)
Definition overbought_locals : Locals :=
  {| current_price := Some 10; rsi_val := Some 90;
     macd_line := Some 0.2; macd_signal := Some 0.1; macd_hist := Some 0.1;
     macd_trend := "金叉"; pct_b := Some 0.95;
     vol_ratio_raw := Some 1.0; obv_slope_raw := Some 0;
     trend_status := "UP" |}.

(** 15:30 on a day, after the close. *)
Definition after_close (d : Z) : datetime := {| day := d; hour := 15; minute := 30 |}.

End Samples.

(* ================================================================== *)
(** ** utils.py: retry *)

Module Utils.

(** One run of the wrapper built by [retry(retries, delay)]: what it
    returns or raises, how often it called [func] and how often it slept.
    [inr None] is the [None] returned when the loop ends without a call. *)
Record RetryRun (A : Type) := {
  outcome : result (option A);
  calls : nat;
  sleeps : nat
}.
Arguments outcome {A} _.
Arguments calls {A} _.
Arguments sleeps {A} _.

(** The loop [for i in range(retries)], from index [i] with [n] rounds
    left.  [attempts k] is the outcome of the call of [func] in round [k]. *)
Fixpoint retry_loop {A : Type} (attempts : nat -> result A) (retries i n slept : nat)
  : RetryRun A :=
  match n with
  | O => {| outcome := inr None; calls := i; sleeps := slept |}
  | S n' =>
      match attempts i with
      | inr a => {| outcome := inr (Some a); calls := S i; sleeps := slept |}
      | inl e =>
          if (i =? retries - 1)%nat
          then {| outcome := inl e; calls := S i; sleeps := slept |}
          else retry_loop attempts retries (S i) n' (S slept)
      end
  end.

Definition retry {A : Type} (retries : nat) (attempts : nat -> result A) : RetryRun A :=
  retry_loop attempts retries 0 retries 0.

End Utils.

(* ================================================================== *)
(** ** portfolio_tracker.py: loading the ledger file *)

Module LedgerStore.
Import PortfolioTracker.

(** A position as it is found in [portfolio.json]: a key written by an
    older version may be missing. *)
Record StoredPosition := {
  st_name : option string;
  st_shares : option Q;
  st_cost : option Q;
  st_held_days : option Z;
  st_history : option (list TradeRecord)
}.

(** The state of the file at [self.filepath]. *)
Inductive PortfolioFile :=
| FileMissing
| FileUnreadable                            (* [json.load] raises *)
| FileContent (m : gmap string StoredPosition).

Definition is_complete (pos : StoredPosition) : bool :=
  bool_decide (is_Some (st_shares pos)) && bool_decide (is_Some (st_cost pos)) &&
  bool_decide (is_Some (st_held_days pos)) && bool_decide (is_Some (st_history pos)).

(** The four [if ... not in pos] of the self-healing loop. *)
Definition heal (pos : StoredPosition) : StoredPosition :=
  {| st_name := st_name pos;
     st_shares := Some (default 0 (st_shares pos));
     st_cost := Some (default 0.0 (st_cost pos));
     st_held_days := Some (default 0%Z (st_held_days pos));
     st_history := Some (default [] (st_history pos)) |}.

(** The flag [dirty] after the loop: some position lacked a key. *)
Definition dirty (m : gmap string StoredPosition) : bool :=
  bool_decide (~ map_Forall (fun _ pos => is_complete pos = true) m).

(** [_load_portfolio]: [self.portfolio] and the file afterwards (a save
    is taken to succeed). *)
Definition _load_portfolio (file : PortfolioFile)
  : gmap string StoredPosition * PortfolioFile :=
  match file with
  | FileMissing => (∅, FileContent ∅)
  | FileUnreadable => (∅, FileUnreadable)
  | FileContent m =>
      let healed := heal <$> m in
      (healed, if dirty m then FileContent healed else FileContent m)
  end.

End LedgerStore.

(* ================================================================== *)
(** ** valuation_engine.py *)

Module ValuationEngine.

Definition INDEX_MAP : gmap string string :=
  list_to_map
    [("沪深300", "sh000300"); ("中证500", "sh000905"); ("创业板指", "sz399006");
     ("科创50", "sh000688"); ("恒生科技", "hkHSTECH"); ("中证红利", "sz399922");
     ("中证煤炭", "sz399998"); ("全指证券公司", "sz399975");
     ("中华半导体", "sz399989"); ("纳斯达克100", "us.NDX")]%string.

(** [_fetch_index_history]: [network code] is the outcome of
    [ak.stock_zh_index_daily_em(symbol=code)['close']]. *)
Definition _fetch_index_history (network : string -> result (list float))
    (index_code : string) : option (list float) :=
  if String.prefix "us." index_code then None
  else if String.prefix "hk" index_code then None
  else match network index_code with
       | inr close => Some close
       | inl _ => None
       end.

(** [series.min()] and [series.max()]: NaN entries are skipped, the result
    is NaN when nothing is left. *)
Definition fmin (a b : float) : float :=
  match a, b with
  | Some x, Some y => Some (py_min x y)
  | Some x, None => Some x
  | None, _ => b
  end.
Definition fmax (a b : float) : float :=
  match a, b with
  | Some x, Some y => Some (py_max x y)
  | Some x, None => Some x
  | None, _ => b
  end.
Definition series_min (l : list float) : float := foldr fmin NaN l.
Definition series_max (l : list float) : float := foldr fmax NaN l.

(** [a == b] on floats: false when one of them is NaN. *)
Definition feqb (a b : float) : bool :=
  match a, b with
  | Some x, Some y => Qeq_bool x y
  | _, _ => false
  end.

(** Step 2: the place of the latest price between the low and the high of
    the window. *)
Definition percentile_of (window_data : list float) : float :=
  let current_price := default NaN (last window_data) in
  let low_val := series_min window_data in
  let high_val := series_max window_data in
  if feqb high_val low_val then Some 0.5
  else fdiv (fsub current_price low_val) (fsub high_val low_val).

(** Step 3: the multiplier and the description for a strategy type. *)
Definition valuation_tier (strategy_type : option string) (percentile : Q)
    (p_str : string) : Q * string :=
  if bool_decide (strategy_type = Some "core"%string) then
    if Qltb percentile 0.20 then (1.5, "极度低估(分位" +:+ p_str +:+ ")")
    else if Qltb percentile 0.40 then (1.2, "低估(分位" +:+ p_str +:+ ")")
    else if Qltb 0.80 percentile then (0.5, "高估(分位" +:+ p_str +:+ ")")
    else if Qltb 0.90 percentile then (0.0, "极度高估(分位" +:+ p_str +:+ ")")
    else (1.0, "估值适中(分位" +:+ p_str +:+ ")")
  else if bool_decide (strategy_type = Some "satellite"%string) then
    if Qltb 0.85 percentile then (0.0, "泡沫预警(分位" +:+ p_str +:+ ")")
    else (1.0, "估值允许(分位" +:+ p_str +:+ ")")
  else if bool_decide (strategy_type = Some "dividend"%string) then
    if Qltb 0.70 percentile then (0.0, "红利高估(分位" +:+ p_str +:+ ")")
    else if Qltb percentile 0.30 then (1.5, "红利黄金坑(分位" +:+ p_str +:+ ")")
    else (1.0, "估值适中(分位" +:+ p_str +:+ ")")
  else (1.0, "策略未定义"%string).

(** The body of the [try]; the exception is that of [int(percentile*100)]
    on NaN. *)
Definition valuation_try (network : string -> result (list float))
    (index_code : string) (strategy_type : option string) : result (Q * string) :=
  match _fetch_index_history network index_code with
  | None => mret (1.0, "数据源受限(降级适中)"%string)
  | Some history_series =>
      if (length history_series <? 250)%nat
      then mret (1.0, "数据源受限(降级适中)"%string)
      else
        let window_data := drop (length history_series - 1250) history_series in
        match percentile_of window_data with
        | None => raise "cannot convert float NaN to integer"
        | Some percentile =>
            let p_str := pretty (py_int (percentile * 100)) +:+ "%" in
            mret (valuation_tier strategy_type percentile p_str)
        end
  end.

(** [get_valuation_status]: the [except] branch returns the neutral pair
    with its own description. *)
Definition get_valuation_status (network : string -> result (list float))
    (index_name strategy_type : option string) : Q * string :=
  match index_name with
  | None => (1.0, "非A股宽基/无数据(默认适中)"%string)
  | Some index_name =>
      if String.eqb index_name "" then (1.0, "非A股宽基/无数据(默认适中)"%string)
      else
        match INDEX_MAP !! index_name with
        | None => (1.0, "非A股宽基/无数据(默认适中)"%string)
        | Some index_code =>
            match valuation_try network index_code strategy_type with
            | inr r => r
            | inl _ => (1.0, "计算错误(默认适中)"%string)
            end
        end
  end.

(** The call in [process_single_fund].  For an index name that is a
    string or is missing, [get_valuation_status] returns a pair on every
    path, so the [except] around the call, with its pair
    (1.0, "估值异常"), is not taken. *)
Definition valuation_of (network : string -> result (list float))
    (index_name strategy_type : option string) : Q * string :=
  get_valuation_status network index_name strategy_type.

End ValuationEngine.

(* ================================================================== *)
(** ** main.py: calculate_position_v13 on a position that may hold NaN *)

Module FloatEngine.
Import TechnicalAnalyzer.
Import PortfolioTracker.
Import FloatLedger.
Import Main.

(** [calculate_position_v13] reads the position twice, in the lock rule
    ([pos['shares'] > 0]) and in the sell value ([pos['shares'] * price *
    sell_ratio]).  [Main] has these for a position whose shares are a
    number; here they are for the dictionary of [get_position] as the
    ledger hands it out, whose shares may be NaN.  Steps 1 to 6 do not
    read the position and are those of [Main]. *)

(** "7. 锁仓规则" *)
Definition lock_rule_float (pos : FloatView) (final_mult : Q) (reasons : list string)
  : Q * list string :=
  let held_days := default 999%Z (fv_held_days pos) in
  if Qltb final_mult 0 && fgtb (fv_shares pos) (Some 0) && (held_days <? 7)%Z
  then (0, reasons ++ ["规则:锁仓(" +:+ pretty held_days +:+ "天)"])
  else (final_mult, reasons).

Definition final_mult_of_float (tactical_score : Z) (cro_signal : string)
    (val_mult : Q) (pos : FloatView) (strategy_type : option string)
  : Q * list string :=
  let '(tactical_mult, reasons) := tactical_tier tactical_score in
  let '(final_mult, reasons) := valuation_blend tactical_mult val_mult strategy_type reasons in
  let '(final_mult, reasons) := risk_gate cro_signal final_mult reasons in
  lock_rule_float pos final_mult reasons.

(** "8. 计算最终金额" *)
Definition resolve_amount_float (final_mult base_amt max_daily : Q) (pos : FloatView)
    (price : float) : Decision :=
  if Qltb 0 final_mult then
    let amt := py_int (base_amt * final_mult) in
    {| final_amt := Z.max 0 (Z.min amt (py_int max_daily));
       label := LABEL_BUY; is_sell := false; sell_val := Some 0 |}
  else if Qltb final_mult 0 then
    let sell_ratio := py_min (Qabs final_mult) 1.0 in
    {| final_amt := 0; label := LABEL_SELL; is_sell := true;
       sell_val := fmul (fmul (fv_shares pos) price) (Some sell_ratio) |}
  else
    {| final_amt := 0; label := LABEL_HOLD; is_sell := false; sell_val := Some 0 |}.

Definition calculate_position_v13_float (tech : TechnicalReading) (ai_adj : AiAdj)
    (ai_decision : string) (val_mult : Q) (val_desc : string)
    (base_amt max_daily : Q) (pos : FloatView) (strategy_type : option string)
  : TechnicalReading * Decision :=
  let base_score := quant_score tech in
  let ai_adj_int := ai_adj_int_of ai_adj in
  let tactical_score := tactical_score_of base_score ai_adj_int ai_decision in
  let cro_signal := tech_cro_signal tech in
  let '(final_mult, reasons) :=
    final_mult_of_float tactical_score cro_signal val_mult pos strategy_type in
  let decision := resolve_amount_float final_mult base_amt max_daily pos (price tech) in
  let tech' :=
    {| rsi := rsi tech;
       macd := macd tech;
       risk_factors := risk_factors tech;
       flow := flow tech;
       trend_weekly := trend_weekly tech;
       price := price tech;
       quant_score := quant_score tech;
       final_score := Some tactical_score;
       tech_cro_signal := tech_cro_signal tech;
       tech_cro_comment := tech_cro_comment tech;
       ai_adjustment := Some ai_adj_int;
       valuation_desc := Some val_desc;
       quant_reasons := match reasons with
                        | [] => quant_reasons tech
                        | _ :: _ => Some reasons
                        end |} in
  (tech', decision).

(** The position of [Main] that the comparisons of the lock rule cannot
    tell from [pos]: NaN shares are not above 0, like no shares. *)
Definition number_view (pos : FloatView) : PositionView :=
  {| view_shares := default 0 (fv_shares pos);
     view_cost := default 0 (fv_cost pos);
     view_held_days := fv_held_days pos |}.

End FloatEngine.

(* ================================================================== *)
(** ** main.py: process_single_fund *)

Module Pipeline.
Import TechnicalAnalyzer.
Import PortfolioTracker.
Import FloatLedger.
Import Main.
Import FloatEngine.

(** An entry of [config['funds']]. *)
Record Fund := {
  fund_code : string;
  fund_name : string;
  fund_strategy_type : option string;
  fund_index_name : option string
}.

(** [fuse_level] in [process_single_fund]. *)
Definition fuse_level_of (cro_signal : string) : Z :=
  if String.eqb cro_signal "VETO" then 3%Z
  else if String.eqb cro_signal "WARN" then 1%Z else 0%Z.

(** A value of the JSON object the model answers with, as far as the
    pipeline looks at it: its type, whether it is truthy, and the text of
    a string.  Of a list or an object only the number of entries counts. *)
Inductive PyValue :=
| VNone
| VBool (b : bool)
| VNumber (x : float)
| VStr (s : string)
| VList (entries : nat)
| VDict (entries : nat).

(** [bool(v)] *)
Definition truthy (v : PyValue) : bool :=
  match v with
  | VNone => false
  | VBool b => b
  | VNumber (Some x) => negb (Qeq_bool x 0)
  | VNumber None => true
  | VStr s => negb (String.eqb s "")
  | VList n | VDict n => negb (n =? 0)%nat
  end.

(** [v[:20]] succeeds on a string and on a list, and raises TypeError on
    every other value. *)
Definition sliceable (v : PyValue) : bool :=
  match v with
  | VStr _ | VList _ => true
  | _ => false
  end.

(** [v == s] for a string literal [s]. *)
Definition is_text (v : PyValue) (s : string) : bool :=
  match v with
  | VStr t => String.eqb t s
  | _ => false
  end.

(** The keys of the answer that the pipeline reads; [None] is a key that
    is missing. *)
Record AiResult := {
  res_decision : option PyValue;
  res_adjustment : option Z;
  res_bull_view : option PyValue;
  res_bull_say : option PyValue;
  res_bear_view : option PyValue;
  res_bear_say : option PyValue
}.

(** The JSON object of the reply, before [analyze_fund_v5] makes the
    adjustment an [int]. *)
Record ReplyObject := {
  reply_decision : option PyValue;
  reply_adjustment : option AiAdj;
  reply_bull_view : option PyValue;
  reply_bull_say : option PyValue;
  reply_bear_view : option PyValue;
  reply_bear_say : option PyValue
}.

(** What [analyze_fund_v5] gets back from the model: nothing usable (a
    status other than 200, content that is not a JSON object, or any
    exception), or a JSON object. *)
Inductive AdvisoryReply :=
| ReplyFailed
| ReplyParsed (obj : ReplyObject).

Definition _get_fallback_result : AiResult :=
  {| res_decision := Some (VStr "HOLD"); res_adjustment := Some 0%Z;
     res_bull_view := Some (VStr "Error"); res_bull_say := None;
     res_bear_view := Some (VStr "Error"); res_bear_say := None |}.

(** [analyze_fund_v5] after the request: the adjustment is made an [int]
    (0 when that fails), and a fuse level of 2 or more overrides the
    decision and the adjustment.  The function catches every exception
    of the request and of the parsing itself, so the [except] around its
    call in [process_single_fund] is not taken. *)
Definition analyze_fund_v5 (fuse_level : Z) (reply : AdvisoryReply) : AiResult :=
  match reply with
  | ReplyFailed => _get_fallback_result
  | ReplyParsed obj =>
      let adjustment := ai_adj_int_of (default (AdjInt 0) (reply_adjustment obj)) in
      let fused := (2 <=? fuse_level)%Z in
      {| res_decision := if fused then Some (VStr "REJECT") else reply_decision obj;
         res_adjustment := if fused then Some (-30)%Z else Some adjustment;
         res_bull_view := reply_bull_view obj; res_bull_say := reply_bull_say obj;
         res_bear_view := reply_bear_view obj; res_bear_say := reply_bear_say obj |}
  end.

(** [ai_res] in [process_single_fund]; [analyst] is [None] when no
    analyst could be built, and [ai_res] is then the empty dictionary. *)
Definition ai_result (analyst : option AdvisoryReply) (tech : TechnicalReading)
  : AiResult :=
  match analyst with
  | None => {| res_decision := None; res_adjustment := None;
               res_bull_view := None; res_bull_say := None;
               res_bear_view := None; res_bear_say := None |}
  | Some reply => analyze_fund_v5 (fuse_level_of (tech_cro_signal tech)) reply
  end.

(** [ai_adj]: 0 without an analyst, [ai_res.get('adjustment', 0)] with
    one. *)
Definition ai_adj_of (ai_res : AiResult) : AiAdj :=
  AdjInt (default 0%Z (res_adjustment ai_res)).

(** [ai_decision = ai_res.get('decision', 'PASS')], as the text the
    engine compares with "REJECT" and "HOLD": a value that is not a
    string equals neither, like the empty text. *)
Definition ai_decision_of (ai_res : AiResult) : string :=
  match default (VStr "PASS") (res_decision ai_res) with
  | VStr s => s
  | _ => ""%string
  end.

(** [a or b] *)
Definition py_or (a b : PyValue) : PyValue := if truthy a then a else b.

(** [bull] and [bear] *)
Definition bull_of (ai_res : AiResult) : PyValue :=
  py_or (default VNone (res_bull_view ai_res))
        (default (VStr "无") (res_bull_say ai_res)).
Definition bear_of (ai_res : AiResult) : PyValue :=
  py_or (default VNone (res_bear_view ai_res))
        (default (VStr "无") (res_bear_say ai_res)).

(** The log line after the ledger update: when [bull != '无'] it formats
    [bull[:20]] and [bear[:20]], and a value that cannot be sliced
    raises. *)
Definition logging_raises (ai_res : AiResult) : bool :=
  negb (is_text (bull_of ai_res) "无") &&
  negb (sliceable (bull_of ai_res) && sliceable (bear_of ai_res)).

(** The ledger update under [tracker_lock]: the ledger as it is left and
    whether [add_trade] raised. *)
Definition record_decision (today : string) (fund : Fund) (tech : TechnicalReading)
    (d : Decision) (portfolio : gmap string FloatPosition)
  : gmap string FloatPosition * result unit :=
  if (0 <? final_amt d)%Z then
    add_trade_float today (fund_code fund) (fund_name fund)
                    (Some (inject_Z (final_amt d))) (price tech) false portfolio
  else if is_sell d then
    add_trade_float today (fund_code fund) (fund_name fund)
                    (sell_val d) (price tech) true portfolio
  else (portfolio, mret tt).

(** What one call leaves behind: the entry of [results] ([None] when the
    function returns [None, "", []]) and the ledger. *)
Record Outcome := {
  out_result : option (TechnicalReading * Decision);
  out_portfolio : gmap string FloatPosition
}.

Section Process.
Context (str_float : float -> string) (lib : IndicatorLibrary).

(** [process_single_fund] from the price history on: [data] is what
    [get_fund_history] returned ([None] also when it raised), [val] the
    valuation pair, [analyst] the advisory reply.  An exception of
    [add_trade] or of the log line ends in the outer [except]: the fund
    is not reported, and the ledger stays as the call left it. *)
Definition process_single_fund (today : string) (now : datetime) (fund : Fund)
    (data : option DataFrame) (val : Q * string) (analyst : option AdvisoryReply)
    (base_amt max_daily : Q) (portfolio : gmap string FloatPosition) : Outcome :=
  let skipped := {| out_result := None; out_portfolio := portfolio |} in
  match data with
  | None => skipped
  | Some df =>
      if df_empty df then skipped
      else
        let tech := calculate_indicators str_float lib now data in
        let pos := get_position_float (fund_code fund) portfolio in
        let ai_res := ai_result analyst tech in
        let '(tech', d) :=
          calculate_position_v13_float tech (ai_adj_of ai_res) (ai_decision_of ai_res)
            (fst val) (snd val) base_amt max_daily pos (fund_strategy_type fund) in
        let '(portfolio', raised) := record_decision today fund tech' d portfolio in
        match raised with
        | inl _ => {| out_result := None; out_portfolio := portfolio' |}
        | inr _ =>
            if logging_raises ai_res
            then {| out_result := None; out_portfolio := portfolio' |}
            else {| out_result := Some (tech', d); out_portfolio := portfolio' |}
        end
  end.

End Process.

End Pipeline.

(* ================================================================== *)
(** ** Runs of the ledger and of the pipeline *)

Module Runs.
Import TechnicalAnalyzer.
Import PortfolioTracker.
Import FloatLedger.
Import Main.
Import Pipeline.






Section Run.
Context (str_float : float -> string) (lib : IndicatorLibrary).



End Run.

End Runs.

(* ================================================================== *)
(** ** Sample runs of the pipeline *)

Module PipelineSamples.
Import TechnicalAnalyzer.
Import PortfolioTracker.
Import FloatLedger.
Import Main.
Import Pipeline.
Import Runs.
Import Samples.

(** An indicator package that reports a positive MACD histogram and is
    quiet otherwise. *)
Definition firm_library : IndicatorLibrary :=
  {| RSIIndicator := fun close _ => inr (map (fun _ => Some 50) close);
     MACD_macd := fun close _ _ _ => inr (map (fun _ => Some 0.2) close);
     MACD_macd_signal := fun close _ _ _ => inr (map (fun _ => Some 0.1) close);
     MACD_macd_diff := fun close _ _ _ => inr (map (fun _ => Some 0.1) close);
     BollingerBands_pband := fun close _ _ => inr (map (fun _ => Some 0.5) close);
     OnBalanceVolume := fun close _ => inr (map (fun _ => Some 0) close) |}.


Definition etf : Fund :=
  {| fund_code := "510300"; fund_name := "沪深300ETF";
     fund_strategy_type := Some "core"%string;
     fund_index_name := Some "沪深300"%string |}.

(** A reply with the five keys the prompt asks for. *)
Definition text_reply (decision : string) (adjustment : Z) : AdvisoryReply :=
  ReplyParsed {| reply_decision := Some (VStr decision);
                 reply_adjustment := Some (AdjInt adjustment);
                 reply_bull_view := Some (VStr "催化剂明确");
                 reply_bull_say := None;
                 reply_bear_view := Some (VStr "敞口可控");
                 reply_bear_say := None |}.

(** The same reply with a number where the text of [bull_view] should
    be. *)
Definition numeric_reply (decision : string) (adjustment : Z) : AdvisoryReply :=
  ReplyParsed {| reply_decision := Some (VStr decision);
                 reply_adjustment := Some (AdjInt adjustment);
                 reply_bull_view := Some (VNumber (Some 7));
                 reply_bull_say := None;
                 reply_bear_view := Some (VStr "敞口可控");
                 reply_bear_say := None |}.


(** A ledger in which [etf] has been held for eight days: 50 shares
    bought at 10. *)
Definition held_ledger : gmap string FloatPosition :=
  Nat.iter 7 confirm_trades_float
    (fst (add_trade_float "2026-10-26" "510300" "沪深300ETF" (Some 500) (Some 10)
                          false ∅)).

End PipelineSamples.

(* ================================================================== *)
(** * Properties *)

(** ** Facts about the number model *)

Module PyNumFacts.

Lemma Qltb_lt (a b : Q) : Qltb a b = true <-> a < b.
Proof.
  unfold Qltb. rewrite negb_true_iff, <- not_true_iff_false, Qle_bool_iff.
  split; [apply Qnot_le_lt | apply Qlt_not_le].
Qed.

Lemma Qltb_ge (a b : Q) : Qltb a b = false <-> b <= a.
Proof.
  unfold Qltb. rewrite negb_false_iff, Qle_bool_iff. reflexivity.
Qed.

Lemma py_max_spec (a b : Q) : a <= py_max a b /\ b <= py_max a b.
Proof.
  unfold py_max. destruct (Qltb a b) eqn:E.
  - apply Qltb_lt in E. split; lra.
  - apply Qltb_ge in E. split; lra.
Qed.

Lemma py_min_spec (a b : Q) : py_min a b <= a /\ py_min a b <= b.
Proof.
  unfold py_min. destruct (Qltb b a) eqn:E.
  - apply Qltb_lt in E. split; lra.
  - apply Qltb_ge in E. split; lra.
Qed.

Lemma round_half_even_comp (x y : Q) :
  x == y -> round_half_even x = round_half_even y.
Proof.
  intros E. unfold round_half_even.
  assert (Ef : Qfloor x = Qfloor y) by (rewrite E; reflexivity).
  rewrite Ef.
  assert (Ec : Qcompare (x - inject_Z (Qfloor y)) 0.5
               = Qcompare (y - inject_Z (Qfloor y)) 0.5) by (rewrite E; reflexivity).
  rewrite Ec. reflexivity.
Qed.

(** The nearest integer is at most one half away. *)
Lemma round_half_even_near (x : Q) :
  Qabs (inject_Z (round_half_even x) - x) <= 0.5.
Proof.
  pose proof (Qfloor_le x) as Hlo. pose proof (Qlt_floor x) as Hhi.
  rewrite inject_Z_plus in Hhi. change (inject_Z 1) with 1 in Hhi.
  apply Qabs_Qle_condition. unfold round_half_even.
  destruct (Qcompare_spec (x - inject_Z (Qfloor x)) 0.5) as [E|E|E].
  - destruct (Z.even (Qfloor x));
      [| rewrite inject_Z_plus; change (inject_Z 1) with 1]; split; lra.
  - split; lra.
  - rewrite inject_Z_plus. change (inject_Z 1) with 1. split; lra.
Qed.

(** Rounding leaves exactly the integers in place. *)
Lemma round_half_even_fix (x : Q) :
  inject_Z (round_half_even x) == x <-> exists z : Z, x == inject_Z z.
Proof.
  split.
  - intros E. exists (round_half_even x). symmetry. exact E.
  - intros [z E]. rewrite (round_half_even_comp _ _ E), E.
    unfold round_half_even. rewrite Qfloor_Z.
    destruct (Qcompare_spec (inject_Z z - inject_Z z) 0.5) as [E'|E'|E'];
      [lra | reflexivity | lra].
Qed.

Lemma scale_pos (n : nat) : 0 < inject_Z (10 ^ Z.of_nat n).
Proof.
  change 0 with (inject_Z 0). rewrite <- Zlt_Qlt.
  apply Z.pow_pos_nonneg; lia.
Qed.

Lemma py_round_comp (x y : Q) (n : nat) : x == y -> py_round x n == py_round y n.
Proof.
  intros E. unfold py_round.
  set (sc := inject_Z (10 ^ Z.of_nat n)).
  rewrite (round_half_even_comp (x * sc) (y * sc)); [reflexivity |].
  rewrite E. reflexivity.
Qed.

(** [round(x, n)] is within half a unit of the last kept digit. *)
Lemma py_round_near (x : Q) (n : nat) :
  Qabs (py_round x n - x) <= 0.5 / inject_Z (10 ^ Z.of_nat n).
Proof.
  unfold py_round. pose proof (scale_pos n) as Hs.
  set (sc := inject_Z (10 ^ Z.of_nat n)) in *.
  pose proof (round_half_even_near (x * sc)) as H.
  set (r := inject_Z (round_half_even (x * sc))) in *.
  apply Qabs_Qle_condition in H. apply Qabs_Qle_condition.
  assert (E1 : r / sc - x == (r - x * sc) / sc) by (field; lra).
  rewrite E1.
  assert (E2 : - (0.5 / sc) == (- 0.5) / sc) by (field; lra).
  rewrite E2.
  split; apply Qmult_le_compat_r; try lra; apply Qlt_le_weak, Qinv_lt_0_compat, Hs.
Qed.

(** [round(x, n)] returns [x] exactly when [x] has at most [n] decimals. *)
Lemma py_round_fix (x : Q) (n : nat) :
  py_round x n == x <-> exists z : Z, x * inject_Z (10 ^ Z.of_nat n) == inject_Z z.
Proof.
  unfold py_round. pose proof (scale_pos n) as Hs.
  set (sc := inject_Z (10 ^ Z.of_nat n)) in *.
  rewrite <- round_half_even_fix.
  set (r := inject_Z (round_half_even (x * sc))).
  split; intros E.
  - rewrite <- E. field. lra.
  - rewrite E. field. lra.
Qed.

End PyNumFacts.

(** ** The ledger *)

Module LedgerFacts.
Import PyNumFacts.
Import PortfolioTracker.








End LedgerFacts.

(** ** The finite ledger inside the float ledger *)

Module FloatLedgerFacts.
Import PyNumFacts.
Import PortfolioTracker.
Import PyExc.
Import FloatLedger.
Import LedgerFacts.


Lemma new_position_lift (name : string) :
  new_float_position name = lift_position (new_position name).
Proof. reflexivity. Qed.





(** A call on numbers is the lift of a call of the finite ledger. *)
Lemma finite_call_lift (c : float_call) :
  match c with
  | FloatAddTrade _ _ _ (Some _) (Some _) _ => True
  | FloatAddTrade _ _ _ _ _ _ => False
  | FloatConfirmTrades => True
  end ->
  lift_call (lower_call c) = c.
Proof.
  destruct c as [today code name [a|] [p|] is_sell|]; intros H;
    try contradiction; reflexivity.
Qed.






End FloatLedgerFacts.

Module LedgerClaims.
Import PyNumFacts.
Import PortfolioTracker.
Import LedgerFacts.
Import FloatLedger.
Import FloatLedgerFacts.

(** What a buy stores, for any position: the shares grow by
    [amount / price], the cost is the weighted average rounded to four
    decimals, and a holding age of 0 becomes 1. *)
Lemma buy_stores (today : string) (amount price : Q) (pos : Position) :
  0 < price -> 0 < shares pos + amount / price ->
  let pos' := trade_position today amount price false pos in
  shares pos' == shares pos + amount / price /\
  cost pos' ==
    py_round ((shares pos * cost pos + amount) / (shares pos + amount / price)) 4 /\
  held_days pos' = (if (held_days pos =? 0)%Z then 1 else held_days pos)%Z.
Proof.
  intros Hp Ht. unfold trade_position. cbn [shares cost held_days].
  split; [reflexivity |]. split; [| reflexivity].
  apply Qltb_lt in Ht. rewrite Ht. apply py_round_comp.
  assert (E : amount / price * price == amount) by (field; lra).
  rewrite E. reflexivity.
Qed.




(** C8: a buy of 1000 at 10 on an empty ledger gives shares 100, cost 10
    and held_days 1; a further buy of 500 at 20 gives shares 125 and cost
    12 = (100*10 + 500) / (100 + 500/20).  For any buy that reaches the
    cost update, the stored cost is
    (old_shares*old_cost + amount) / (old_shares + amount/price), rounded
    to four decimals, and held_days becomes 1 when it was 0. *)
Theorem buy_weighted_cost :
  (forall today code name : string,
     let p1 := add_trade today code name 1000 10 false ∅ in
     let p2 := add_trade today code name 500 20 false p1 in
     exists pos1 pos2,
       p1 !! code = Some pos1 /\ p2 !! code = Some pos2 /\
       shares pos1 == 100 /\ cost pos1 == 10 /\ held_days pos1 = 1%Z /\
       shares pos2 == 125 /\ cost pos2 == 12 /\ held_days pos2 = 1%Z /\
       cost pos2 ==
         (shares pos1 * cost pos1 + 500) / (shares pos1 + 500 / 20)) /\
  (forall (today : string) (amount price : Q) (pos : Position),
     0 < price -> 0 < shares pos + amount / price ->
     let pos' := trade_position today amount price false pos in
     shares pos' == shares pos + amount / price /\
     cost pos' ==
       py_round ((shares pos * cost pos + amount) / (shares pos + amount / price)) 4 /\
     held_days pos' = (if (held_days pos =? 0)%Z then 1 else held_days pos)%Z).
Proof.
  split.
  - intros today code name p1 p2.
    exists (trade_position today 1000 10 false (new_position name)).
    exists (trade_position today 500 20 false
              (trade_position today 1000 10 false (new_position name))).
    assert (E1 : p1 !! code
                 = Some (trade_position today 1000 10 false (new_position name))).
    { unfold p1, add_trade. change (Qle_bool 10 0) with false. cbv iota.
      rewrite lookup_empty. apply lookup_insert_eq. }
    split; [exact E1 |]. split.
    { unfold p2, add_trade. change (Qle_bool 20 0) with false. cbv iota.
      rewrite E1. apply lookup_insert_eq. }
    repeat split; vm_compute; reflexivity.
  - intros today amount price pos. apply buy_stores.
Qed.

Lemma buy_weighted_cost_witness :
  let pos := {| name := "沪深300ETF"; shares := 100; cost := 10;
                held_days := 1; history := [] |} in
  let pos' := trade_position "2026-11-04" 500 20 false pos in
  0 < 20 /\ 0 < shares pos + 500 / 20 /\
  shares pos' == shares pos + 500 / 20 /\
  cost pos' ==
    py_round ((shares pos * cost pos + 500) / (shares pos + 500 / 20)) 4 /\
  held_days pos' = (if (held_days pos =? 0)%Z then 1 else held_days pos)%Z.
Proof.
  intros pos pos'.
  assert (H1 : 0 < 20) by reflexivity.
  assert (H2 : 0 < shares pos + 500 / 20) by reflexivity.
  split; [exact H1 |]. split; [exact H2 |].
  exact (proj2 buy_weighted_cost "2026-11-04"%string 500 20 pos H1 H2).
Defined.

(** C10: on a buy that reaches the cost update, the stored cost is
    round(new_cost, 4) of the exact weighted average; it differs from the
    exact value by at most 0.00005, and equals it exactly when the exact
    value has at most four decimals. *)
Theorem buy_cost_rounded_4 (today : string) (amount price : Q) (pos : Position) :
  0 < price -> 0 < shares pos + amount / price ->
  let exact := (shares pos * cost pos + amount) / (shares pos + amount / price) in
  let stored := cost (trade_position today amount price false pos) in
  stored == py_round exact 4 /\
  Qabs (stored - exact) <= 0.00005 /\
  (stored == exact <-> exists z : Z, exact * 10000 == inject_Z z).
Proof.
  intros Hp Ht exact stored.
  destruct (buy_stores today amount price pos Hp Ht) as (_ & Hc & _).
  fold exact in Hc. fold stored in Hc.
  split; [exact Hc |]. split.
  - rewrite Hc. apply (py_round_near exact 4).
  - rewrite Hc. apply (py_round_fix exact 4).
Qed.

Lemma buy_cost_rounded_4_witness :
  let pos := {| name := "沪深300ETF"; shares := 100; cost := 10;
                held_days := 1; history := [] |} in
  let exact := (shares pos * cost pos + 1000) / (shares pos + 1000 / 3) in
  let stored := cost (trade_position "2026-11-04" 1000 3 false pos) in
  0 < 3 /\ 0 < shares pos + 1000 / 3 /\
  stored == py_round exact 4 /\
  Qabs (stored - exact) <= 0.00005 /\
  (stored == exact <-> exists z : Z, exact * 10000 == inject_Z z).
Proof.
  intros pos exact stored.
  assert (H1 : 0 < 3) by reflexivity.
  assert (H2 : 0 < shares pos + 1000 / 3) by reflexivity.
  split; [exact H1 |]. split; [exact H2 |].
  exact (buy_cost_rounded_4 "2026-11-04"%string 1000 3 pos H1 H2).
Defined.

End LedgerClaims.

(** ** The position decision *)

Module DecisionFacts.
Import PyNumFacts.
Import TechnicalAnalyzer.
Import PortfolioTracker.
Import Main.

(** Truncation of a non-negative number stays between 0 and the number. *)
Lemma py_int_nonneg (x : Q) :
  0 <= x -> (0 <= py_int x)%Z /\ inject_Z (py_int x) <= x.
Proof.
  intros Hx. destruct x as [n d]. unfold py_int. simpl.
  assert (Hn : (0 <= n)%Z).
  { unfold Qle in Hx. simpl in Hx. lia. }
  rewrite Z.quot_div_nonneg by lia. split.
  - apply Z.div_pos; lia.
  - apply (Qfloor_le (n # d)).
Qed.

(** The only negative tier is the breakdown tier, -1.0. *)
Lemma tactical_tier_negative (score : Z) :
  fst (tactical_tier score) < 0 ->
  tactical_tier score = (-1.0, ["战术:破位"%string]).
Proof.
  unfold tactical_tier.
  repeat (match goal with |- context [if ?b then _ else _] => destruct b end);
    simpl; intros H; try reflexivity; exfalso; revert H; apply Qle_not_lt; discriminate.
Qed.

(** Blending never turns a negative tier into a positive multiplier. *)
Lemma valuation_blend_breakdown (val_mult : Q) (strategy_type : option string)
    (reasons : list string) :
  fst (valuation_blend (-1.0) val_mult strategy_type reasons) <= 0.
Proof.
  unfold valuation_blend. change (Qltb 0 (-1.0)) with false.
  change (Qltb (-1.0) 0) with true. cbv iota.
  destruct (Qltb 1.2 val_mult); [simpl; lra |].
  destruct (Qltb val_mult 0.8); simpl; lra.
Qed.

Lemma risk_gate_nonpositive (cro_signal : string) (m : Q) (reasons : list string) :
  m <= 0 -> risk_gate cro_signal m reasons = (m, reasons).
Proof.
  intros Hm. unfold risk_gate.
  apply Qltb_ge in Hm. rewrite Hm, andb_false_r. reflexivity.
Qed.

(** After the lock rule a position held for less than 7 days is not sold. *)
Lemma lock_rule_locked (pos : PositionView) (m : Q) (reasons : list string) :
  m <= 0 -> 0 < view_shares pos -> (held_days_of pos < 7)%Z ->
  fst (lock_rule pos m reasons) == 0.
Proof.
  intros Hm Hs Hd. unfold lock_rule.
  apply Qltb_lt in Hs. rewrite Hs. apply Z.ltb_lt in Hd. rewrite Hd.
  rewrite !andb_true_r.
  destruct (Qltb m 0) eqn:E; simpl; [reflexivity |].
  apply Qltb_ge in E. lra.
Qed.

(** A zero multiplier resolves to hold with both amounts 0. *)
Lemma resolve_amount_zero (m base_amt max_daily : Q) (pos : PositionView)
    (price : float) :
  m == 0 ->
  resolve_amount m base_amt max_daily pos price
  = {| final_amt := 0; label := LABEL_HOLD; is_sell := false; sell_val := Some 0 |}.
Proof.
  intros E. unfold resolve_amount.
  assert (H1 : Qltb 0 m = false) by (apply Qltb_ge; lra).
  assert (H2 : Qltb m 0 = false) by (apply Qltb_ge; lra).
  rewrite H1, H2. reflexivity.
Qed.

(** The decision is [resolve_amount] at the multiplier of steps 4 to 7. *)
Lemma decision_unfold (tech : TechnicalReading) (ai_adj : AiAdj)
    (ai_decision : string) (val_mult : Q) (val_desc : string)
    (base_amt max_daily : Q) (pos : PositionView) (strategy_type : option string) :
  snd (calculate_position_v13 tech ai_adj ai_decision val_mult val_desc
         base_amt max_daily pos strategy_type)
  = resolve_amount
      (fst (final_mult_of
              (tactical_score_of (quant_score tech) (ai_adj_int_of ai_adj) ai_decision)
              (tech_cro_signal tech) val_mult pos strategy_type))
      base_amt max_daily pos (price tech).
Proof.
  unfold calculate_position_v13.
  destruct (final_mult_of _ _ _ _ _) as [m reasons]. reflexivity.
Qed.

End DecisionFacts.

Module DecisionClaims.
Import PyNumFacts.
Import TechnicalAnalyzer.
Import PortfolioTracker.
Import Main.
Import DecisionFacts.
Import Samples.

(** With REJECT the score is 0, whatever the reading and the adjustment. *)
Lemma reject_score (base_score ai_adj_int : Z) :
  tactical_score_of base_score ai_adj_int "REJECT" = 0%Z.
Proof. reflexivity. Qed.

(** C3: when shares > 0, held_days < 7 and the tier multiplier is
    negative, the decision is hold, with buy amount 0 and sell value 0,
    whatever the valuation multiplier. *)
Theorem lock_in_holds (tech : TechnicalReading) (ai_adj : AiAdj)
    (ai_decision : string) (val_mult : Q) (val_desc : string)
    (base_amt max_daily : Q) (pos : PositionView) (strategy_type : option string) :
  0 < view_shares pos ->
  (held_days_of pos < 7)%Z ->
  fst (tactical_tier
         (tactical_score_of (quant_score tech) (ai_adj_int_of ai_adj) ai_decision)) < 0 ->
  let d := snd (calculate_position_v13 tech ai_adj ai_decision val_mult val_desc
                  base_amt max_daily pos strategy_type) in
  label d = LABEL_HOLD /\ final_amt d = 0%Z /\ sell_val d = Some 0 /\
  is_sell d = false.
Proof.
  intros Hs Hd Ht d. unfold d. rewrite decision_unfold.
  unfold final_mult_of. rewrite (tactical_tier_negative _ Ht).
  pose proof (valuation_blend_breakdown val_mult strategy_type ["战术:破位"%string]) as Hb.
  destruct (valuation_blend _ _ _ _) as [m reasons]. simpl in Hb.
  rewrite (risk_gate_nonpositive _ _ _ Hb).
  pose proof (lock_rule_locked pos m reasons Hb Hs Hd) as Hl.
  rewrite (resolve_amount_zero _ _ _ _ _ Hl). repeat split.
Qed.

Lemma lock_in_holds_witness :
  let tech := reading 20 "PASS" 10 in
  let pos := holding 100 10 3 in
  let d := snd (calculate_position_v13 tech (AdjInt 0) "PASS" 0.5 "高估"
                  1000 5000 pos (Some "core"%string)) in
  0 < view_shares pos /\ (held_days_of pos < 7)%Z /\
  fst (tactical_tier (tactical_score_of (quant_score tech)
                        (ai_adj_int_of (AdjInt 0)) "PASS")) < 0 /\
  label d = LABEL_HOLD /\ final_amt d = 0%Z /\ sell_val d = Some 0 /\
  is_sell d = false.
Proof.
  intros tech pos d.
  assert (H1 : 0 < view_shares pos) by reflexivity.
  assert (H2 : (held_days_of pos < 7)%Z) by reflexivity.
  assert (H3 : fst (tactical_tier (tactical_score_of (quant_score tech)
                        (ai_adj_int_of (AdjInt 0)) "PASS")) < 0) by reflexivity.
  split; [exact H1 |]. split; [exact H2 |]. split; [exact H3 |].
  exact (lock_in_holds tech (AdjInt 0) "PASS" 0.5 "高估" 1000 5000 pos
           (Some "core"%string) H1 H2 H3).
Defined.

(** C4, as stated, fails: with REJECT, raw score 90, a neutral valuation
    and a position held for 10 days, the score is forced to 0 and the
    decision is to sell the whole position. *)
Lemma reject_sells_counterexample :
  let tech := reading 90 "PASS" 10 in
  let pos := holding 100 10 10 in
  let r := calculate_position_v13 tech (AdjInt 0) "REJECT" 1.0 "估值适中"
             1000 5000 pos (Some "core"%string) in
  final_score (fst r) = Some 0%Z /\
  label (snd r) = LABEL_SELL /\ label (snd r) <> LABEL_HOLD /\
  is_sell (snd r) = true /\ feq (sell_val (snd r)) (Some 1000).
Proof.
  vm_compute. repeat split; try reflexivity. discriminate.
Qed.

(** C4 (amended): with REJECT the tactical score is forced to 0, so the
    tier is the breakdown tier: the decision never buys; it is hold when
    the valuation multiplier is above 1.2 or the position is inside the
    7-day lock, and sell otherwise. *)
Theorem reject_never_buys (tech : TechnicalReading) (ai_adj : AiAdj)
    (val_mult : Q) (val_desc : string) (base_amt max_daily : Q)
    (pos : PositionView) (strategy_type : option string) :
  let r := calculate_position_v13 tech ai_adj "REJECT" val_mult val_desc
             base_amt max_daily pos strategy_type in
  final_score (fst r) = Some 0%Z /\
  final_amt (snd r) = 0%Z /\
  label (snd r) <> LABEL_BUY /\
  (if Qltb 1.2 val_mult || (Qltb 0 (view_shares pos) && (held_days_of pos <? 7)%Z)
   then label (snd r) = LABEL_HOLD /\ is_sell (snd r) = false /\
        sell_val (snd r) = Some 0
   else label (snd r) = LABEL_SELL /\ is_sell (snd r) = true).
Proof.
  intros r.
  assert (Hf : final_score (fst r) = Some 0%Z).
  { unfold r, calculate_position_v13. rewrite reject_score.
    destruct (final_mult_of _ _ _ _ _). reflexivity. }
  split; [exact Hf |].
  unfold r. rewrite decision_unfold, reject_score.
  unfold final_mult_of. change (tactical_tier 0) with (-1.0, ["战术:破位"%string]).
  pose proof (valuation_blend_breakdown val_mult strategy_type ["战术:破位"%string]) as Hb.
  unfold valuation_blend in *. change (Qltb 0 (-1.0)) with false in *.
  change (Qltb (-1.0) 0) with true in *. cbv iota in *.
  destruct (Qltb 1.2 val_mult) eqn:E12.
  - simpl orb. cbv iota.
    rewrite risk_gate_nonpositive by lra.
    unfold lock_rule. change (Qltb 0 0) with false. simpl andb. cbv iota.
    unfold resolve_amount. change (Qltb 0 0) with false. cbv iota.
    simpl. repeat split. discriminate.
  - simpl orb.
    assert (Hneg : forall m reasons,
              m < 0 ->
              let d := resolve_amount (fst (lock_rule pos m reasons))
                         base_amt max_daily pos (price tech) in
              final_amt d = 0%Z /\ label d <> LABEL_BUY /\
              (if Qltb 0 (view_shares pos) && (held_days_of pos <? 7)%Z
               then label d = LABEL_HOLD /\ is_sell d = false /\ sell_val d = Some 0
               else label d = LABEL_SELL /\ is_sell d = true)).
    { intros m reasons Hm. unfold lock_rule.
      pose proof Hm as Hm'. apply Qltb_lt in Hm'. rewrite Hm'. simpl andb.
      destruct (Qltb 0 (view_shares pos) && (held_days_of pos <? 7)%Z); simpl fst.
      - unfold resolve_amount. change (Qltb 0 0) with false. cbv iota.
        simpl. repeat split. discriminate.
      - unfold resolve_amount. rewrite Hm'.
        assert (H0 : Qltb 0 m = false) by (apply Qltb_ge; lra).
        rewrite H0. simpl. repeat split. discriminate. }
    destruct (Qltb val_mult 0.8).
    + rewrite risk_gate_nonpositive by (simpl; lra).
      apply Hneg. simpl. lra.
    + rewrite risk_gate_nonpositive by (simpl; lra).
      apply Hneg. simpl. lra.
Qed.

(** The buy amount is never negative, and never above a non-negative
    daily cap. *)
Lemma resolve_amount_range (m base_amt max_daily : Q) (pos : PositionView)
    (price : float) :
  let d := resolve_amount m base_amt max_daily pos price in
  (0 <= final_amt d)%Z /\ (0 <= max_daily -> inject_Z (final_amt d) <= max_daily).
Proof.
  unfold resolve_amount.
  destruct (Qltb 0 m); [| destruct (Qltb m 0)]; simpl; try (split; [lia | intros H; exact H]).
  split; [lia |]. intros Hmax.
  destruct (py_int_nonneg max_daily Hmax) as [H0 Hle].
  apply Qle_trans with (inject_Z (py_int max_daily)); [| exact Hle].
  rewrite <- Zle_Qle. lia.
Qed.

(** C7, as stated, fails: with base amount 1001 and multiplier 0.75
    (tier 0.5, valuation 1.5) the product is 750.75; the code truncates
    it to 750, rounding gives 751. *)
Lemma buy_amount_round_counterexample :
  let tech := reading 65 "PASS" 10 in
  let pos := holding 0 0 0 in
  let m := fst (final_mult_of
                  (tactical_score_of (quant_score tech) (ai_adj_int_of (AdjInt 0)) "PASS")
                  (tech_cro_signal tech) 1.5 pos (Some "core"%string)) in
  let d := snd (calculate_position_v13 tech (AdjInt 0) "PASS" 1.5 "极度低估"
                  1001 5000 pos (Some "core"%string)) in
  m == 0.75 /\ 0 < m /\ label d = LABEL_BUY /\
  final_amt d = 750%Z /\ spec_buy_amount 1001 m 5000 == 751 /\
  ~ inject_Z (final_amt d) == spec_buy_amount 1001 m 5000.
Proof.
  vm_compute. repeat split; try reflexivity; discriminate.
Qed.

(** C7 (amended): when the final multiplier is positive the decision is
    buy and the amount is int(base_amount × multiplier) (truncation, not
    rounding) clamped to [0, int(max_daily_amount)]; in every case the buy
    amount is at least 0, and at most max_daily_amount when that is not
    negative. *)
Theorem buy_amount_truncated (tech : TechnicalReading) (ai_adj : AiAdj)
    (ai_decision : string) (val_mult : Q) (val_desc : string)
    (base_amt max_daily : Q) (pos : PositionView) (strategy_type : option string) :
  let m := fst (final_mult_of
                  (tactical_score_of (quant_score tech) (ai_adj_int_of ai_adj) ai_decision)
                  (tech_cro_signal tech) val_mult pos strategy_type) in
  let d := snd (calculate_position_v13 tech ai_adj ai_decision val_mult val_desc
                  base_amt max_daily pos strategy_type) in
  (0 < m ->
   label d = LABEL_BUY /\
   final_amt d = Z.max 0 (Z.min (py_int (base_amt * m)) (py_int max_daily))) /\
  (0 <= final_amt d)%Z /\
  (0 <= max_daily -> inject_Z (final_amt d) <= max_daily).
Proof.
  intros m d. unfold d. rewrite decision_unfold. fold m. split.
  - intros Hm. unfold resolve_amount. apply Qltb_lt in Hm. rewrite Hm.
    split; reflexivity.
  - apply resolve_amount_range.
Qed.

Lemma buy_amount_truncated_witness :
  let tech := reading 65 "PASS" 10 in
  let pos := holding 0 0 0 in
  let m := fst (final_mult_of
                  (tactical_score_of (quant_score tech) (ai_adj_int_of (AdjInt 0)) "PASS")
                  (tech_cro_signal tech) 1.5 pos (Some "core"%string)) in
  let d := snd (calculate_position_v13 tech (AdjInt 0) "PASS" 1.5 "极度低估"
                  1001 5000 pos (Some "core"%string)) in
  0 < m /\ 0 <= 5000 /\
  label d = LABEL_BUY /\
  final_amt d = Z.max 0 (Z.min (py_int (1001 * m)) (py_int 5000)) /\
  inject_Z (final_amt d) <= 5000.
Proof.
  intros tech pos m d.
  assert (H1 : 0 < m) by reflexivity.
  assert (H2 : 0 <= 5000) by discriminate.
  pose proof (buy_amount_truncated tech (AdjInt 0) "PASS" 1.5 "极度低估"
                1001 5000 pos (Some "core"%string)) as (Hbuy & _ & Hmax).
  destruct (Hbuy H1) as [Hl Ha].
  split; [exact H1 |]. split; [exact H2 |]. split; [exact Hl |].
  split; [exact Ha |]. exact (Hmax H2).
Defined.

(** C9, as stated, fails: the decision engine writes into the reading.
    On the safe-default reading, whose final_score is 0, an adjustment of
    30 leaves final_score 30, and two keys are added. *)
Lemma reading_mutated_counterexample :
  let tech := _get_safe_default_indicators "K线数据不足(<30)" in
  let tech' := fst (calculate_position_v13 tech (AdjInt 30) "PASS" 1.0 "估值适中"
                      1000 5000 (holding 0 0 0) (Some "core"%string)) in
  final_score tech = Some 0%Z /\ final_score tech' = Some 30%Z /\
  ai_adjustment tech = None /\ ai_adjustment tech' = Some 30%Z /\
  valuation_desc tech = None /\ valuation_desc tech' = Some "估值适中"%string /\
  tech' <> tech.
Proof.
  vm_compute. repeat split; discriminate.
Qed.

(** C9 (amended): the decision engine writes exactly four keys into the
    reading, final_score, ai_adjustment, valuation_desc and (when a reason
    was collected) quant_reasons; every field produced by the technical
    signal engine keeps its value. *)
Theorem reading_frame (tech : TechnicalReading) (ai_adj : AiAdj)
    (ai_decision : string) (val_mult : Q) (val_desc : string)
    (base_amt max_daily : Q) (pos : PositionView) (strategy_type : option string) :
  let tech' := fst (calculate_position_v13 tech ai_adj ai_decision val_mult val_desc
                      base_amt max_daily pos strategy_type) in
  let tactical_score :=
    tactical_score_of (quant_score tech) (ai_adj_int_of ai_adj) ai_decision in
  let reasons := snd (final_mult_of tactical_score (tech_cro_signal tech) val_mult
                        pos strategy_type) in
  (rsi tech' = rsi tech /\ macd tech' = macd tech /\
   risk_factors tech' = risk_factors tech /\ flow tech' = flow tech /\
   trend_weekly tech' = trend_weekly tech /\ price tech' = price tech /\
   quant_score tech' = quant_score tech /\
   tech_cro_signal tech' = tech_cro_signal tech /\
   tech_cro_comment tech' = tech_cro_comment tech) /\
  final_score tech' = Some tactical_score /\
  ai_adjustment tech' = Some (ai_adj_int_of ai_adj) /\
  valuation_desc tech' = Some val_desc /\
  quant_reasons tech' = (if decide (reasons = []) then quant_reasons tech
                         else Some reasons).
Proof.
  intros tech' tactical_score reasons.
  unfold tech', reasons, tactical_score, calculate_position_v13.
  destruct (final_mult_of _ _ _ _ _) as [m rs]. simpl.
  repeat split. destruct rs; reflexivity.
Qed.

End DecisionClaims.

(** ** The technical reading *)

Module AnalyzerFacts.
Import PyNumFacts.
Import TechnicalAnalyzer.

(** *** The risk rules *)

Lemma rule_A_level (trend_status : string) (st : CroState) :
  (current_risk_level st <= current_risk_level (rule_A trend_status st))%Z.
Proof.
  unfold rule_A.
  destruct (String.eqb trend_status "DOWN"); simpl; [| lia].
  destruct (current_risk_level st <? 1)%Z eqn:E; simpl; [| lia].
  apply Z.ltb_lt in E. lia.
Qed.

Lemma rule_B_level (str_float : float -> string) (vol_ratio : float) (st : CroState) :
  (current_risk_level st <= current_risk_level (rule_B str_float vol_ratio st))%Z.
Proof.
  unfold rule_B.
  destruct (fltb vol_ratio (Some 0.6)); simpl; [| lia].
  destruct (current_risk_level st <? 3)%Z eqn:E; simpl; [| lia].
  apply Z.ltb_lt in E. lia.
Qed.

Lemma rule_C_level (str_float : float -> string) (rsi : float) (st : CroState) :
  (current_risk_level st <= current_risk_level (rule_C str_float rsi st))%Z.
Proof.
  unfold rule_C.
  destruct (fgtb rsi (Some 85)); simpl; [| lia].
  destruct (current_risk_level st <? 3)%Z eqn:E; simpl; [| lia].
  apply Z.ltb_lt in E. lia.
Qed.

(** With a weekly downtrend the signal is WARN or VETO. *)
Lemma cro_rules_down (str_float : float -> string) (vol_ratio rsi : float) :
  let st := cro_rules str_float "DOWN" vol_ratio rsi in
  cro_signal st <> "PASS"%string /\
  (fltb vol_ratio (Some 0.6) = false -> fgtb rsi (Some 85) = false ->
   cro_signal st = "WARN"%string /\ cro_reason st = "周线趋势向下"%string).
Proof.
  unfold cro_rules, rule_A, rule_B, rule_C.
  generalize (fltb vol_ratio (Some 0.6)) (fgtb rsi (Some 85)).
  intros [] []; simpl;
    (split; [discriminate | intros; try discriminate; split; reflexivity]).
Qed.

(** *** Filling and projection *)

Lemma ffill_from_some (prev : float) (l : list float) :
  Forall (fun x => is_Some x) l -> ffill_from prev l = l.
Proof.
  intros H. revert prev. induction H as [|x l [q ->] _ IH]; intros prev; simpl.
  - reflexivity.
  - rewrite IH. reflexivity.
Qed.

Lemma fill_some (l : list float) :
  Forall (fun x => is_Some x) l -> bfill (ffill l) = l.
Proof.
  intros H. unfold bfill, ffill. rewrite (ffill_from_some _ l H).
  rewrite ffill_from_some by (apply Forall_rev, H).
  apply rev_involutive.
Qed.

Lemma alter_with_volume_keeps (v : float) (i : nat) (rows : list Bar) :
  map bar_date (alter (with_volume v) i rows) = map bar_date rows /\
  map c_close (alter (with_volume v) i rows) = map c_close rows.
Proof.
  split.
  - change (bar_date <$> alter (with_volume v) i rows = bar_date <$> rows).
    rewrite (list_fmap_alter bar_date (with_volume v) id).
    + apply list_alter_id. reflexivity.
    + apply Forall_forall. intros b _. reflexivity.
  - change (c_close <$> alter (with_volume v) i rows = c_close <$> rows).
    rewrite (list_fmap_alter c_close (with_volume v) id).
    + apply list_alter_id. reflexivity.
    + apply Forall_forall. intros b _. reflexivity.
Qed.

(** The projection touches the volume of the last bar only. *)
Lemma project_volume_keeps (now : datetime) (cols : list string)
    (rows rows' : list Bar) :
  project_volume now cols rows = inr rows' ->
  map bar_date rows' = map bar_date rows /\ map c_close rows' = map c_close rows.
Proof.
  unfold project_volume. destruct (iloc_back rows 1) as [e|last_bar]; simpl.
  { discriminate. }
  match goal with |- context [if ?b then _ else _] => destruct b end.
  2: { intros [= <-]. split; reflexivity. }
  match goal with |- context [if ?b then _ else _] => destruct b end.
  2: { intros [= <-]. split; reflexivity. }
  match goal with |- context [fmul ?a ?b] => destruct (fmul a b) end.
  - intros [= <-]. apply alter_with_volume_keeps.
  - discriminate.
Qed.

(** *** The weekly trend of a flat series *)

(** Strictly increasing dates are at least as far apart as their places. *)
Lemma increasing_gap (l : list Z) (x y : Z) (k : nat) :
  increasing l = true -> l !! 0%nat = Some x -> l !! k = Some y ->
  (Z.of_nat k <= y - x)%Z.
Proof.
  revert x k. induction l as [|a l IH]; intros x k Hinc H0 Hk.
  - discriminate.
  - injection H0 as ->. destruct k as [|k].
    + injection Hk as ->. lia.
    + simpl in Hk. destruct l as [|b l']; [discriminate |].
      simpl in Hinc. apply andb_true_iff in Hinc as [Hab Hinc].
      apply Z.ltb_lt in Hab.
      pose proof (IH b k Hinc eq_refl Hk). lia.
Qed.

Lemma foldr_min_le (a : Z) (l : list Z) :
  (foldr Z.min a l <= a)%Z /\ Forall (fun x => (foldr Z.min a l <= x)%Z) l.
Proof.
  induction l as [|b l [IH1 IH2]]; simpl.
  - split; [lia | constructor].
  - split; [lia |]. constructor; [lia |].
    eapply Forall_impl; [exact IH2 |]. simpl. intros. lia.
Qed.

Lemma foldr_max_ge (a : Z) (l : list Z) :
  (a <= foldr Z.max a l)%Z /\ Forall (fun x => (x <= foldr Z.max a l)%Z) l.
Proof.
  induction l as [|b l [IH1 IH2]]; simpl.
  - split; [lia | constructor].
  - split; [lia |]. constructor; [lia |].
    eapply Forall_impl; [exact IH2 |]. simpl. intros. lia.
Qed.

(** Four weeks later is at least four weekly bins later. *)
Lemma week_of_gap (x y : Z) : (x + 28 <= y)%Z -> (week_of x + 4 <= week_of y)%Z.
Proof.
  intros H. unfold week_of.
  replace ((x + 3) `div` 7 + 4)%Z with ((x + 3 + 4 * 7) `div` 7)%Z
    by (apply Z.div_add; lia).
  apply Z.div_le_mono; lia.
Qed.

(** Thirty or more bars on distinct days span at least five weekly bins. *)
Lemma resample_length (dates : list Z) (close : list float) :
  increasing dates = true -> (30 <= length dates)%nat ->
  (5 <= length (resample_W_last dates close))%nat.
Proof.
  intros Hinc Hlen. unfold resample_W_last.
  destruct dates as [|d0 rest]; [simpl in Hlen; lia |].
  cbv iota beta zeta. set (dates := d0 :: rest) in *.
  rewrite length_map, length_seqZ.
  destruct (lookup_lt_is_Some_2 dates 29) as [y Hy]; [lia |].
  assert (H0 : dates !! 0%nat = Some d0) by reflexivity.
  pose proof (increasing_gap dates d0 y 29 Hinc H0 Hy) as Hgap.
  pose proof (week_of_gap d0 y ltac:(lia)) as Hw.
  destruct (foldr_min_le (week_of d0) (map week_of dates)) as [Hlo _].
  destruct (foldr_max_ge (week_of d0) (map week_of dates)) as [_ Hhi].
  rewrite Forall_forall in Hhi.
  assert (Hin : week_of y ∈ map week_of dates).
  { apply list_elem_of_fmap. exists y. split; [reflexivity |].
    eapply list_elem_of_lookup_2, Hy. }
  specialize (Hhi _ Hin). lia.
Qed.

Lemma last_valid_flat (c : Q) (l : list float) :
  Forall (fun x => x = Some c) l -> flat_or_nan c (last_valid l).
Proof.
  intros H. unfold last_valid.
  destruct (last (filter (fun x => is_Some x) l)) as [x|] eqn:E; simpl.
  - right. apply last_Some_elem_of, list_elem_of_filter in E as [_ E].
    rewrite Forall_forall in H. apply H, E.
  - left. reflexivity.
Qed.

Lemma resample_flat (c : Q) (dates : list Z) (close : list float) :
  Forall (fun x => x = Some c) close ->
  Forall (flat_or_nan c) (resample_W_last dates close).
Proof.
  intros H. unfold resample_W_last. destruct dates as [|d0 rest].
  { constructor. }
  cbv iota beta zeta. set (dates := d0 :: rest).
  apply Forall_fmap, Forall_forall. intros w _. unfold compose.
  apply last_valid_flat. apply Forall_fmap, Forall_forall.
  intros [d x] Hin. unfold compose. cbn [snd].
  apply list_elem_of_filter in Hin as [_ Hin]. apply elem_of_zip_r in Hin.
  rewrite Forall_forall in H. apply H, Hin.
Qed.

(** The latest weekly close of a flat series is not above the 5-week
    mean: the mean is the flat price itself, or NaN. *)
Lemma rolling_flat (c : Q) (l : list float) (cur : float) :
  Forall (flat_or_nan c) l -> (5 <= length l)%nat -> flat_or_nan c cur ->
  fgtb cur (rolling_mean_last 5 l) = false.
Proof.
  intros Hl Hlen Hcur. unfold rolling_mean_last.
  destruct (length l <? 5)%nat eqn:E; [apply Nat.ltb_lt in E; lia |].
  pose proof (Forall_drop _ (length l - 5) l Hl) as Hw.
  pose proof (length_drop l (length l - 5)) as Hwl.
  destruct (drop (length l - 5) l) as [|x1 [|x2 [|x3 [|x4 [|x5 [|x6 w]]]]]];
    simpl in Hwl; try lia.
  inversion Hw as [|? ? [-> | ->] Hw1]; subst; [destruct cur; reflexivity |].
  inversion Hw1 as [|? ? [-> | ->] Hw2]; subst; [destruct cur; reflexivity |].
  inversion Hw2 as [|? ? [-> | ->] Hw3]; subst; [destruct cur; reflexivity |].
  inversion Hw3 as [|? ? [-> | ->] Hw4]; subst; [destruct cur; reflexivity |].
  inversion Hw4 as [|? ? [-> | ->] Hw5]; subst; [destruct cur; reflexivity |].
  destruct Hcur as [-> | ->]; [reflexivity |].
  unfold fgtb, fltb. simpl. apply Qltb_ge.
  change (inject_Z (Z.of_nat 5)) with 5.
  assert (E5 : (0 + c + c + c + c + c) / 5 == c) by field.
  rewrite E5. lra.
Qed.

(** A flat series of thirty or more bars on distinct days never has the
    weekly trend Unknown, and never UP: it is DOWN. *)
Lemma weekly_trend_flat (c : Q) (dates : list Z) (close : list float) :
  increasing dates = true -> (30 <= length dates)%nat ->
  Forall (fun x => x = Some c) close ->
  weekly_trend dates close = "DOWN"%string.
Proof.
  intros Hinc Hlen Hflat. unfold weekly_trend.
  pose proof (resample_length dates close Hinc Hlen) as H5.
  pose proof (resample_flat c dates close Hflat) as Hw.
  destruct (5 <=? length (resample_W_last dates close))%nat eqn:E;
    [| apply Nat.leb_gt in E; lia].
  rewrite rolling_flat with (c := c); [reflexivity | exact Hw | exact H5 |].
  destruct (last (resample_W_last dates close)) as [x|] eqn:El; simpl.
  - apply last_Some_elem_of in El. rewrite Forall_forall in Hw. apply Hw, El.
  - left. reflexivity.
Qed.

(** *** The try block *)

Lemma iloc_back_elem {A : Type} (l : list A) (k : nat) (x : A) :
  iloc_back l k = inr x -> x ∈ l.
Proof.
  unfold iloc_back. destruct (l !! (length l - k)%nat) as [y|] eqn:E; [| discriminate].
  destruct (length l <? k)%nat; [discriminate |].
  intros [= <-]. eapply list_elem_of_lookup_2, E.
Qed.

(** With the required columns in place nothing is renamed and nothing is
    missing. *)
Lemma try_block_required (str_float : float -> string) (lib : IndicatorLibrary)
    (now : datetime) (df : DataFrame) :
  has_required df = true ->
  try_block str_float lib now df
  = (rows ← project_volume now (clean_columns df) (bars df);
     locals ← compute_locals lib rows;
     mret (build_indicators str_float locals)).
Proof.
  unfold has_required, required_cols, has_column. simpl forallb.
  rewrite !andb_true_iff, !bool_decide_eq_true.
  intros (Hc & Hv & Hh & Hl & Ho & _).
  unfold try_block, has_column, required_cols.
  rewrite (bool_decide_eq_true_2 _ Hv). cbn [negb andb]. cbv iota.
  rewrite !filter_cons, filter_nil.
  repeat (match goal with
          | |- context [decide (?x ∉ ?l)] =>
              destruct (decide (x ∉ l)) as [Hn|_]; [exfalso; apply Hn; assumption |]
          end).
  reflexivity.
Qed.

(** What the indicator block leaves in the locals that the library does
    not decide: the weekly trend and the volume ratio. *)
Lemma compute_locals_inv (lib : IndicatorLibrary) (rows : list Bar) (v : Locals) :
  compute_locals lib rows = inr v ->
  trend_status v
  = weekly_trend (map bar_date rows) (bfill (ffill (map c_close rows))) /\
  exists last_volume,
    iloc_back (bfill (ffill (map c_volume rows))) 1 = inr last_volume /\
    vol_ratio_raw v
    = (let ma_vol_5 := rolling_mean_last 5 (bfill (ffill (map c_volume rows))) in
       if fgtb ma_vol_5 (Some 0) then fdiv last_volume ma_vol_5 else Some 1.0).
Proof.
  unfold compute_locals.
  repeat (match goal with
          | |- (mbind _ ?m = inr _) -> _ =>
              destruct m eqn:?; [discriminate |]; cbn [mbind result_bind]
          end).
  unfold mret at 1, result_ret. intros [= <-]. cbn [trend_status vol_ratio_raw].
  split; [reflexivity |]. eexists. split; reflexivity.
Qed.

(** The volume ratio of a flat series is 1: neither a drought nor a surge. *)
Lemma vol_ratio_flat (v : Q) (volume : list float) (last_volume : float) :
  Forall (fun x => x = Some v) volume -> (5 <= length volume)%nat ->
  last_volume = Some v ->
  let ma_vol_5 := rolling_mean_last 5 volume in
  let vol_ratio :=
    if fgtb ma_vol_5 (Some 0) then fdiv last_volume ma_vol_5 else Some 1.0 in
  fltb vol_ratio (Some 0.6) = false /\ fgtb vol_ratio (Some 1.2) = false.
Proof.
  intros Hl Hlen ->. unfold rolling_mean_last.
  destruct (length volume <? 5)%nat eqn:E; [apply Nat.ltb_lt in E; lia |].
  pose proof (Forall_drop _ (length volume - 5) volume Hl) as Hw.
  pose proof (length_drop volume (length volume - 5)) as Hwl.
  destruct (drop (length volume - 5) volume) as [|x1 [|x2 [|x3 [|x4 [|x5 [|x6 w]]]]]];
    simpl in Hwl; try lia.
  inversion Hw as [|? ? -> Hw1]; subst. inversion Hw1 as [|? ? -> Hw2]; subst.
  inversion Hw2 as [|? ? -> Hw3]; subst. inversion Hw3 as [|? ? -> Hw4]; subst.
  inversion Hw4 as [|? ? -> Hw5]; subst.
  cbv zeta. cbn [foldl fadd fdiv lift2]. change (inject_Z (Z.of_nat 5)) with 5.
  assert (E5 : (0 + v + v + v + v + v) / 5 == v) by field.
  unfold fgtb, fltb.
  destruct (Qltb 0 ((0 + v + v + v + v + v) / 5)) eqn:Epos.
  - apply Qltb_lt in Epos. rewrite E5 in Epos.
    assert (E1 : v / ((0 + v + v + v + v + v) / 5) == 1).
    { rewrite E5. field. lra. }
    cbn [fdiv lift2]. split; apply Qltb_ge; rewrite E1; lra.
  - split; reflexivity.
Qed.

(** *** Flat frames *)

Lemma flat_columns (c v : Q) (rows : list Bar) :
  Forall (flat_bar c v) rows ->
  Forall (fun x => x = Some c) (map c_close rows) /\
  Forall (fun x => x = Some v) (map c_volume rows).
Proof.
  intros H. split; apply Forall_fmap; eapply Forall_impl; try exact H;
    intros b (_ & _ & _ & Hc & Hv); assumption.
Qed.

Lemma all_some (c : Q) (l : list float) :
  Forall (fun x => x = Some c) l -> Forall (fun x => is_Some x) l.
Proof.
  intros H. eapply Forall_impl; [exact H |]. intros x ->. eexists. reflexivity.
Qed.

(** Whatever the projection does to the last volume, the weekly trend of
    a flat series of thirty or more bars is DOWN. *)
Lemma flat_trend_down (c v : Q) (now : datetime) (cols : list string)
    (rows rows' : list Bar) :
  (30 <= length rows)%nat -> increasing (map bar_date rows) = true ->
  Forall (flat_bar c v) rows ->
  project_volume now cols rows = inr rows' ->
  weekly_trend (map bar_date rows') (bfill (ffill (map c_close rows')))
  = "DOWN"%string.
Proof.
  intros Hlen Hinc Hflat Hp.
  destruct (project_volume_keeps _ _ _ _ Hp) as [-> ->].
  destruct (flat_columns c v rows Hflat) as [Hc _].
  rewrite (fill_some _ (all_some c _ Hc)).
  apply weekly_trend_flat with (c := c); [exact Hinc | | exact Hc].
  rewrite length_map. exact Hlen.
Qed.

(** A flat series of thirty or more bars never reads PASS, whatever the
    indicator package, the clock and the text of floats. *)
Lemma flat_signal_not_pass (str_float : float -> string) (lib : IndicatorLibrary)
    (now : datetime) (df : DataFrame) (c v : Q) :
  has_required df = true -> (30 <= length (bars df))%nat ->
  increasing (map bar_date (bars df)) = true ->
  Forall (flat_bar c v) (bars df) ->
  tech_cro_signal (calculate_indicators str_float lib now (Some df))
  <> "PASS"%string.
Proof.
  intros Hreq Hlen Hinc Hflat. unfold calculate_indicators.
  destruct (df_empty df || (length (bars df) <? 30)%nat); [discriminate |].
  rewrite (try_block_required _ _ _ _ Hreq).
  destruct (project_volume now (clean_columns df) (bars df)) as [e|rows'] eqn:Ep;
    cbn [mbind result_bind]; [discriminate |].
  destruct (compute_locals lib rows') as [e|locals] eqn:Ec;
    cbn [mbind result_bind]; [discriminate |].
  unfold mret, result_ret. cbn [build_indicators tech_cro_signal].
  destruct (compute_locals_inv _ _ _ Ec) as [Ht _].
  rewrite Ht, (flat_trend_down c v now _ _ _ Hlen Hinc Hflat Ep).
  apply cro_rules_down.
Qed.

Lemma flat_frame_flat (n : nat) (first_day : Z) (c v : Q) :
  Forall (flat_bar c v) (bars (Samples.flat_frame n first_day c v)).
Proof.
  unfold Samples.flat_frame. cbn [bars]. apply Forall_fmap, Forall_forall.
  intros d _. repeat split.
Qed.

End AnalyzerFacts.

Module AnalyzerClaims.
Import PyNumFacts.
Import TechnicalAnalyzer.
Import AnalyzerFacts.
Import Samples.

(** C1: for an input that is None, empty or shorter than 30 bars,
    [calculate_indicators] returns the safe default: score 0, signal VETO,
    with the insufficient-data comment.  The function is total: the guard
    returns before any computation, and the exception branch of the [try]
    returns a safe default as well. *)
Theorem short_series_safe_default (str_float : float -> string)
    (lib : IndicatorLibrary) (now : datetime) (df : option DataFrame) :
  (df = None \/
   exists f, df = Some f /\ (df_empty f = true \/ (length (bars f) < 30)%nat)) ->
  let r := calculate_indicators str_float lib now df in
  r = _get_safe_default_indicators "K线数据不足(<30)" /\
  quant_score r = 0%Z /\ final_score r = Some 0%Z /\
  tech_cro_signal r = "VETO"%string /\
  tech_cro_comment r = "系统风控: K线数据不足(<30)"%string.
Proof.
  intros H r.
  assert (E : r = _get_safe_default_indicators "K线数据不足(<30)").
  { unfold r, calculate_indicators. destruct H as [-> | (f & -> & H)].
    - reflexivity.
    - destruct H as [H | H].
      + rewrite H. reflexivity.
      + apply Nat.ltb_lt in H. rewrite H, orb_true_r. reflexivity. }
  rewrite E. repeat split.
Qed.

Lemma short_series_safe_default_witness :
  let df := Some (flat_frame 29 20458 10 1000) in
  let r := calculate_indicators plain_str_float quiet_library (after_close 20500) df in
  (df = None \/
   exists f, df = Some f /\ (df_empty f = true \/ (length (bars f) < 30)%nat)) /\
  r = _get_safe_default_indicators "K线数据不足(<30)" /\
  quant_score r = 0%Z /\ final_score r = Some 0%Z /\
  tech_cro_signal r = "VETO"%string /\
  tech_cro_comment r = "系统风控: K线数据不足(<30)"%string.
Proof.
  intros df r.
  assert (H : df = None \/
              exists f, df = Some f /\
                        (df_empty f = true \/ (length (bars f) < 30)%nat)).
  { right. exists (flat_frame 29 20458 10 1000). split; [reflexivity |].
    right. vm_compute. lia. }
  split; [exact H |].
  exact (short_series_safe_default plain_str_float quiet_library
           (after_close 20500) df H).
Defined.

(** C5, as stated, fails: 40 identical bars on 40 consecutive days span
    six weekly bins, so the weekly trend is computed, and a flat close is
    not above its 5-week mean: the trend is DOWN and rule A raises the
    signal.  No indicator package, clock or float format makes the signal
    PASS. *)
Lemma flat_40_counterexample :
  ~ (exists (str_float : float -> string) (lib : IndicatorLibrary) (now : datetime),
       let r := calculate_indicators str_float lib now
                  (Some (flat_frame 40 20458 10 1000)) in
       quant_score r = 50%Z /\ tech_cro_signal r = "PASS"%string).
Proof.
  intros (str_float & lib & now & _ & H). revert H.
  apply flat_signal_not_pass with (c := 10) (v := 1000).
  - vm_compute. reflexivity.
  - vm_compute. lia.
  - vm_compute. reflexivity.
  - apply flat_frame_flat.
Qed.

(** C5 (amended): for 40 (or any 30 or more) identical flat bars on
    strictly increasing dates, with the volume of the last bar left as it
    is, the weekly trend is DOWN, never Unknown, and the risk signal is
    never PASS: it is WARN ("周线趋势向下") unless the RSI read from the
    indicator package is above 85.  The score is exactly 50 when that RSI
    is within [30, 70] and neither the MACD histogram nor the OBV slope is
    positive. *)
Theorem flat_series_reading (str_float : float -> string) (lib : IndicatorLibrary)
    (now : datetime) (df : DataFrame) (c v : Q) (locals : Locals) :
  has_required df = true ->
  (30 <= length (bars df))%nat ->
  increasing (map bar_date (bars df)) = true ->
  Forall (flat_bar c v) (bars df) ->
  project_volume now (clean_columns df) (bars df) = inr (bars df) ->
  compute_locals lib (bars df) = inr locals ->
  let r := calculate_indicators str_float lib now (Some df) in
  trend_weekly r = "DOWN"%string /\
  tech_cro_signal r <> "PASS"%string /\
  (fgtb (rsi r) (Some 85) = false ->
   tech_cro_signal r = "WARN"%string /\
   tech_cro_comment r = "周线趋势向下"%string) /\
  (fltb (rsi r) (Some 30) = false -> fgtb (rsi r) (Some 70) = false ->
   fgtb (macd_hist locals) (Some 0) = false ->
   fgtb (obv_slope_raw locals) (Some 0) = false ->
   quant_score r = 50%Z).
Proof.
  intros Hreq Hlen Hinc Hflat Hp Hl r.
  pose proof (flat_signal_not_pass str_float lib now df c v Hreq Hlen Hinc Hflat) as Hnp.
  fold r in Hnp.
  assert (Er : r = build_indicators str_float locals).
  { unfold r, calculate_indicators.
    assert (E0 : df_empty df = false).
    { unfold df_empty. destruct (bars df); [simpl in Hlen; lia |].
      unfold has_required, clean_columns in Hreq.
      destruct (columns df); [discriminate Hreq | reflexivity]. }
    assert (E1 : (length (bars df) <? 30)%nat = false) by (apply Nat.ltb_ge; lia).
    rewrite E0, E1. cbn [orb].
    rewrite (try_block_required _ _ _ _ Hreq), Hp. cbn [mbind result_bind].
    rewrite Hl. reflexivity. }
  destruct (compute_locals_inv _ _ _ Hl) as (Ht & lv & Hlv & Hvr).
  rewrite (flat_trend_down c v now _ _ _ Hlen Hinc Hflat Hp) in Ht.
  destruct (flat_columns c v _ Hflat) as [_ Hvol].
  rewrite (fill_some _ (all_some v _ Hvol)) in Hlv, Hvr.
  assert (Elv : lv = Some v).
  { apply iloc_back_elem in Hlv. rewrite Forall_forall in Hvol. apply Hvol, Hlv. }
  destruct (vol_ratio_flat v (map c_volume (bars df)) lv Hvol
              ltac:(rewrite length_map; lia) Elv) as [Hlo Hhi].
  cbv zeta in Hvr. rewrite <- Hvr in Hlo, Hhi.
  split; [rewrite Er; exact Ht |]. split; [exact Hnp |].
  rewrite Er. cbn [build_indicators rsi tech_cro_signal tech_cro_comment quant_score].
  rewrite Ht. split.
  - intros Hrsi. apply cro_rules_down; assumption.
  - intros H30 H70 Hh Ho. unfold quant_score_of.
    rewrite H30, H70, Hh, Hlo, Hhi, Ho. reflexivity.
Qed.

Lemma flat_series_reading_witness :
  let df := flat_frame 40 20458 10 1000 in
  let now := after_close 20500 in
  let r := calculate_indicators plain_str_float quiet_library now (Some df) in
  exists locals,
    has_required df = true /\ (30 <= length (bars df))%nat /\
    increasing (map bar_date (bars df)) = true /\
    Forall (flat_bar 10 1000) (bars df) /\
    project_volume now (clean_columns df) (bars df) = inr (bars df) /\
    compute_locals quiet_library (bars df) = inr locals /\
    fgtb (rsi r) (Some 85) = false /\
    fltb (rsi r) (Some 30) = false /\ fgtb (rsi r) (Some 70) = false /\
    fgtb (macd_hist locals) (Some 0) = false /\
    fgtb (obv_slope_raw locals) (Some 0) = false /\
    trend_weekly r = "DOWN"%string /\
    tech_cro_signal r = "WARN"%string /\
    tech_cro_comment r = "周线趋势向下"%string /\
    quant_score r = 50%Z.
Proof.
  intros df now r.
  assert (H1 : has_required df = true) by (vm_compute; reflexivity).
  assert (H2 : (30 <= length (bars df))%nat) by (vm_compute; lia).
  assert (H3 : increasing (map bar_date (bars df)) = true) by (vm_compute; reflexivity).
  assert (H4 : Forall (flat_bar 10 1000) (bars df)) by apply flat_frame_flat.
  assert (H5 : project_volume now (clean_columns df) (bars df) = inr (bars df))
    by (vm_compute; reflexivity).
  assert (H6 : { locals | compute_locals quiet_library (bars df) = inr locals }).
  { eexists. vm_compute. reflexivity. }
  destruct H6 as [locals H6]. exists locals.
  assert (H7 : fgtb (rsi r) (Some 85) = false) by (vm_compute; reflexivity).
  assert (H8 : fltb (rsi r) (Some 30) = false) by (vm_compute; reflexivity).
  assert (H9 : fgtb (rsi r) (Some 70) = false) by (vm_compute; reflexivity).
  pose proof (flat_series_reading plain_str_float quiet_library now df 10 1000
                locals H1 H2 H3 H4 H5 H6) as (Ht & _ & Hw & Hs).
  fold r in Ht, Hw, Hs.
  assert (H10 : fgtb (macd_hist locals) (Some 0) = false).
  { revert H6. vm_compute. intros [= <-]. reflexivity. }
  assert (H11 : fgtb (obv_slope_raw locals) (Some 0) = false).
  { revert H6. vm_compute. intros [= <-]. reflexivity. }
  destruct (Hw H7) as [Hw1 Hw2].
  repeat (split; [assumption |]).
  exact (Hs H8 H9 H10 H11).
Defined.

(** C6: for every reading whose RSI is above 85 while the volume ratio the
    rules test is at least 0.6, the risk signal is VETO and the comment is
    the extreme-overbought one, whatever the weekly trend; and no rule
    lowers the risk level it finds. *)
Theorem overbought_veto (str_float : float -> string) (locals : Locals) (r v : Q) :
  rsi (build_indicators str_float locals) = Some r -> 85 < r ->
  vol_ratio_raw locals = Some v -> 0.6 <= v ->
  let ind := build_indicators str_float locals in
  (tech_cro_signal ind = "VETO"%string /\
   tech_cro_comment ind = "RSI极度超买(" +:+ str_float (Some r) +:+ ")") /\
  (forall (st : CroState) (trend : string) (vol_ratio rsi : float),
     (current_risk_level st <= current_risk_level (rule_A trend st))%Z /\
     (current_risk_level st <= current_risk_level (rule_B str_float vol_ratio st))%Z /\
     (current_risk_level st <= current_risk_level (rule_C str_float rsi st))%Z).
Proof.
  intros Hr H85 Hv H06 ind. split.
  - unfold ind. cbn [build_indicators rsi tech_cro_signal tech_cro_comment] in *.
    rewrite Hr, Hv. unfold cro_rules.
    assert (EB : forall st, rule_B str_float (Some v) st = st).
    { intros st. unfold rule_B, fltb.
      apply Qltb_ge in H06. rewrite H06. reflexivity. }
    rewrite EB. unfold rule_C, fgtb, fltb. apply Qltb_lt in H85. rewrite H85.
    unfold rule_A.
    destruct (String.eqb (trend_status locals) "DOWN"); simpl; split; reflexivity.
  - intros st trend vol_ratio rsi. split; [apply rule_A_level |].
    split; [apply rule_B_level | apply rule_C_level].
Qed.

Lemma overbought_veto_witness :
  let ind := build_indicators plain_str_float overbought_locals in
  rsi ind = Some (py_round 90 2) /\ 85 < py_round 90 2 /\
  vol_ratio_raw overbought_locals = Some 1.0 /\ 0.6 <= 1.0 /\
  trend_weekly ind = "UP"%string /\
  tech_cro_signal ind = "VETO"%string /\
  tech_cro_comment ind
  = "RSI极度超买(" +:+ plain_str_float (Some (py_round 90 2)) +:+ ")".
Proof.
  intros ind.
  assert (H1 : rsi ind = Some (py_round 90 2)) by reflexivity.
  assert (H2 : 85 < py_round 90 2) by (vm_compute; reflexivity).
  assert (H3 : vol_ratio_raw overbought_locals = Some 1.0) by reflexivity.
  assert (H4 : 0.6 <= 1.0) by discriminate.
  destruct (overbought_veto plain_str_float overbought_locals
              (py_round 90 2) 1.0 H1 H2 H3 H4) as [[Hs Hc] _].
  repeat (split; [assumption || reflexivity |]). exact Hc.
Defined.

End AnalyzerClaims.

(* ================================================================== *)
(** * Further properties *)

(** ** retry *)

Module RetryFacts.
Import Utils.

(** From round [i] on, with every round before [k] failing, the loop ends
    at the first success. *)
Lemma retry_loop_success {A : Type} (attempts : nat -> result A)
    (retries k : nat) (a : A) (n i : nat) :
  (i + n = retries)%nat -> (i <= k < retries)%nat ->
  (forall j, (i <= j < k)%nat -> exists e, attempts j = inl e) ->
  attempts k = inr a ->
  retry_loop attempts retries i n i
  = {| outcome := inr (Some a); calls := S k; sleeps := k |}.
Proof.
  revert i. induction n as [|n IH]; intros i Hn Hk Hfail Hok; [lia |].
  simpl. destruct (decide (i = k)) as [-> | Hne].
  - rewrite Hok. reflexivity.
  - destruct (Hfail i ltac:(lia)) as [e He]. rewrite He.
    destruct (i =? retries - 1)%nat eqn:E; [apply Nat.eqb_eq in E; lia |].
    apply IH; [lia | lia | | exact Hok].
    intros j Hj. apply Hfail. lia.
Qed.

(** With every round failing the loop raises the error of the last one. *)
Lemma retry_loop_exhausted {A : Type} (attempts : nat -> result A)
    (retries : nat) (e : string) (n i : nat) :
  (i + n = retries)%nat -> (0 < n)%nat ->
  (forall j, (i <= j < retries)%nat -> exists e', attempts j = inl e') ->
  attempts (retries - 1)%nat = inl e ->
  retry_loop attempts retries i n i
  = {| outcome := inl e; calls := retries; sleeps := (retries - 1)%nat |}.
Proof.
  revert i. induction n as [|n IH]; intros i Hn Hpos Hfail Hlast; [lia |].
  simpl. destruct (Hfail i ltac:(lia)) as [e' He']. rewrite He'.
  destruct (i =? retries - 1)%nat eqn:E.
  - apply Nat.eqb_eq in E. subst i. rewrite Hlast in He'. injection He' as <-.
    f_equal; lia.
  - apply Nat.eqb_neq in E. apply IH; [lia | lia | | exact Hlast].
    intros j Hj. apply Hfail. lia.
Qed.

(** X1: when round [k] (counted from 0, [k < retries]) is the first call
    that succeeds, the wrapper returns its value after [k + 1] calls and
    [k] sleeps; later rounds are never run. *)
Theorem retry_returns_first_success {A : Type} (retries : nat)
    (attempts : nat -> result A) (k : nat) (a : A) :
  (k < retries)%nat ->
  (forall j, (j < k)%nat -> exists e, attempts j = inl e) ->
  attempts k = inr a ->
  retry retries attempts
  = {| outcome := inr (Some a); calls := S k; sleeps := k |}.
Proof.
  intros Hk Hfail Hok. unfold retry.
  apply retry_loop_success; [lia | lia | | exact Hok].
  intros j Hj. apply Hfail. lia.
Qed.

Lemma retry_returns_first_success_witness :
  let attempts := fun k : nat =>
    if (k <? 2)%nat then (inl "timeout"%string : result Z) else inr 7%Z in
  (2 < 3)%nat /\
  (forall j, (j < 2)%nat -> exists e, attempts j = inl e) /\
  attempts 2%nat = inr 7%Z /\
  retry 3 attempts = {| outcome := inr (Some 7%Z); calls := 3; sleeps := 2 |}.
Proof.
  intros attempts.
  assert (H1 : (2 < 3)%nat) by lia.
  assert (H2 : forall j, (j < 2)%nat -> exists e, attempts j = inl e).
  { intros j Hj. exists "timeout"%string. unfold attempts.
    destruct (j <? 2)%nat eqn:E; [reflexivity | apply Nat.ltb_ge in E; lia]. }
  assert (H3 : attempts 2%nat = inr 7%Z) by reflexivity.
  split; [exact H1 |]. split; [exact H2 |]. split; [exact H3 |].
  exact (retry_returns_first_success 3 attempts 2 7%Z H1 H2 H3).
Defined.

(** X2: when all [retries] calls fail ([retries > 0]) the wrapper raises
    the error of the last call, after exactly [retries] calls and
    [retries - 1] sleeps: it does not sleep after the last failure. *)
Theorem retry_raises_last_error {A : Type} (retries : nat)
    (attempts : nat -> result A) (e : string) :
  (0 < retries)%nat ->
  (forall j, (j < retries)%nat -> exists e', attempts j = inl e') ->
  attempts (retries - 1)%nat = inl e ->
  retry retries attempts
  = {| outcome := inl e; calls := retries; sleeps := (retries - 1)%nat |}.
Proof.
  intros Hpos Hfail Hlast. unfold retry.
  apply retry_loop_exhausted; [lia | lia | | exact Hlast].
  intros j Hj. apply Hfail. lia.
Qed.

Lemma retry_raises_last_error_witness :
  let attempts := fun k : nat =>
    (inl (if (k =? 1)%nat then "refused" else "timeout")%string : result Z) in
  (0 < 2)%nat /\
  (forall j, (j < 2)%nat -> exists e', attempts j = inl e') /\
  attempts (2 - 1)%nat = inl "refused"%string /\
  retry 2 attempts = {| outcome := inl "refused"%string; calls := 2; sleeps := 1 |}.
Proof.
  intros attempts.
  assert (H1 : (0 < 2)%nat) by lia.
  assert (H2 : forall j, (j < 2)%nat -> exists e', attempts j = inl e').
  { intros j _. eexists. reflexivity. }
  assert (H3 : attempts (2 - 1)%nat = inl "refused"%string) by reflexivity.
  split; [exact H1 |]. split; [exact H2 |]. split; [exact H3 |].
  exact (retry_raises_last_error 2 attempts "refused"%string H1 H2 H3).
Defined.

End RetryFacts.

(** ** Loading the ledger file *)

Module LedgerStoreFacts.
Import PortfolioTracker.
Import LedgerStore.

Lemma heal_complete (pos : StoredPosition) : is_complete (heal pos) = true.
Proof.
  reflexivity.
Qed.

Lemma heal_of_complete (pos : StoredPosition) :
  is_complete pos = true -> heal pos = pos.
Proof.
  unfold is_complete. rewrite !andb_true_iff, !bool_decide_eq_true.
  intros [[[[s Hs] [c Hc]] [d Hd]] [h Hh]].
  destruct pos as [n sh co hd hi]. cbn in *. subst. reflexivity.
Qed.

Lemma heal_idempotent (pos : StoredPosition) : heal (heal pos) = heal pos.
Proof. apply heal_of_complete, heal_complete. Qed.

Lemma healed_not_dirty (m : gmap string StoredPosition) :
  dirty (heal <$> m) = false.
Proof.
  unfold dirty. apply bool_decide_eq_false. intros H. apply H.
  apply map_Forall_fmap. intros code pos _. apply heal_complete.
Qed.

Lemma clean_file_unchanged (m : gmap string StoredPosition) :
  dirty m = false -> heal <$> m = m.
Proof.
  unfold dirty. intros H. apply bool_decide_eq_false in H.
  apply dec_stable in H.
  apply map_eq. intros code. rewrite lookup_fmap.
  destruct (m !! code) as [pos|] eqn:E; [| reflexivity]. simpl.
  f_equal. apply heal_of_complete. exact (H code pos E).
Qed.

(** X4: loading is idempotent.  Loading the file that a load leaves behind
    gives the same ledger and leaves that file as it is; a file in which
    every position is complete is loaded as it stands and not rewritten. *)
Theorem load_idempotent (file : PortfolioFile) :
  let loaded := _load_portfolio file in
  _load_portfolio (snd loaded) = loaded /\
  (forall m, file = FileContent m -> dirty m = false -> loaded = (m, file)).
Proof.
  destruct file as [| |m]; cbn [_load_portfolio fst snd].
  - split; [| intros m [=]].
    assert (E : dirty (∅ : gmap string StoredPosition) = false).
    { apply bool_decide_eq_false. intros H. apply H, map_Forall_empty. }
    rewrite E, fmap_empty. reflexivity.
  - split; [reflexivity | intros m [=]].
  - split.
    + destruct (dirty m) eqn:E; cbn [_load_portfolio].
      * rewrite healed_not_dirty, <- map_fmap_compose.
        rewrite (map_fmap_ext (heal ∘ heal) heal m); [reflexivity |].
        intros code pos _. apply heal_idempotent.
      * rewrite E. reflexivity.
    + intros m' [= <-] E. rewrite E, (clean_file_unchanged m E). reflexivity.
Qed.

Lemma load_idempotent_witness :
  let stored := {| st_name := Some "沪深300ETF"%string; st_shares := Some 100;
                   st_cost := Some 3.5; st_held_days := Some 4%Z;
                   st_history := Some [] |} in
  let m : gmap string StoredPosition := {[ "510300"%string := stored ]} in
  FileContent m = FileContent m /\ dirty m = false /\
  _load_portfolio (FileContent m) = (m, FileContent m).
Proof.
  intros stored m.
  assert (H : dirty m = false).
  { apply bool_decide_eq_false. intros H. apply H.
    apply map_Forall_singleton. reflexivity. }
  split; [reflexivity |]. split; [exact H |].
  exact (proj2 (load_idempotent (FileContent m)) m eq_refl H).
Defined.

End LedgerStoreFacts.

(** ** The valuation multiplier *)

Module ValuationFacts.
Import PyNumFacts.
Import ValuationEngine.

Lemma series_min_le (l : list float) (x : Q) :
  Some x ∈ l -> exists lo, series_min l = Some lo /\ lo <= x.
Proof.
  induction l as [|y l IH]; intros Hin; [inversion Hin |].
  unfold series_min in *. cbn [foldr].
  apply elem_of_cons in Hin as [<- | Hin].
  - destruct (foldr fmin NaN l) as [m|]; cbn [fmin].
    + eexists. split; [reflexivity |]. apply py_min_spec.
    + eexists. split; [reflexivity |]. lra.
  - destruct (IH Hin) as (lo & -> & Hlo). destruct y as [y|]; cbn [fmin].
    + eexists. split; [reflexivity |].
      destruct (py_min_spec y lo) as [_ H]. lra.
    + eexists. split; [reflexivity | exact Hlo].
Qed.

Lemma series_max_ge (l : list float) (x : Q) :
  Some x ∈ l -> exists hi, series_max l = Some hi /\ x <= hi.
Proof.
  induction l as [|y l IH]; intros Hin; [inversion Hin |].
  unfold series_max in *. cbn [foldr].
  apply elem_of_cons in Hin as [<- | Hin].
  - destruct (foldr fmax NaN l) as [m|]; cbn [fmax].
    + eexists. split; [reflexivity |]. apply py_max_spec.
    + eexists. split; [reflexivity |]. lra.
  - destruct (IH Hin) as (hi & -> & Hhi). destruct y as [y|]; cbn [fmax].
    + eexists. split; [reflexivity |].
      destruct (py_max_spec y hi) as [_ H]. lra.
    + eexists. split; [reflexivity | exact Hhi].
Qed.

(** X5: whenever a percentile is computed it lies in [0, 1].  The window
    then has a low and a high; when they are equal the percentile is 0.5,
    and otherwise it is (latest - low) / (high - low), with the latest
    price between the low and the high of its own window. *)
Theorem percentile_in_unit_interval (window_data : list float) (p : Q) :
  percentile_of window_data = Some p ->
  0 <= p <= 1 /\
  exists lo hi : Q,
    (series_min window_data = Some lo) /\ (series_max window_data = Some hi) /\
    (lo <= hi) /\
    (hi == lo -> p = 0.5) /\
    (lo < hi ->
     exists c : Q, (last window_data = Some (Some c)) /\ (lo <= c <= hi) /\
                   (p = (c - lo) / (hi - lo))).
Proof.
  unfold percentile_of.
  destruct (feqb (series_max window_data) (series_min window_data)) eqn:Eq.
  { intros [= <-]. split; [split; discriminate |].
    destruct (series_max window_data) as [hi|]; [| discriminate].
    destruct (series_min window_data) as [lo|]; [| discriminate].
    cbn [feqb] in Eq. apply Qeq_bool_iff in Eq.
    exists lo, hi. split; [reflexivity |]. split; [reflexivity |].
    split; [lra |]. split; [reflexivity |]. intros H. exfalso. lra. }
  destruct (last window_data) as [[c|]|] eqn:El; cbn [default];
    try (destruct (series_min window_data); discriminate).
  pose proof El as Hin. apply last_Some_elem_of in Hin.
  destruct (series_min_le _ _ Hin) as (lo & Elo & Hlo).
  destruct (series_max_ge _ _ Hin) as (hi & Ehi & Hhi).
  rewrite Elo, Ehi in *. cbn [fsub fdiv lift2]. intros [= <-].
  cbn [feqb] in Eq.
  assert (Hne : ~ hi == lo).
  { intros H. apply Qeq_bool_iff in H. congruence. }
  assert (Hlt : 0 < hi - lo).
  { destruct (Qlt_le_dec lo hi) as [H | H]; [lra |].
    exfalso. apply Hne. lra. }
  split.
  - split.
    + apply Qle_shift_div_l; [exact Hlt | lra].
    + apply Qle_shift_div_r; [exact Hlt | lra].
  - exists lo, hi. split; [reflexivity |]. split; [reflexivity |].
    split; [lra |]. split; [intros H; contradiction |].
    intros _. exists c. split; [reflexivity |]. split; [split; assumption | reflexivity].
Qed.

Lemma percentile_in_unit_interval_witness :
  let window_data := [Some 3000; Some 3600; NaN; Some 3150] in
  let flat := [Some 3000; NaN; Some 3000] in
  (percentile_of window_data = Some ((3150 - 3000) / (3600 - 3000))) /\
  (0 <= (3150 - 3000) / (3600 - 3000) <= 1) /\
  (percentile_of flat = Some 0.5) /\
  exists lo hi : Q,
    (series_min flat = Some lo) /\ (series_max flat = Some hi) /\ (hi == lo).
Proof.
  intros window_data flat.
  assert (H : percentile_of window_data = Some ((3150 - 3000) / (3600 - 3000)))
    by reflexivity.
  assert (H' : percentile_of flat = Some 0.5) by reflexivity.
  split; [exact H |].
  split; [exact (proj1 (percentile_in_unit_interval window_data _ H)) |].
  split; [exact H' |].
  destruct (percentile_in_unit_interval flat _ H') as (_ & lo & hi & Elo & Ehi & _).
  exists lo, hi. split; [exact Elo |]. split; [exact Ehi |].
  revert Elo Ehi. vm_compute. intros [= <-] [= <-]. reflexivity.
Defined.

(** X6: for each strategy type the multiplier never grows with the
    percentile: a dearer index never gets a larger multiplier. *)
Theorem valuation_tier_monotone (strategy_type : option string)
    (p1 p2 : Q) (s1 s2 : string) :
  p1 <= p2 ->
  fst (valuation_tier strategy_type p2 s2) <= fst (valuation_tier strategy_type p1 s1).
Proof.
  intros Hle. unfold valuation_tier.
  repeat (match goal with
          | |- context [bool_decide ?P] => destruct (bool_decide P)
          | |- context [Qltb ?a ?b] =>
              let E := fresh "E" in
              destruct (Qltb a b) eqn:E;
              [apply Qltb_lt in E | apply Qltb_ge in E]
          end);
    cbn [fst]; try lra; try discriminate.
Qed.

Lemma valuation_tier_monotone_witness :
  0.15 <= 0.85 /\
  fst (valuation_tier (Some "core"%string) 0.85 "85%") = 0.5 /\
  fst (valuation_tier (Some "core"%string) 0.15 "15%") = 1.5 /\
  fst (valuation_tier (Some "core"%string) 0.85 "85%")
  <= fst (valuation_tier (Some "core"%string) 0.15 "15%").
Proof.
  assert (H : 0.15 <= 0.85) by discriminate.
  split; [exact H |]. split; [reflexivity |]. split; [reflexivity |].
  exact (valuation_tier_monotone (Some "core"%string) 0.15 0.85 "15%" "85%" H).
Defined.

Lemma valuation_tier_values (strategy_type : option string) (p : Q) (s : string) :
  let m := fst (valuation_tier strategy_type p s) in
  In m [0.0; 0.5; 1.0; 1.2; 1.5] /\
  (strategy_type = Some "core"%string -> In m [0.5; 1.0; 1.2; 1.5]) /\
  (strategy_type = Some "satellite"%string -> In m [0.0; 1.0]) /\
  (strategy_type = Some "dividend"%string -> In m [0.0; 1.0; 1.5]).
Proof.
  unfold valuation_tier.
  destruct (bool_decide (strategy_type = Some "core"%string)) eqn:Ec.
  { apply bool_decide_eq_true in Ec. subst.
    repeat (match goal with
            | |- context [Qltb ?a ?b] =>
                let E := fresh "E" in
                destruct (Qltb a b) eqn:E;
                [apply Qltb_lt in E | apply Qltb_ge in E]
            end); cbn [fst]; try lra;
      (split; [| split; [| split]]); try (intros [=]); simpl; tauto. }
  apply bool_decide_eq_false in Ec.
  destruct (bool_decide (strategy_type = Some "satellite"%string)) eqn:Es.
  { apply bool_decide_eq_true in Es. subst.
    destruct (Qltb 0.85 p); cbn [fst];
      (split; [| split; [| split]]); try (intros [=]); simpl; tauto. }
  apply bool_decide_eq_false in Es.
  destruct (bool_decide (strategy_type = Some "dividend"%string)) eqn:Ed.
  { apply bool_decide_eq_true in Ed. subst.
    destruct (Qltb 0.70 p); [| destruct (Qltb p 0.30)]; cbn [fst];
      (split; [| split; [| split]]); try (intros [=]); simpl; tauto. }
  apply bool_decide_eq_false in Ed. cbn [fst].
  split; [simpl; tauto |]. repeat split; intros H; contradiction.
Qed.

(** X7: the multiplier handed to the decision engine is always one of
    0.0, 0.5, 1.0, 1.2 and 1.5, whatever the network returns.  For a core
    fund it is never 0.0 (the branch for a percentile above 0.90 comes
    after the one for 0.80 and is never taken); for a satellite fund it is
    0.0 or 1.0; for a dividend fund 0.0, 1.0 or 1.5. *)
Theorem valuation_multiplier_values (network : string -> result (list float))
    (index_name strategy_type : option string) :
  let m := fst (valuation_of network index_name strategy_type) in
  In m [0.0; 0.5; 1.0; 1.2; 1.5] /\
  (strategy_type = Some "core"%string -> In m [0.5; 1.0; 1.2; 1.5]) /\
  (strategy_type = Some "satellite"%string -> In m [0.0; 1.0]) /\
  (strategy_type = Some "dividend"%string -> In m [0.0; 1.0; 1.5]).
Proof.
  assert (Hone : In 1.0 [0.0; 0.5; 1.0; 1.2; 1.5] /\
                 (strategy_type = Some "core"%string -> In 1.0 [0.5; 1.0; 1.2; 1.5]) /\
                 (strategy_type = Some "satellite"%string -> In 1.0 [0.0; 1.0]) /\
                 (strategy_type = Some "dividend"%string -> In 1.0 [0.0; 1.0; 1.5])).
  { simpl. tauto. }
  unfold valuation_of, get_valuation_status.
  destruct index_name as [index_name|]; [| exact Hone].
  destruct (String.eqb index_name ""); [exact Hone |].
  destruct (INDEX_MAP !! index_name) as [index_code|]; [| exact Hone].
  unfold valuation_try.
  destruct (_fetch_index_history network index_code) as [history|]; [| exact Hone].
  destruct (length history <? 250)%nat; [exact Hone |].
  destruct (percentile_of _) as [p|]; [| exact Hone].
  cbn [mret result_ret]. apply valuation_tier_values.
Qed.

Lemma valuation_multiplier_values_witness :
  let network := fun _ : string => (inr (replicate 300 (Some 3000)) : result (list float)) in
  let m := fst (valuation_of network (Some "沪深300"%string) (Some "core"%string)) in
  Some "core"%string = Some "core"%string /\ m = 1.0 /\ In m [0.5; 1.0; 1.2; 1.5].
Proof.
  intros network m.
  split; [reflexivity |]. split; [vm_compute; reflexivity |].
  exact (proj1 (proj2 (valuation_multiplier_values network (Some "沪深300"%string)
                         (Some "core"%string))) eq_refl).
Defined.

End ValuationFacts.

(** ** More on the position decision *)

Module DecisionExtras.
Import PyNumFacts.
Import TechnicalAnalyzer.
Import PortfolioTracker.
Import Main.
Import DecisionFacts.
Import Samples.

(** The tier multiplier is one of the five tier values. *)
Lemma tactical_tier_cases (score : Z) :
  ((85 <= score)%Z /\ tactical_tier score = (2.0, ["战术:极强"%string])) \/
  ((70 <= score < 85)%Z /\ tactical_tier score = (1.0, ["战术:走强"%string])) \/
  ((60 <= score < 70)%Z /\ tactical_tier score = (0.5, ["战术:企稳"%string])) \/
  ((score <= 25)%Z /\ tactical_tier score = (-1.0, ["战术:破位"%string])) \/
  ((25 < score < 60)%Z /\ tactical_tier score = (0, [])).
Proof.
  unfold tactical_tier.
  destruct (85 <=? score)%Z eqn:E1; [apply Z.leb_le in E1; left; split; [lia | reflexivity] |].
  apply Z.leb_gt in E1.
  destruct (70 <=? score)%Z eqn:E2;
    [apply Z.leb_le in E2; right; left; split; [lia | reflexivity] |].
  apply Z.leb_gt in E2.
  destruct (60 <=? score)%Z eqn:E3;
    [apply Z.leb_le in E3; right; right; left; split; [lia | reflexivity] |].
  apply Z.leb_gt in E3.
  destruct (score <=? 25)%Z eqn:E4;
    [apply Z.leb_le in E4; right; right; right; left; split; [lia | reflexivity] |].
  apply Z.leb_gt in E4. right; right; right; right. split; [lia | reflexivity].
Qed.

(** The lock rule leaves a multiplier that is not negative as it is. *)
Lemma lock_rule_nonnegative (pos : PositionView) (m : Q) (reasons : list string) :
  0 <= m -> lock_rule pos m reasons = (m, reasons).
Proof.
  intros Hm. unfold lock_rule. apply Qltb_ge in Hm. rewrite Hm. reflexivity.
Qed.

(** After the lock rule the multiplier is 0 or what it was. *)
Lemma lock_rule_cases (pos : PositionView) (m : Q) (reasons : list string) :
  fst (lock_rule pos m reasons) = 0 \/ fst (lock_rule pos m reasons) = m.
Proof.
  unfold lock_rule.
  destruct (Qltb m 0 && Qltb 0 (view_shares pos) && (held_days_of pos <? 7)%Z);
    [left | right]; reflexivity.
Qed.

(** The multipliers the valuation blend can give. *)
Lemma valuation_blend_cases (tactical_mult val_mult : Q)
    (strategy_type : option string) (reasons : list string) :
  let m := fst (valuation_blend tactical_mult val_mult strategy_type reasons) in
  (0 < tactical_mult /\ (m = 0 \/ (m = tactical_mult * val_mult /\ 1 < val_mult)
                         \/ (m = tactical_mult /\ val_mult <= 1))) \/
  (tactical_mult < 0 /\ (m = 0 \/ m = tactical_mult * 1.5 \/ m = tactical_mult)) \/
  (tactical_mult == 0 /\
   ((m = 0.5 /\ 1.5 <= val_mult /\ is_core_or_dividend strategy_type = true) \/
    (m = tactical_mult /\
     (val_mult < 1.5 \/ is_core_or_dividend strategy_type = false)))).
Proof.
  unfold valuation_blend.
  destruct (Qltb 0 tactical_mult) eqn:E1.
  { apply Qltb_lt in E1. left. split; [exact E1 |].
    destruct (Qltb val_mult 0.5); [left; reflexivity |].
    destruct (Qltb 1.0 val_mult) eqn:E2.
    - apply Qltb_lt in E2. right; left. split; [reflexivity | lra].
    - apply Qltb_ge in E2. right; right. split; [reflexivity | lra]. }
  apply Qltb_ge in E1.
  destruct (Qltb tactical_mult 0) eqn:E2.
  { apply Qltb_lt in E2. right; left. split; [exact E2 |].
    destruct (Qltb 1.2 val_mult); [left; reflexivity |].
    destruct (Qltb val_mult 0.8); [right; left | right; right]; reflexivity. }
  apply Qltb_ge in E2. right; right. split; [lra |].
  destruct (Qle_bool 1.5 val_mult) eqn:E3.
  - apply Qle_bool_iff in E3.
    destruct (is_core_or_dividend strategy_type) eqn:E4; cbn [andb fst].
    + left. repeat split. exact E3.
    + right. split; [reflexivity | right; reflexivity].
  - cbn [andb fst]. right. split; [reflexivity |]. left.
    apply Qnot_le_lt. intros H. apply Qle_bool_iff in H. congruence.
Qed.

(** X8: with the risk signal VETO the decision never buys: the buy amount
    is 0 and the label is hold or sell, for every score, advisory input,
    valuation and position. *)
Theorem veto_never_buys (tech : TechnicalReading) (ai_adj : AiAdj)
    (ai_decision : string) (val_mult : Q) (val_desc : string)
    (base_amt max_daily : Q) (pos : PositionView) (strategy_type : option string) :
  tech_cro_signal tech = "VETO"%string ->
  let d := snd (calculate_position_v13 tech ai_adj ai_decision val_mult val_desc
                  base_amt max_daily pos strategy_type) in
  final_amt d = 0%Z /\ label d <> LABEL_BUY.
Proof.
  intros Hv d. unfold d. rewrite decision_unfold, Hv. unfold final_mult_of.
  destruct (tactical_tier _) as [tm rs0].
  destruct (valuation_blend tm val_mult strategy_type rs0) as [m rs1].
  unfold risk_gate. change (String.eqb "VETO" "VETO") with true. cbn [andb].
  assert (Hle : forall m' rs, m' <= 0 ->
            final_amt (resolve_amount (fst (lock_rule pos m' rs)) base_amt max_daily
                         pos (price tech)) = 0%Z /\
            label (resolve_amount (fst (lock_rule pos m' rs)) base_amt max_daily
                     pos (price tech)) <> LABEL_BUY).
  { intros m' rs Hm'. unfold resolve_amount.
    assert (H0 : Qltb 0 (fst (lock_rule pos m' rs)) = false).
    { apply Qltb_ge. destruct (lock_rule_cases pos m' rs) as [-> | ->]; lra. }
    rewrite H0. destruct (Qltb (fst (lock_rule pos m' rs)) 0); cbn;
      (split; [reflexivity | discriminate]). }
  destruct (Qltb 0 m) eqn:E.
  - apply Hle. lra.
  - apply Hle. apply Qltb_ge in E. exact E.
Qed.

Lemma veto_never_buys_witness :
  let tech := reading 95 "VETO" 10 in
  let d := snd (calculate_position_v13 tech (AdjInt 5) "EXECUTE" 1.5 "极度低估"
                  1000 5000 (holding 0 0 0) (Some "core"%string)) in
  tech_cro_signal tech = "VETO"%string /\
  final_amt d = 0%Z /\ label d <> LABEL_BUY.
Proof.
  intros tech d.
  assert (H : tech_cro_signal tech = "VETO"%string) by reflexivity.
  split; [exact H |].
  exact (veto_never_buys tech (AdjInt 5) "EXECUTE" 1.5 "极度低估" 1000 5000
           (holding 0 0 0) (Some "core"%string) H).
Defined.

(** X9: only VETO matters to the decision.  Two readings with the same
    score and price whose signals both differ from VETO (PASS, WARN or
    anything else) get the same decision: WARN does not block a buy. *)
Theorem warn_decides_like_pass (t1 t2 : TechnicalReading) (ai_adj : AiAdj)
    (ai_decision : string) (val_mult : Q) (val_desc : string)
    (base_amt max_daily : Q) (pos : PositionView) (strategy_type : option string) :
  tech_cro_signal t1 <> "VETO"%string -> tech_cro_signal t2 <> "VETO"%string ->
  quant_score t1 = quant_score t2 -> price t1 = price t2 ->
  snd (calculate_position_v13 t1 ai_adj ai_decision val_mult val_desc
         base_amt max_daily pos strategy_type)
  = snd (calculate_position_v13 t2 ai_adj ai_decision val_mult val_desc
           base_amt max_daily pos strategy_type).
Proof.
  intros H1 H2 Hs Hp. rewrite !decision_unfold, Hs, Hp.
  unfold final_mult_of.
  destruct (tactical_tier _) as [tm rs0].
  destruct (valuation_blend tm val_mult strategy_type rs0) as [m rs1].
  unfold risk_gate.
  apply String.eqb_neq in H1. apply String.eqb_neq in H2.
  rewrite H1, H2. reflexivity.
Qed.

Lemma warn_decides_like_pass_witness :
  let t1 := reading 75 "WARN" 10 in
  let t2 := reading 75 "PASS" 10 in
  let d := snd (calculate_position_v13 t1 (AdjInt 0) "EXECUTE" 1.0 "估值适中"
                  1000 5000 (holding 0 0 0) (Some "core"%string)) in
  tech_cro_signal t1 <> "VETO"%string /\ tech_cro_signal t2 <> "VETO"%string /\
  quant_score t1 = quant_score t2 /\ price t1 = price t2 /\
  label d = LABEL_BUY /\ final_amt d = 1000%Z /\
  d = snd (calculate_position_v13 t2 (AdjInt 0) "EXECUTE" 1.0 "估值适中"
             1000 5000 (holding 0 0 0) (Some "core"%string)).
Proof.
  intros t1 t2 d.
  assert (H1 : tech_cro_signal t1 <> "VETO"%string) by discriminate.
  assert (H2 : tech_cro_signal t2 <> "VETO"%string) by discriminate.
  assert (H3 : quant_score t1 = quant_score t2) by reflexivity.
  assert (H4 : price t1 = price t2) by reflexivity.
  repeat (split; [assumption || reflexivity |]).
  exact (warn_decides_like_pass t1 t2 (AdjInt 0) "EXECUTE" 1.0 "估值适中"
           1000 5000 (holding 0 0 0) (Some "core"%string) H1 H2 H3 H4).
Defined.

(** The risk gate gives 0 or leaves the multiplier. *)
Lemma risk_gate_cases (cro_signal : string) (m : Q) (reasons : list string) :
  (fst (risk_gate cro_signal m reasons) = 0 /\ cro_signal = "VETO"%string /\ 0 < m) \/
  (fst (risk_gate cro_signal m reasons) = m /\
   (cro_signal <> "VETO"%string \/ m <= 0)).
Proof.
  unfold risk_gate. destruct (String.eqb cro_signal "VETO") eqn:E1.
  - apply String.eqb_eq in E1. destruct (Qltb 0 m) eqn:E2; cbn [andb fst].
    + left. apply Qltb_lt in E2. repeat split; assumption.
    + right. apply Qltb_ge in E2. split; [reflexivity | right; exact E2].
  - apply String.eqb_neq in E1. cbn [andb fst].
    right. split; [reflexivity | left; exact E1].
Qed.

(** A buy label means a positive multiplier, a sell flag a negative one. *)
Lemma resolve_amount_buy (m base_amt max_daily : Q) (pos : PositionView)
    (price : float) :
  label (resolve_amount m base_amt max_daily pos price) = LABEL_BUY -> 0 < m.
Proof.
  unfold resolve_amount. destruct (Qltb 0 m) eqn:E; [intros _; apply Qltb_lt, E |].
  destruct (Qltb m 0); cbn; discriminate.
Qed.

Lemma resolve_amount_sell (m base_amt max_daily : Q) (pos : PositionView)
    (price : float) :
  is_sell (resolve_amount m base_amt max_daily pos price) = true ->
  m < 0 /\
  resolve_amount m base_amt max_daily pos price
  = {| final_amt := 0; label := LABEL_SELL; is_sell := true;
       sell_val := fmul (fmul (Some (view_shares pos)) price)
                        (Some (py_min (Qabs m) 1.0)) |}.
Proof.
  unfold resolve_amount. destruct (Qltb 0 m) eqn:E; [discriminate |].
  destruct (Qltb m 0) eqn:E'; [| discriminate].
  intros _. split; [apply Qltb_lt, E' | reflexivity].
Qed.

(** The multiplier of steps 4 to 7, by tier. *)
Lemma final_mult_cases (score : Z) (cro_signal : string) (val_mult : Q)
    (pos : PositionView) (strategy_type : option string) :
  let m := fst (final_mult_of score cro_signal val_mult pos strategy_type) in
  ((60 <= score)%Z /\ 0 <= m /\ (m = 0 \/ m = fst (tactical_tier score)
                                 \/ (m = fst (tactical_tier score) * val_mult /\ 1 < val_mult))
             /\ 0 < fst (tactical_tier score) <= 2) \/
  ((score <= 25)%Z /\ (m = 0 \/ m = -1.0 * 1.5 \/ m = -1.0)) \/
  ((25 < score < 60)%Z /\
   ((m = 0.5 /\ 1.5 <= val_mult /\ is_core_or_dividend strategy_type = true /\
     cro_signal <> "VETO"%string) \/
    m = 0)).
Proof.
  unfold final_mult_of.
  destruct (tactical_tier_cases score) as [[Hs E]|[[Hs E]|[[Hs E]|[[Hs E]|[Hs E]]]]];
    rewrite E; cbn [fst].
  1,2,3: left; split; [lia |];
    match goal with |- context [valuation_blend ?tm _ _ ?rs] =>
      pose proof (valuation_blend_cases tm val_mult strategy_type rs) as Hb;
      destruct (valuation_blend tm val_mult strategy_type rs) as [m rs1]
    end; cbn [fst] in Hb;
    destruct Hb as [[_ Hb]|[[Hneg _]|[Hz _]]]; [| exfalso; lra | exfalso; revert Hz; discriminate];
    assert (Hm : 0 <= m) by (destruct Hb as [-> | [[-> Hv] | [-> Hv]]]; [lra | nra | lra]);
    pose proof (risk_gate_cases cro_signal m rs1) as Hg;
    destruct (risk_gate cro_signal m rs1) as [m' rs2]; cbn [fst] in Hg;
    assert (Hm' : 0 <= m') by (destruct Hg as [[-> _] | [-> _]]; lra);
    rewrite (lock_rule_nonnegative _ _ _ Hm'); cbn [fst];
    (split; [exact Hm' |]); (split; [| lra]);
    destruct Hg as [[-> _] | [-> _]]; [left; reflexivity |];
    destruct Hb as [-> | [[-> Hv] | [-> Hv]]];
      [left; reflexivity | right; right; split; [reflexivity | exact Hv]
       | right; left; reflexivity].
  - right; left. split; [exact Hs |].
    pose proof (valuation_blend_cases (-1.0) val_mult strategy_type ["战术:破位"%string]) as Hb.
    destruct (valuation_blend _ _ _ _) as [m rs1]. cbn [fst] in Hb.
    destruct Hb as [[Hpos _]|[[_ Hb]|[Hz _]]];
      [exfalso; revert Hpos; apply Qle_not_lt; discriminate | | exfalso; revert Hz; discriminate].
    assert (Hm : m <= 0) by (destruct Hb as [-> | [-> | ->]]; lra).
    rewrite (risk_gate_nonpositive _ _ _ Hm).
    destruct (lock_rule_cases pos m rs1) as [-> | ->]; [left; reflexivity |].
    exact Hb.
  - right; right. split; [exact Hs |].
    pose proof (valuation_blend_cases 0 val_mult strategy_type []) as Hb.
    destruct (valuation_blend _ _ _ _) as [m rs1]. cbn [fst] in Hb.
    destruct Hb as [[Hpos _]|[[Hneg _]|[_ Hb]]]; [exfalso; lra | exfalso; lra |].
    pose proof (risk_gate_cases cro_signal m rs1) as Hg.
    destruct (risk_gate cro_signal m rs1) as [m' rs2]. cbn [fst] in Hg.
    destruct Hb as [(-> & Hv & Hc) | [-> _]].
    + destruct Hg as [[-> _] | [-> [Hnv | Hle]]].
      * rewrite lock_rule_nonnegative by lra. right. reflexivity.
      * rewrite lock_rule_nonnegative by lra. left. repeat split; assumption.
      * exfalso. revert Hle. apply Qlt_not_le. reflexivity.
    + right. destruct Hg as [[-> _] | [-> _]];
        rewrite lock_rule_nonnegative by lra; reflexivity.
Qed.

Lemma hold_score_capped (base_score ai_adj_int : Z) :
  (0 <= tactical_score_of base_score ai_adj_int "HOLD" <= 59)%Z.
Proof.
  unfold tactical_score_of. change (String.eqb "HOLD" "REJECT") with false.
  change (String.eqb "HOLD" "HOLD") with true. cbv iota.
  destruct (60 <=? _)%Z eqn:E; [lia |]. apply Z.leb_gt in E. lia.
Qed.

(** X10: an advisory HOLD caps the score at 59 but does not rule out a
    buy.  Under HOLD a buy happens only as the left-side scale-in: the
    score is in the 26..59 band, the valuation multiplier is at least 1.5,
    the fund is core or dividend and the signal is not VETO; the amount is
    then int(base_amount × 0.5) clamped to [0, int(max_daily_amount)]. *)
Theorem hold_buys_only_scale_in (tech : TechnicalReading) (ai_adj : AiAdj)
    (val_mult : Q) (val_desc : string) (base_amt max_daily : Q)
    (pos : PositionView) (strategy_type : option string) :
  let d := snd (calculate_position_v13 tech ai_adj "HOLD" val_mult val_desc
                  base_amt max_daily pos strategy_type) in
  let score := tactical_score_of (quant_score tech) (ai_adj_int_of ai_adj) "HOLD" in
  label d = LABEL_BUY ->
  (25 < score < 60)%Z /\ 1.5 <= val_mult /\
  is_core_or_dividend strategy_type = true /\
  tech_cro_signal tech <> "VETO"%string /\
  final_amt d = Z.max 0 (Z.min (py_int (base_amt * 0.5)) (py_int max_daily)).
Proof.
  intros d score. unfold d. rewrite decision_unfold. fold score.
  pose proof (hold_score_capped (quant_score tech) (ai_adj_int_of ai_adj)) as Hcap.
  fold score in Hcap.
  pose proof (final_mult_cases score (tech_cro_signal tech) val_mult pos strategy_type) as Hc.
  cbv zeta in Hc.
  set (m := fst (final_mult_of score (tech_cro_signal tech) val_mult pos strategy_type)) in *.
  intros Hbuy. pose proof (resolve_amount_buy _ _ _ _ _ Hbuy) as Hpos.
  destruct Hc as [[Hs _] | [[_ Hm] | [Hs Hm]]]; [lia | |].
  - exfalso. destruct Hm as [E | [E | E]]; rewrite E in Hpos;
      revert Hpos; apply Qle_not_lt; discriminate.
  - destruct Hm as [(E & Hv & Hcd & Hnv) | E].
    + split; [exact Hs |]. split; [exact Hv |]. split; [exact Hcd |].
      split; [exact Hnv |]. rewrite E. reflexivity.
    + exfalso. rewrite E in Hpos. revert Hpos. apply Qle_not_lt. discriminate.
Qed.

Lemma hold_buys_only_scale_in_witness :
  let tech := reading 90 "PASS" 10 in
  let d := snd (calculate_position_v13 tech (AdjInt 0) "HOLD" 1.5 "极度低估"
                  1000 5000 (holding 0 0 0) (Some "core"%string)) in
  label d = LABEL_BUY /\
  tactical_score_of (quant_score tech) (ai_adj_int_of (AdjInt 0)) "HOLD" = 59%Z /\
  final_amt d = 500%Z /\
  final_amt d = Z.max 0 (Z.min (py_int (1000 * 0.5)) (py_int 5000)).
Proof.
  intros tech d.
  assert (H : label d = LABEL_BUY) by reflexivity.
  split; [exact H |]. split; [reflexivity |]. split; [reflexivity |].
  apply (hold_buys_only_scale_in tech (AdjInt 0) 1.5 "极度低估" 1000 5000
           (holding 0 0 0) (Some "core"%string) H).
Defined.

(** X11: every sell is a full exit.  When the decision is a sell the score
    is at most 25 and the sell value is the whole position,
    shares × price: the sell ratio min(|multiplier|, 1.0) is always 1. *)
Theorem sell_is_full_exit (tech : TechnicalReading) (ai_adj : AiAdj)
    (ai_decision : string) (val_mult : Q) (val_desc : string)
    (base_amt max_daily : Q) (pos : PositionView) (strategy_type : option string)
    (p : Q) :
  let d := snd (calculate_position_v13 tech ai_adj ai_decision val_mult val_desc
                  base_amt max_daily pos strategy_type) in
  is_sell d = true -> price tech = Some p ->
  (tactical_score_of (quant_score tech) (ai_adj_int_of ai_adj) ai_decision <= 25)%Z /\
  label d = LABEL_SELL /\ final_amt d = 0%Z /\
  exists s_val, sell_val d = Some s_val /\ s_val == view_shares pos * p.
Proof.
  intros d. unfold d. rewrite decision_unfold.
  set (score := tactical_score_of _ _ _).
  pose proof (final_mult_cases score (tech_cro_signal tech) val_mult pos strategy_type) as Hc.
  cbv zeta in Hc.
  set (m := fst (final_mult_of score (tech_cro_signal tech) val_mult pos strategy_type)) in *.
  intros Hsell Hp. destruct (resolve_amount_sell _ _ _ _ _ Hsell) as [Hneg ->].
  cbn [label final_amt sell_val]. rewrite Hp. cbn [fmul lift2].
  destruct Hc as [(_ & Hm & _) | [[Hs Hm] | [_ Hm]]].
  - exfalso. lra.
  - split; [exact Hs |]. split; [reflexivity |]. split; [reflexivity |].
    eexists. split; [reflexivity |].
    destruct Hm as [E | [E | E]]; rewrite E in *.
    + exfalso. revert Hneg. apply Qle_not_lt. discriminate.
    + change (py_min (Qabs (-1.0 * 1.5)) 1.0) with 1.0. field.
    + change (py_min (Qabs (-1.0)) 1.0) with (10 # 10). field.
  - exfalso. destruct Hm as [(E & _) | E]; rewrite E in Hneg;
      revert Hneg; apply Qle_not_lt; discriminate.
Qed.

Lemma sell_is_full_exit_witness :
  let tech := reading 20 "WARN" 4 in
  let pos := holding 250 3.8 12 in
  let d := snd (calculate_position_v13 tech (AdjInt 0) "EXECUTE" 0.5 "高估"
                  1000 5000 pos (Some "core"%string)) in
  is_sell d = true /\ price tech = Some 4 /\
  label d = LABEL_SELL /\ final_amt d = 0%Z /\
  exists s_val, sell_val d = Some s_val /\ s_val == view_shares pos * 4.
Proof.
  intros tech pos d.
  assert (H1 : is_sell d = true) by reflexivity.
  assert (H2 : price tech = Some 4) by reflexivity.
  split; [exact H1 |]. split; [exact H2 |].
  apply (sell_is_full_exit tech (AdjInt 0) "EXECUTE" 0.5 "高估" 1000 5000 pos
           (Some "core"%string) 4 H1 H2).
Defined.

(** X12: the 26..59 band is a dead zone.  With a tactical score in that
    band the decision is hold with both amounts 0, unless the valuation
    multiplier is at least 1.5 and the fund is core or dividend. *)
Theorem dead_zone_holds (tech : TechnicalReading) (ai_adj : AiAdj)
    (ai_decision : string) (val_mult : Q) (val_desc : string)
    (base_amt max_daily : Q) (pos : PositionView) (strategy_type : option string) :
  (25 < tactical_score_of (quant_score tech) (ai_adj_int_of ai_adj) ai_decision < 60)%Z ->
  val_mult < 1.5 \/ is_core_or_dividend strategy_type = false ->
  snd (calculate_position_v13 tech ai_adj ai_decision val_mult val_desc
         base_amt max_daily pos strategy_type)
  = {| final_amt := 0; label := LABEL_HOLD; is_sell := false; sell_val := Some 0 |}.
Proof.
  intros Hs Hno. rewrite decision_unfold.
  set (score := tactical_score_of _ _ _) in *.
  pose proof (final_mult_cases score (tech_cro_signal tech) val_mult pos strategy_type) as Hc.
  cbv zeta in Hc.
  destruct Hc as [[Hs' _] | [[Hs' _] | [_ Hm]]]; [lia | lia |].
  destruct Hm as [(_ & Hv & Hcd & _) | E].
  - exfalso. destruct Hno as [Hlt | Hf]; [lra | congruence].
  - apply resolve_amount_zero. rewrite E. reflexivity.
Qed.

Lemma dead_zone_holds_witness :
  let tech := reading 50 "PASS" 10 in
  (25 < tactical_score_of (quant_score tech) (ai_adj_int_of (AdjInt 5)) "EXECUTE" < 60)%Z /\
  (1.2 < 1.5 \/ is_core_or_dividend (Some "core"%string) = false) /\
  snd (calculate_position_v13 tech (AdjInt 5) "EXECUTE" 1.2 "低估"
         1000 5000 (holding 100 10 30) (Some "core"%string))
  = {| final_amt := 0; label := LABEL_HOLD; is_sell := false; sell_val := Some 0 |}.
Proof.
  intros tech.
  assert (H1 : (25 < tactical_score_of (quant_score tech)
                       (ai_adj_int_of (AdjInt 5)) "EXECUTE" < 60)%Z)
    by (vm_compute; split; reflexivity).
  assert (H2 : 1.2 < 1.5 \/ is_core_or_dividend (Some "core"%string) = false)
    by (left; reflexivity).
  split; [exact H1 |]. split; [exact H2 |].
  exact (dead_zone_holds tech (AdjInt 5) "EXECUTE" 1.2 "低估" 1000 5000
           (holding 100 10 30) (Some "core"%string) H1 H2).
Defined.

(** X13: with a valuation multiplier of at most 1.5 (all the valuation
    engine returns) the final multiplier is at most 3, so for a
    non-negative base amount no buy exceeds 3 × base_amount, whatever the
    daily cap. *)
Theorem buy_at_most_three_base (tech : TechnicalReading) (ai_adj : AiAdj)
    (ai_decision : string) (val_mult : Q) (val_desc : string)
    (base_amt max_daily : Q) (pos : PositionView) (strategy_type : option string) :
  0 <= base_amt -> val_mult <= 1.5 ->
  let d := snd (calculate_position_v13 tech ai_adj ai_decision val_mult val_desc
                  base_amt max_daily pos strategy_type) in
  inject_Z (final_amt d) <= 3 * base_amt.
Proof.
  intros Hb Hv d. unfold d. rewrite decision_unfold.
  set (score := tactical_score_of _ _ _).
  pose proof (final_mult_cases score (tech_cro_signal tech) val_mult pos strategy_type) as Hc.
  cbv zeta in Hc.
  set (m := fst (final_mult_of score (tech_cro_signal tech) val_mult pos strategy_type)) in *.
  assert (Hm3 : m <= 3).
  { destruct Hc as [(_ & _ & Hm & Ht) | [[_ Hm] | [_ Hm]]].
    - destruct Hm as [-> | [-> | [-> Hv1]]]; [lra | lra | nra].
    - destruct Hm as [-> | [-> | ->]]; discriminate.
    - destruct Hm as [(-> & _) | ->]; discriminate. }
  unfold resolve_amount. destruct (Qltb 0 m) eqn:E.
  - apply Qltb_lt in E. cbn [final_amt].
    assert (H0 : 0 <= base_amt * m) by nra.
    destruct (py_int_nonneg _ H0) as [Hi0 Hi].
    apply Qle_trans with (inject_Z (py_int (base_amt * m))).
    + rewrite <- Zle_Qle. lia.
    + nra.
  - destruct (Qltb m 0); cbn [final_amt]; change (inject_Z 0) with 0; lra.
Qed.

Lemma buy_at_most_three_base_witness :
  let tech := reading 90 "PASS" 10 in
  let d := snd (calculate_position_v13 tech (AdjInt 0) "EXECUTE" 1.5 "极度低估"
                  1000 5000 (holding 0 0 0) (Some "core"%string)) in
  0 <= 1000 /\ 1.5 <= 1.5 /\ final_amt d = 3000%Z /\
  inject_Z (final_amt d) <= 3 * 1000.
Proof.
  intros tech d.
  assert (H1 : 0 <= 1000) by discriminate.
  assert (H2 : 1.5 <= 1.5) by discriminate.
  split; [exact H1 |]. split; [exact H2 |]. split; [reflexivity |].
  exact (buy_at_most_three_base tech (AdjInt 0) "EXECUTE" 1.5 "极度低估" 1000 5000
           (holding 0 0 0) (Some "core"%string) H1 H2).
Defined.

End DecisionExtras.

(** ** More on the ledger *)

Module LedgerExtras.
Import PyNumFacts.
Import PortfolioTracker.
Import LedgerFacts.
Import Runs.
Import PyExc.
Import FloatLedger.
Import FloatLedgerFacts.

(** *** Rounding keeps order and sign *)

Lemma round_half_even_mono (x y : Q) :
  x <= y -> (round_half_even x <= round_half_even y)%Z.
Proof.
  intros Hxy.
  pose proof (Qfloor_resp_le x y Hxy) as Hf.
  pose proof (Qfloor_le x) as Hx1. pose proof (Qlt_floor x) as Hx2.
  pose proof (Qfloor_le y) as Hy1. pose proof (Qlt_floor y) as Hy2.
  rewrite inject_Z_plus in Hx2, Hy2. change (inject_Z 1) with 1 in Hx2, Hy2.
  assert (Hrx : (round_half_even x <= Qfloor x + 1)%Z).
  { unfold round_half_even. destruct (Qcompare _ _); [destruct (Z.even _) | |]; lia. }
  assert (Hry : (Qfloor y <= round_half_even y)%Z).
  { unfold round_half_even. destruct (Qcompare _ _); [destruct (Z.even _) | |]; lia. }
  destruct (Z.eq_dec (Qfloor x) (Qfloor y)) as [E | Hne]; [| lia].
  unfold round_half_even. rewrite <- E.
  destruct (Qcompare_spec (x - inject_Z (Qfloor x)) 0.5) as [Ex|Ex|Ex];
    destruct (Qcompare_spec (y - inject_Z (Qfloor x)) 0.5) as [Ey|Ey|Ey];
    try (destruct (Z.even (Qfloor x))); try lia; exfalso; lra.
Qed.

Lemma py_round_mono (x y : Q) (n : nat) : x <= y -> py_round x n <= py_round y n.
Proof.
  intros Hxy. unfold py_round. pose proof (scale_pos n) as Hs.
  set (sc := inject_Z (10 ^ Z.of_nat n)) in *.
  apply Qmult_le_compat_r; [| apply Qlt_le_weak, Qinv_lt_0_compat, Hs].
  rewrite <- Zle_Qle. apply round_half_even_mono.
  apply Qmult_le_compat_r; [exact Hxy | lra].
Qed.


(** *** Single trades *)

(** X14: a trade touches the position of its own code only; every other
    position of the ledger is what it was. *)
Theorem add_trade_other_codes (today code name : string) (a p : Q)
    (is_sell : bool) (portfolio : gmap string Position) (other : string) :
  other <> code ->
  add_trade today code name a p is_sell portfolio !! other = portfolio !! other.
Proof.
  intros Hne. unfold add_trade. destruct (Qle_bool p 0); [reflexivity |].
  apply lookup_insert_ne. congruence.
Qed.

Lemma add_trade_other_codes_witness :
  let portfolio := add_trade "2026-11-02" "510300" "沪深300ETF" 1000 4 false ∅ in
  let portfolio' := add_trade "2026-11-03" "159915" "创业板ETF" 500 2 false portfolio in
  "510300"%string <> "159915"%string /\
  portfolio' !! "510300"%string = portfolio !! "510300"%string.
Proof.
  intros portfolio portfolio'.
  assert (H : "510300"%string <> "159915"%string) by discriminate.
  split; [exact H |].
  exact (add_trade_other_codes "2026-11-03" "159915" "创业板ETF" 500 2 false
           portfolio "510300" H).
Defined.


(** X16: a buy never moves the cost outside the range spanned by the old
    cost and the buy price: for a positive amount on a holding that is not
    negative, the stored cost lies between round(min(cost, price), 4) and
    round(max(cost, price), 4). *)
Theorem buy_cost_between (today : string) (amount price : Q) (pos : Position) :
  0 < price -> 0 < amount -> 0 <= shares pos ->
  let stored := cost (trade_position today amount price false pos) in
  py_round (py_min (cost pos) price) 4 <= stored /\
  stored <= py_round (py_max (cost pos) price) 4.
Proof.
  intros Hp Ha Hs. unfold trade_position. cbn [cost].
  assert (Hq : 0 < amount / price) by (apply Qlt_shift_div_l; lra).
  assert (Ht : Qltb 0 (shares pos + amount / price) = true) by (apply Qltb_lt; lra).
  rewrite Ht.
  set (q := amount / price) in *. set (s := shares pos) in *. set (c := cost pos) in *.
  destruct (py_min_spec c price) as [Hm1 Hm2].
  destruct (py_max_spec c price) as [HM1 HM2].
  split; apply py_round_mono.
  - apply Qle_shift_div_l; [lra |]. nra.
  - apply Qle_shift_div_r; [lra |]. nra.
Qed.

Lemma buy_cost_between_witness :
  let pos := {| name := "沪深300ETF"; shares := 100; cost := 10;
                held_days := 1; history := [] |} in
  let stored := cost (trade_position "2026-11-04" 1000 3 false pos) in
  0 < 3 /\ 0 < 1000 /\ 0 <= shares pos /\
  py_round (py_min (cost pos) 3) 4 <= stored /\
  stored <= py_round (py_max (cost pos) 3) 4.
Proof.
  intros pos stored.
  assert (H1 : 0 < 3) by reflexivity.
  assert (H2 : 0 < 1000) by reflexivity.
  assert (H3 : 0 <= shares pos) by discriminate.
  split; [exact H1 |]. split; [exact H2 |]. split; [exact H3 |].
  exact (buy_cost_between "2026-11-04" 1000 3 pos H1 H2 H3).
Defined.

(** *** The trade history *)

Lemma append_history_length (record : TradeRecord) (h : list TradeRecord) :
  (length (append_history record h) <= 10)%nat.
Proof.
  unfold append_history. destruct (10 <? length (h ++ [record]))%nat eqn:E.
  - rewrite length_drop. apply Nat.ltb_lt in E. lia.
  - apply Nat.ltb_ge in E. exact E.
Qed.


Lemma history_bound_step (c : ledger_call) (portfolio : gmap string Position) :
  map_Forall (fun _ pos => (length (history pos) <= 10)%nat) portfolio ->
  map_Forall (fun _ pos => (length (history pos) <= 10)%nat) (call c portfolio).
Proof.
  intros Hall. destruct c as [today code name a p is_sell|]; simpl.
  - unfold add_trade. destruct (Qle_bool p 0); [exact Hall |].
    apply map_Forall_insert_2; [| exact Hall].
    unfold trade_position. destruct is_sell; cbn [history];
      apply append_history_length.
  - unfold confirm_trades. apply map_Forall_fmap.
    intros code pos El. specialize (Hall _ _ El). simpl in *.
    destruct (Qltb 0 (shares pos)); exact Hall.
Qed.

(** X17: the trade history of a position never holds more than ten
    records, after any sequence of [add_trade] and [confirm_trades] calls
    from the empty ledger, whatever their arguments. *)
Theorem history_bounded (cs : list ledger_call) (code : string) (pos : Position) :
  run_calls cs ∅ !! code = Some pos -> (length (history pos) <= 10)%nat.
Proof.
  assert (H : forall portfolio,
            map_Forall (fun _ pos => (length (history pos) <= 10)%nat) portfolio ->
            map_Forall (fun _ pos => (length (history pos) <= 10)%nat)
                       (run_calls cs portfolio)).
  { induction cs as [|c cs IH]; intros portfolio Hall; [exact Hall |].
    apply IH, history_bound_step, Hall. }
  intros El. exact (H ∅ (map_Forall_empty _) code pos El).
Qed.

Lemma history_bounded_witness :
  let cs := map (fun k => AddTrade "2026-11-04" "510300" "沪深300ETF"
                            (inject_Z k) 4 false) (seqZ 1 12) in
  exists pos, run_calls cs ∅ !! "510300"%string = Some pos /\
              length (history pos) = 10%nat /\
              (length (history pos) <= 10)%nat.
Proof.
  intros cs.
  assert (H : { pos | run_calls cs ∅ !! "510300"%string = Some pos }).
  { eexists. vm_compute. reflexivity. }
  destruct H as [pos H]. exists pos. split; [exact H |]. split.
  - revert H. vm_compute. intros [= <-]. reflexivity.
  - exact (history_bounded cs "510300" pos H).
Defined.



(** *** Invariants of a run *)





(** *** A NaN price *)

(** X31: a sell at a NaN price is not held back by the guard
    [price <= 0].  Whatever the value sold and whatever the position, it
    sets the shares to 0, raises at [int()] before the reset, and so
    leaves the cost, the holding age and the history as they were: a
    position with a cost or a holding age other than 0 now breaks the
    ledger invariant. *)
Theorem sell_at_nan_price (today code name : string) (value : float)
    (portfolio : gmap string FloatPosition) :
  let pos := default (new_float_position name) (portfolio !! code) in
  exists pos',
    add_trade_float today code name value NaN true portfolio
    = (<[code := pos']> portfolio, inl "cannot convert float NaN to integer"%string) /\
    fp_shares pos' = Some 0 /\ fp_cost pos' = fp_cost pos /\
    fp_held_days pos' = fp_held_days pos /\ fp_history pos' = fp_history pos /\
    (float_eqb (fp_cost pos) (Some 0) = false \/ fp_held_days pos <> 0%Z ->
     ~ float_position_inv pos').
Proof.
  intros pos. unfold add_trade_float. cbn [float_leb NaN]. fold pos.
  assert (Ediv : fdiv value NaN = None) by (destruct value; reflexivity).
  rewrite Ediv.
  assert (Emin : float_min (fp_shares pos) None = fp_shares pos).
  { unfold float_min. destruct (fp_shares pos); reflexivity. }
  rewrite Emin.
  assert (Emax : float_max (Some 0) (fsub (fp_shares pos) (fp_shares pos)) = Some 0).
  { unfold float_max. destruct (fp_shares pos) as [s|]; cbn [fsub lift2 fltb];
      [| reflexivity].
    assert (E : Qltb 0 (s - s) = false) by (apply Qltb_ge; lra).
    rewrite E. reflexivity. }
  rewrite Emax.
  assert (Emul : fmul (fp_shares pos) NaN = None) by (destruct (fp_shares pos); reflexivity).
  rewrite Emul. cbn [float_int raise].
  eexists. split; [reflexivity |]. cbn [fp_shares fp_cost fp_held_days fp_history].
  split; [reflexivity |]. split; [reflexivity |]. split; [reflexivity |].
  split; [reflexivity |].
  intros Hbad Hinv. destruct (Hinv eq_refl) as [Hc Hd].
  cbn [fp_cost fp_held_days] in Hc, Hd.
  destruct Hbad as [Hbad | Hbad]; [congruence | contradiction].
Qed.

(** X32: a buy at a NaN price stores NaN shares.  For an amount that is
    a number the call does not raise: the shares of the position become
    NaN, the cost is left as it was, and the trade is recorded with a NaN
    price.  From then on the position compares neither equal to 0 nor
    above 0, so [confirm_trades] no longer counts its days. *)
Theorem buy_at_nan_price (today code name : string) (amount : Q)
    (portfolio : gmap string FloatPosition) :
  let pos := default (new_float_position name) (portfolio !! code) in
  exists pos' record kept,
    add_trade_float today code name (Some amount) NaN false portfolio
    = (<[code := pos']> portfolio, inr tt) /\
    fp_shares pos' = NaN /\ fp_cost pos' = fp_cost pos /\
    fp_history pos' = kept ++ [record] /\ fr_price record = NaN /\
    fr_amt record = py_int amount /\
    confirm_trades_float (<[code := pos']> portfolio) !! code = Some pos'.
Proof.
  intros pos. unfold add_trade_float, NaN. cbn [float_leb]. fold pos.
  cbn [fdiv fmul lift2 float_int mret result_ret fround].
  assert (Eadd : fadd (fp_shares pos) None = None) by (destruct (fp_shares pos); reflexivity).
  rewrite Eadd. cbn [fgtb fltb].
  set (record := {| fr_date := today; fr_price := None; fr_s := "B";
                    fr_amt := py_int amount |}).
  assert (Hh : exists kept,
                 append_history_float record (fp_history pos) = kept ++ [record]).
  { unfold append_history_float.
    destruct (10 <? length (fp_history pos ++ [record]))%nat.
    - rewrite length_app. cbn [length].
      replace (length (fp_history pos) + 1 - 10)%nat
        with (length (fp_history pos) - 9)%nat by lia.
      rewrite drop_app_le by lia. eexists. reflexivity.
    - eexists. reflexivity. }
  destruct Hh as [kept Hh].
  eexists. exists record, kept. split; [reflexivity |].
  cbn [fp_shares fp_cost fp_history]. split; [reflexivity |].
  split; [reflexivity |]. split; [exact Hh |]. split; [reflexivity |].
  split; [reflexivity |].
  unfold confirm_trades_float. rewrite lookup_fmap, lookup_insert_eq.
  reflexivity.
Qed.

Lemma confirm_trades_lookup (portfolio : gmap string Position) (code : string) :
  confirm_trades portfolio !! code
  = (fun pos =>
       if Qltb 0 (shares pos)
       then {| name := name pos; shares := shares pos; cost := cost pos;
               held_days := (held_days pos + 1)%Z; history := history pos |}
       else pos) <$> (portfolio !! code).
Proof. unfold confirm_trades. apply lookup_fmap. Qed.

(** X20: [n] calls of [confirm_trades] add exactly [n] to the held_days of
    a position that holds shares and change nothing else; a position
    without shares is left as it is. *)
Theorem confirm_trades_counts_days (n : nat) (portfolio : gmap string Position)
    (code : string) (pos : Position) :
  portfolio !! code = Some pos ->
  exists pos',
    Nat.iter n confirm_trades portfolio !! code = Some pos' /\
    name pos' = name pos /\ shares pos' = shares pos /\ cost pos' = cost pos /\
    history pos' = history pos /\
    held_days pos' = (if Qltb 0 (shares pos)
                      then held_days pos + Z.of_nat n else held_days pos)%Z.
Proof.
  intros El. induction n as [|n (pos' & El' & Hn & Hs & Hc & Hh & Hd)].
  - exists pos. simpl. repeat split; try assumption.
    destruct (Qltb 0 (shares pos)); lia.
  - change (Nat.iter (S n) confirm_trades portfolio)
      with (confirm_trades (Nat.iter n confirm_trades portfolio)).
    rewrite confirm_trades_lookup, El'.
    cbn [fmap option_fmap option_map]. eexists. split; [reflexivity |].
    rewrite Hs. destruct (Qltb 0 (shares pos)); cbn [name shares cost history held_days];
      repeat split; try assumption; lia.
Qed.

Lemma confirm_trades_counts_days_witness :
  let portfolio := add_trade "2026-11-02" "510300" "沪深300ETF" 1000 4 false ∅ in
  exists pos pos',
    portfolio !! "510300"%string = Some pos /\ held_days pos = 1%Z /\
    Nat.iter 6 confirm_trades portfolio !! "510300"%string = Some pos' /\
    held_days pos' = 7%Z.
Proof.
  intros portfolio.
  assert (H : { pos | portfolio !! "510300"%string = Some pos }).
  { eexists. vm_compute. reflexivity. }
  destruct H as [pos H].
  destruct (confirm_trades_counts_days 6 portfolio "510300" pos H)
    as (pos' & El & _ & _ & _ & _ & Hd).
  exists pos, pos'. split; [exact H |].
  assert (E : held_days pos = 1%Z /\ Qltb 0 (shares pos) = true).
  { revert H. vm_compute. intros [= <-]. split; reflexivity. }
  destruct E as [E1 E2]. split; [exact E1 |]. split; [exact El |].
  rewrite Hd, E2, E1. reflexivity.
Defined.

End LedgerExtras.

(** ** More on the technical reading *)

Module AnalyzerExtras.
Import PyNumFacts.
Import TechnicalAnalyzer.
Import AnalyzerFacts.
Import Samples.

(** X21: the elapsed trading minutes in closed form, and their order.
    With [m] the minutes since midnight, the result is 0 up to 09:30,
    [m - 570] in the morning session (09:30 to 11:30), 120 through the
    lunch break, [m - 660] in the afternoon session (13:00 to 15:00) and
    240 from 15:00 on.  It is between 0 and 240 and never goes down as
    the clock advances. *)
Theorem trade_minutes_monotone (t1 t2 : datetime) :
  let m1 := (hour t1 * 60 + minute t1)%Z in
  let m2 := (hour t2 * 60 + minute t2)%Z in
  (m1 <= m2)%Z ->
  (0 <= _calculate_trade_minutes t1)%Z /\
  (_calculate_trade_minutes t1 <= _calculate_trade_minutes t2)%Z /\
  (_calculate_trade_minutes t2 <= 240)%Z /\
  ((m1 <= 570)%Z -> _calculate_trade_minutes t1 = 0%Z) /\
  ((570 <= m1 <= 690)%Z -> _calculate_trade_minutes t1 = (m1 - 570)%Z) /\
  ((690 <= m1 <= 780)%Z -> _calculate_trade_minutes t1 = 120%Z) /\
  ((780 <= m1 <= 900)%Z -> _calculate_trade_minutes t1 = (m1 - 660)%Z) /\
  ((900 <= m1)%Z -> _calculate_trade_minutes t1 = 240%Z).
Proof.
  intros m1 m2 H. subst m1 m2. unfold _calculate_trade_minutes.
  repeat (match goal with
          | |- context [(?a <? ?b)%Z] => destruct (Z.ltb_spec a b)
          | |- context [(?a <=? ?b)%Z] => destruct (Z.leb_spec a b)
          end; cbn [andb]); lia.
Qed.

Lemma trade_minutes_monotone_witness :
  let t1 := {| day := 20500; hour := 11; minute := 45 |} in
  let t2 := {| day := 20500; hour := 14; minute := 0 |} in
  (hour t1 * 60 + minute t1 <= hour t2 * 60 + minute t2)%Z /\
  _calculate_trade_minutes t1 = 120%Z /\ _calculate_trade_minutes t2 = 180%Z /\
  (_calculate_trade_minutes t1 <= _calculate_trade_minutes t2)%Z.
Proof.
  intros t1 t2.
  assert (H : (hour t1 * 60 + minute t1 <= hour t2 * 60 + minute t2)%Z)
    by (vm_compute; discriminate).
  split; [exact H |]. split; [reflexivity |]. split; [reflexivity |].
  exact (proj1 (proj2 (trade_minutes_monotone t1 t2 H))).
Defined.

(** The score of a computed reading is between 25 and 100. *)
Lemma quant_score_of_range (rsi macd_hist : float) (trend_status : string)
    (vol_ratio obv_slope : float) :
  (25 <= quant_score_of rsi macd_hist trend_status vol_ratio obv_slope <= 100)%Z.
Proof.
  unfold quant_score_of.
  destruct (fltb rsi (Some 30)), (fgtb rsi (Some 70)), (fgtb macd_hist (Some 0)),
    (String.eqb trend_status "UP"), (fgtb vol_ratio (Some 1.2)),
    (fltb vol_ratio (Some 0.6)), (fgtb obv_slope (Some 0)); cbv zeta; lia.
Qed.

(** The reading is a safe default or is built from computed locals. *)
Lemma calculate_indicators_cases (str_float : float -> string)
    (lib : IndicatorLibrary) (now : datetime) (df : option DataFrame) :
  (exists msg, calculate_indicators str_float lib now df
               = _get_safe_default_indicators msg) \/
  (exists f rows locals,
     df = Some f /\ (30 <= length (bars f))%nat /\
     map bar_date rows = map bar_date (bars f) /\
     compute_locals lib rows = inr locals /\
     calculate_indicators str_float lib now df = build_indicators str_float locals).
Proof.
  unfold calculate_indicators. destruct df as [f|]; [| left; eexists; reflexivity].
  destruct (df_empty f); cbn [orb]; [left; eexists; reflexivity |].
  destruct (length (bars f) <? 30)%nat eqn:El; [left; eexists; reflexivity |].
  apply Nat.ltb_ge in El.
  destruct (try_block str_float lib now f) as [e|r] eqn:Et;
    [left; eexists; reflexivity |].
  revert Et. unfold try_block.
  set (cols := clean_columns f).
  destruct (negb (has_column "volume" cols) && has_column "amount" cols) eqn:Er.
  - destruct (filter _ required_cols) as [|c0 miss];
      [| intros [= <-]; left; eexists; reflexivity].
    destruct (project_volume now (rename_amount cols) (map amount_as_volume (bars f)))
      as [e|rows] eqn:Ep; cbn [mbind result_bind]; [discriminate |].
    destruct (compute_locals lib rows) as [e|locals] eqn:Ec;
      cbn [mbind result_bind]; [discriminate |].
    intros [= <-]. right. exists f, rows, locals.
    split; [reflexivity |]. split; [exact El |].
    destruct (project_volume_keeps _ _ _ _ Ep) as [Hd _].
    split; [| split; [exact Ec | reflexivity]].
    rewrite Hd, map_map. reflexivity.
  - destruct (filter _ required_cols) as [|c0 miss];
      [| intros [= <-]; left; eexists; reflexivity].
    destruct (project_volume now cols (bars f)) as [e|rows] eqn:Ep;
      cbn [mbind result_bind]; [discriminate |].
    destruct (compute_locals lib rows) as [e|locals] eqn:Ec;
      cbn [mbind result_bind]; [discriminate |].
    intros [= <-]. right. exists f, rows, locals.
    split; [reflexivity |]. split; [exact El |].
    destruct (project_volume_keeps _ _ _ _ Ep) as [Hd _].
    split; [exact Hd |]. split; [exact Ec | reflexivity].
Qed.

(** X22: the quantitative score of every reading is within [0, 100]; a
    computed reading never scores below 25, so a score below 25 is the
    safe default: 0 with a VETO. *)
Theorem quant_score_range (str_float : float -> string) (lib : IndicatorLibrary)
    (now : datetime) (df : option DataFrame) :
  let r := calculate_indicators str_float lib now df in
  (0 <= quant_score r <= 100)%Z /\
  ((quant_score r < 25)%Z ->
   quant_score r = 0%Z /\ tech_cro_signal r = "VETO"%string /\ price r = Some 0).
Proof.
  intros r. unfold r.
  destruct (calculate_indicators_cases str_float lib now df)
    as [[msg ->] | (f & rows & locals & _ & _ & _ & _ & ->)].
  - cbn. split; [lia |]. intros _. repeat split.
  - cbn [build_indicators quant_score].
    pose proof (quant_score_of_range (fround (rsi_val locals) 2) (macd_hist locals)
                  (trend_status locals) (vol_ratio_raw locals) (obv_slope_raw locals)) as H.
    split; [lia |]. intros Hlt. exfalso. lia.
Qed.

Lemma quant_score_range_witness :
  let r := calculate_indicators plain_str_float quiet_library (after_close 20500)
             (Some (flat_frame 12 20458 10 1000)) in
  (quant_score r < 25)%Z /\
  quant_score r = 0%Z /\ tech_cro_signal r = "VETO"%string /\ price r = Some 0.
Proof.
  intros r.
  assert (H : (quant_score r < 25)%Z) by (vm_compute; reflexivity).
  split; [exact H |].
  exact (proj2 (quant_score_range plain_str_float quiet_library (after_close 20500)
                  (Some (flat_frame 12 20458 10 1000))) H).
Defined.

(** X23: the risk signal in closed form.  It is VETO exactly when the
    volume ratio is below 0.6 or the RSI is above 85, otherwise WARN
    exactly when the weekly trend is DOWN, otherwise PASS; the level is 3,
    1 or 0 accordingly.  When both VETO rules fire the comment is the
    liquidity one: the RSI rule does not overwrite it. *)
Theorem risk_signal_by_priority (str_float : float -> string)
    (trend_status : string) (vol_ratio rsi : float) :
  let st := cro_rules str_float trend_status vol_ratio rsi in
  (cro_signal st, current_risk_level st)
  = (if fltb vol_ratio (Some 0.6) || fgtb rsi (Some 85) then ("VETO"%string, 3%Z)
     else if String.eqb trend_status "DOWN" then ("WARN"%string, 1%Z)
     else ("PASS"%string, 0%Z)) /\
  (fltb vol_ratio (Some 0.6) = true ->
   cro_reason st = "流动性枯竭(VR " +:+ str_float vol_ratio +:+ "<0.6)") /\
  (fltb vol_ratio (Some 0.6) = false -> fgtb rsi (Some 85) = true ->
   cro_reason st = "RSI极度超买(" +:+ str_float rsi +:+ ")").
Proof.
  unfold cro_rules, rule_A, rule_B, rule_C.
  generalize (fltb vol_ratio (Some 0.6)) (fgtb rsi (Some 85))
             (String.eqb trend_status "DOWN").
  intros [] [] []; cbn; repeat split; intros; try discriminate; reflexivity.
Qed.

Lemma risk_signal_by_priority_witness :
  let st := cro_rules plain_str_float "DOWN" (Some 0.4) (Some 91) in
  fltb (Some 0.4) (Some 0.6) = true /\ fgtb (Some 91) (Some 85) = true /\
  cro_signal st = "VETO"%string /\
  cro_reason st = "流动性枯竭(VR " +:+ plain_str_float (Some 0.4) +:+ "<0.6)".
Proof.
  intros st.
  assert (H : fltb (Some 0.4) (Some 0.6) = true) by reflexivity.
  split; [exact H |]. split; [reflexivity |]. split; [reflexivity |].
  exact (proj1 (proj2 (risk_signal_by_priority plain_str_float "DOWN"
                         (Some 0.4) (Some 91))) H).
Defined.

(** The weekly trend is UP or DOWN once five weekly bins exist. *)
Lemma weekly_trend_known (dates : list Z) (close : list float) :
  increasing dates = true -> (30 <= length dates)%nat ->
  weekly_trend dates close = "UP"%string \/ weekly_trend dates close = "DOWN"%string.
Proof.
  intros Hinc Hlen. unfold weekly_trend.
  pose proof (resample_length dates close Hinc Hlen) as H5.
  destruct (5 <=? length (resample_W_last dates close))%nat eqn:E;
    [| apply Nat.leb_gt in E; lia].
  destruct (fgtb _ _); [left | right]; reflexivity.
Qed.

(** X24: the weekly trend "Unknown" is never computed.  A frame that
    passes the 30-bar check with strictly increasing dates spans at least
    five weekly bins, so the trend of every computed reading is UP or
    DOWN; Unknown only appears in the safe default. *)
Theorem weekly_trend_never_unknown (str_float : float -> string)
    (lib : IndicatorLibrary) (now : datetime) (f : DataFrame) :
  increasing (map bar_date (bars f)) = true ->
  let r := calculate_indicators str_float lib now (Some f) in
  trend_weekly r = "UP"%string \/ trend_weekly r = "DOWN"%string \/
  (exists msg, r = _get_safe_default_indicators msg).
Proof.
  intros Hinc r. unfold r.
  destruct (calculate_indicators_cases str_float lib now (Some f))
    as [[msg E] | (f' & rows & locals & [= <-] & Hlen & Hd & Hc & E)].
  - right; right. exists msg. exact E.
  - rewrite E. cbn [build_indicators trend_weekly].
    destruct (compute_locals_inv _ _ _ Hc) as [-> _]. rewrite Hd.
    destruct (weekly_trend_known (map bar_date (bars f))
                (bfill (ffill (map c_close rows))) Hinc
                ltac:(rewrite length_map; exact Hlen)) as [H | H];
      [left | right; left]; exact H.
Qed.

Lemma weekly_trend_never_unknown_witness :
  let f := flat_frame 30 20458 10 1000 in
  let r := calculate_indicators plain_str_float quiet_library (after_close 20500)
             (Some f) in
  increasing (map bar_date (bars f)) = true /\ trend_weekly r = "DOWN"%string /\
  (trend_weekly r = "UP"%string \/ trend_weekly r = "DOWN"%string \/
   (exists msg, r = _get_safe_default_indicators msg)).
Proof.
  intros f r.
  assert (H : increasing (map bar_date (bars f)) = true) by (vm_compute; reflexivity).
  split; [exact H |]. split; [vm_compute; reflexivity |].
  exact (weekly_trend_never_unknown plain_str_float quiet_library
           (after_close 20500) f H).
Defined.

(** *** The volume projection *)

Lemma trade_minutes_bounds (t : datetime) :
  (0 <= _calculate_trade_minutes t <= 240)%Z.
Proof.
  unfold _calculate_trade_minutes.
  repeat (match goal with
          | |- context [(?a <? ?b)%Z] => destruct (Z.ltb_spec a b)
          | |- context [(?a <=? ?b)%Z] => destruct (Z.leb_spec a b)
          end; cbn [andb]); lia.
Qed.

(** The outcome of the projection: the rows as they are, or the rows with
    the last volume replaced by int(volume × multiplier), where the
    multiplier is above 1 and at most 13.5. *)
Lemma project_volume_cases (now : datetime) (cols : list string)
    (rows rows' : list Bar) :
  project_volume now cols rows = inr rows' ->
  rows' = rows \/
  exists last_bar v m,
    last rows = Some last_bar /\ c_volume last_bar = Some v /\
    1 < m <= 13.5 /\
    rows' = alter (with_volume (Some (inject_Z (py_int (v * m)))))
                  (length rows - 1)%nat rows.
Proof.
  unfold project_volume.
  destruct (iloc_back rows 1) as [e|last_bar] eqn:El; cbn [mbind result_bind];
    [discriminate |].
  assert (Hlast : last rows = Some last_bar).
  { revert El. unfold iloc_back. rewrite last_lookup.
    replace (Init.Nat.pred (length rows)) with (length rows - 1)%nat by lia.
    destruct (rows !! (length rows - 1)%nat); [| discriminate].
    destruct (length rows <? 1)%nat; [discriminate |]. intros [= ->]. reflexivity. }
  match goal with |- context [if ?b then _ else _] => destruct b end;
    [| intros [= <-]; left; reflexivity].
  set (t := match _ with true => _ | false => now end).
  destruct (15 <? _calculate_trade_minutes t)%Z eqn:E15;
    [| intros [= <-]; left; reflexivity].
  apply Z.ltb_lt in E15.
  pose proof (trade_minutes_bounds t) as [_ H240].
  set (tm := _calculate_trade_minutes t) in *.
  destruct (c_volume last_bar) as [v|] eqn:Ev; cbn [fmul lift2]; [| discriminate].
  intros [= <-]. right. exists last_bar, v. eexists.
  split; [exact Hlast |]. split; [exact Ev |]. split; [| reflexivity].
  assert (H16 : 16 <= inject_Z tm).
  { change 16 with (inject_Z 16). rewrite <- Zle_Qle. lia. }
  assert (Hmax : inject_Z tm <= 240).
  { change 240 with (inject_Z 240). rewrite <- Zle_Qle. lia. }
  assert (Hi : 0 < / inject_Z tm) by (apply Qinv_lt_0_compat; lra).
  assert (Hti : inject_Z tm * / inject_Z tm == 1) by (apply Qmult_inv_r; lra).
  unfold Qdiv. set (x := inject_Z tm) in *. set (i := / x) in *.
  destruct (tm <? 120)%Z eqn:E120.
  - apply Z.ltb_lt in E120.
    assert (H119 : x <= 119).
    { change 119 with (inject_Z 119). unfold x. rewrite <- Zle_Qle. lia. }
    assert (P1 : 0 <= (119 - x) * i) by (apply Qmult_le_0_compat; lra).
    assert (P2 : 0 <= (x - 16) * i) by (apply Qmult_le_0_compat; lra).
    split; lra.
  - apply Z.ltb_ge in E120.
    assert (H120 : 120 <= x).
    { change 120 with (inject_Z 120). unfold x. rewrite <- Zle_Qle. lia. }
    assert (P1 : 0 <= (240 - x) * i) by (apply Qmult_le_0_compat; lra).
    assert (P2 : 0 <= (x - 120) * i) by (apply Qmult_le_0_compat; lra).
    split; lra.
Qed.

(** X25: the projection rewrites nothing but the volume of the last bar:
    the number of rows, every earlier row, and every other cell of the
    last row are as they were. *)
Theorem projection_touches_last_volume_only (now : datetime) (cols : list string)
    (rows rows' : list Bar) :
  project_volume now cols rows = inr rows' ->
  length rows' = length rows /\
  (forall i, (S i < length rows)%nat -> rows' !! i = rows !! i) /\
  (forall i b b', rows !! i = Some b -> rows' !! i = Some b' ->
     bar_date b' = bar_date b /\ c_open b' = c_open b /\ c_high b' = c_high b /\
     c_low b' = c_low b /\ c_close b' = c_close b /\ c_amount b' = c_amount b /\
     c_fetch_time b' = c_fetch_time b).
Proof.
  intros Hp.
  destruct (project_volume_cases _ _ _ _ Hp) as [-> | (lb & v & m & _ & _ & _ & ->)].
  - split; [reflexivity |]. split; [reflexivity |].
    intros i b b' E E'. rewrite E in E'. injection E' as <-. repeat split.
  - split; [apply length_alter |]. split.
    + intros i Hi. apply list_lookup_alter_ne. lia.
    + intros i b b' E E'. rewrite list_lookup_alter in E'.
      destruct (decide ((length rows - 1)%nat = i)) as [<- | _].
      * rewrite E in E'. injection E' as <-. repeat split.
      * rewrite E in E'. injection E' as <-. repeat split.
Qed.

Lemma projection_touches_last_volume_only_witness :
  let f := flat_frame 40 20458 10 1000 in
  let now := {| day := 20497; hour := 10; minute := 30 |} in
  exists rows',
    project_volume now (clean_columns f) (bars f) = inr rows' /\
    (c_volume <$> last rows') = Some (Some 3600) /\
    length rows' = length (bars f) /\
    (forall i, (S i < length (bars f))%nat -> rows' !! i = bars f !! i).
Proof.
  intros f now.
  assert (H : { rows' | project_volume now (clean_columns f) (bars f) = inr rows' }).
  { eexists. vm_compute. reflexivity. }
  destruct H as [rows' H]. exists rows'. split; [exact H |].
  destruct (projection_touches_last_volume_only now _ _ _ H) as (Hl & Hi & _).
  split; [| split; assumption].
  revert H. vm_compute. intros [= <-]. reflexivity.
Defined.

Lemma py_int_floor (x : Q) : 0 <= x -> py_int x = Qfloor x.
Proof.
  intros Hx. destruct x as [n d]. unfold py_int, Qfloor. simpl.
  apply Z.quot_div_nonneg; [| lia]. unfold Qle in Hx. simpl in Hx. lia.
Qed.

(** X26: the projection never lowers the volume and scales it by at most
    13.5.  For a last bar with a volume [v >= 0] the volume after the
    projection is between int(v) and 13.5 × v; it is [v] itself when no
    projection applies. *)
Theorem projection_scales_up (now : datetime) (cols : list string)
    (rows rows' : list Bar) (last_bar : Bar) (v : Q) :
  project_volume now cols rows = inr rows' ->
  last rows = Some last_bar -> c_volume last_bar = Some v -> 0 <= v ->
  exists last_bar' v',
    last rows' = Some last_bar' /\ c_volume last_bar' = Some v' /\
    inject_Z (py_int v) <= v' <= 13.5 * v.
Proof.
  intros Hp Hlast Hv Hv0.
  destruct (DecisionFacts.py_int_nonneg v Hv0) as [_ Hiv].
  destruct (project_volume_cases _ _ _ _ Hp)
    as [-> | (lb & v0 & m & Hlast' & Hv' & [Hm1 Hm2] & ->)].
  - exists last_bar, v. split; [exact Hlast |]. split; [exact Hv |]. split; lra.
  - rewrite Hlast in Hlast'. injection Hlast' as <-.
    rewrite Hv in Hv'. injection Hv' as <-.
    eexists. eexists. split.
    + rewrite last_lookup, length_alter.
      replace (Init.Nat.pred (length rows)) with (length rows - 1)%nat by lia.
      rewrite list_lookup_alter_eq.
      rewrite last_lookup in Hlast.
      replace (Init.Nat.pred (length rows)) with (length rows - 1)%nat in Hlast by lia.
      rewrite Hlast. reflexivity.
    + split; [reflexivity |].
      assert (H0 : 0 <= v * m) by nra.
      destruct (DecisionFacts.py_int_nonneg _ H0) as [_ Hi]. split.
      * rewrite <- Zle_Qle, !py_int_floor by assumption.
        apply Qfloor_resp_le. nra.
      * nra.
Qed.

Lemma projection_scales_up_witness :
  let f := flat_frame 40 20458 10 1000 in
  let now := {| day := 20497; hour := 10; minute := 30 |} in
  exists rows' last_bar last_bar' v',
    project_volume now (clean_columns f) (bars f) = inr rows' /\
    last (bars f) = Some last_bar /\ c_volume last_bar = Some 1000 /\ 0 <= 1000 /\
    last rows' = Some last_bar' /\ c_volume last_bar' = Some v' /\
    inject_Z (py_int 1000) <= v' <= 13.5 * 1000.
Proof.
  intros f now.
  assert (H : { rows' | project_volume now (clean_columns f) (bars f) = inr rows' }).
  { eexists. vm_compute. reflexivity. }
  destruct H as [rows' H].
  assert (Hl : { b | last (bars f) = Some b }).
  { eexists. vm_compute. reflexivity. }
  destruct Hl as [last_bar Hl].
  assert (Hv : c_volume last_bar = Some 1000).
  { revert Hl. vm_compute. intros [= <-]. reflexivity. }
  assert (H0 : 0 <= 1000) by discriminate.
  destruct (projection_scales_up now _ _ _ last_bar 1000 H Hl Hv H0)
    as (last_bar' & v' & E1 & E2 & E3).
  exists rows', last_bar, last_bar', v'. repeat (split; [assumption |]). exact E3.
Defined.

(** *** Missing columns *)




End AnalyzerExtras.

(** ** The pipeline *)

Module PipelineExtras.
Import PyNumFacts.
Import DecisionFacts.
Import DecisionExtras.
Import LedgerExtras.
Import AnalyzerFacts.
Import FloatLedgerFacts.
Import PyExc.
Import TechnicalAnalyzer.
Import PortfolioTracker.
Import FloatLedger.
Import Main.
Import FloatEngine.
Import Pipeline.
Import Runs.
Import Samples.
Import PipelineSamples.

(** *** The engine on a position that may hold NaN *)

Lemma lock_rule_float_number (pos : FloatView) (m : Q) (reasons : list string) :
  lock_rule_float pos m reasons = lock_rule (number_view pos) m reasons.
Proof.
  unfold lock_rule_float, lock_rule, held_days_of, number_view.
  cbn [view_shares view_held_days].
  destruct (fv_shares pos) as [s|]; cbn [fgtb fltb default]; [reflexivity |].
  change (Qltb 0 0) with false. rewrite andb_false_r. reflexivity.
Qed.

Lemma final_mult_of_float_number (score : Z) (cro_signal : string) (val_mult : Q)
    (pos : FloatView) (strategy_type : option string) :
  final_mult_of_float score cro_signal val_mult pos strategy_type
  = final_mult_of score cro_signal val_mult (number_view pos) strategy_type.
Proof.
  unfold final_mult_of_float, final_mult_of.
  destruct (tactical_tier score) as [m0 r0].
  destruct (valuation_blend m0 val_mult strategy_type r0) as [m1 r1].
  destruct (risk_gate cro_signal m1 r1) as [m2 r2].
  apply lock_rule_float_number.
Qed.

(** The engine on the dictionary of the ledger decides like the engine of
    [Main] on [number_view]: the reading it writes, the amount, the label
    and the sell flag are the same, and so is the whole decision when the
    shares are a number. *)
Lemma engine_float_number (tech : TechnicalReading) (ai_adj : AiAdj)
    (ai_decision : string) (val_mult : Q) (val_desc : string)
    (base_amt max_daily : Q) (pos : FloatView) (strategy_type : option string) :
  let r := calculate_position_v13_float tech ai_adj ai_decision val_mult val_desc
             base_amt max_daily pos strategy_type in
  let q := calculate_position_v13 tech ai_adj ai_decision val_mult val_desc
             base_amt max_daily (number_view pos) strategy_type in
  fst r = fst q /\ final_amt (snd r) = final_amt (snd q) /\
  label (snd r) = label (snd q) /\ is_sell (snd r) = is_sell (snd q) /\
  (is_Some (fv_shares pos) -> snd r = snd q).
Proof.
  unfold calculate_position_v13_float, calculate_position_v13.
  rewrite final_mult_of_float_number.
  destruct (final_mult_of _ _ _ _ _) as [m reasons]. cbn [fst snd].
  split; [reflexivity |].
  unfold resolve_amount_float, resolve_amount.
  destruct (Qltb 0 m); [repeat split |].
  destruct (Qltb m 0); [| repeat split].
  cbn [final_amt label is_sell].
  split; [reflexivity |]. split; [reflexivity |]. split; [reflexivity |].
  intros [s Hs]. unfold number_view. rewrite Hs. reflexivity.
Qed.

(** The engine leaves the price of the reading alone and writes the final
    score and the adjustment it used. *)
Lemma calculate_position_keys (tech : TechnicalReading) (ai_adj : AiAdj)
    (ai_decision : string) (val_mult : Q) (val_desc : string)
    (base_amt max_daily : Q) (pos : PositionView) (strategy_type : option string) :
  let tech' := fst (calculate_position_v13 tech ai_adj ai_decision val_mult val_desc
                      base_amt max_daily pos strategy_type) in
  price tech' = price tech /\
  final_score tech'
  = Some (tactical_score_of (quant_score tech) (ai_adj_int_of ai_adj) ai_decision) /\
  ai_adjustment tech' = Some (ai_adj_int_of ai_adj).
Proof.
  unfold calculate_position_v13.
  destruct (final_mult_of _ _ _ _ _) as [m reasons]. repeat split.
Qed.


(** *** The price of a reading *)






(** *** The ledger through the pipeline *)








(** *** The safe default in the pipeline *)

(** With the safe default the score the engine works with is 0, with or
    without an analyst and whatever it answers. *)
Lemma safe_default_score (analyst : option AdvisoryReply) (msg : string) :
  let tech := _get_safe_default_indicators msg in
  let ai_res := ai_result analyst tech in
  tactical_score_of (quant_score tech) (ai_adj_int_of (ai_adj_of ai_res))
                    (ai_decision_of ai_res) = 0%Z.
Proof. destruct analyst as [[|obj]|]; reflexivity. Qed.

(** At a price of 0 the ledger update returns at once, whatever the
    decision. *)
Lemma record_decision_price_zero (today : string) (fund : Fund)
    (tech : TechnicalReading) (d : Decision) (portfolio : gmap string FloatPosition) :
  price tech = Some 0 ->
  record_decision today fund tech d portfolio = (portfolio, inr tt).
Proof.
  intros Hp. unfold record_decision, add_trade_float. rewrite Hp.
  change (float_leb (Some 0) (Some 0)) with true. cbv iota.
  destruct (0 <? final_amt d)%Z; [reflexivity |].
  destruct (is_sell d); reflexivity.
Qed.

(** X29: when the technical reading is the safe default (too few bars, a
    missing column, a failed computation) the ledger is left exactly as
    it was, whatever it holds: the default price 0 makes [add_trade]
    return at once even when the decision is a sell.  The fund is
    reported unless the log line of the advisory views raises; when it is
    reported, the final score is 0 and the decision is not a buy. *)
Theorem safe_default_leaves_ledger (str_float : float -> string)
    (lib : IndicatorLibrary) (today : string) (now : datetime) (fund : Fund)
    (df : DataFrame) (val : Q * string) (analyst : option AdvisoryReply)
    (base_amt max_daily : Q) (portfolio : gmap string FloatPosition) (msg : string) :
  df_empty df = false ->
  calculate_indicators str_float lib now (Some df) = _get_safe_default_indicators msg ->
  let out := process_single_fund str_float lib today now fund (Some df) val analyst
               base_amt max_daily portfolio in
  let ai_res := ai_result analyst (_get_safe_default_indicators msg) in
  out_portfolio out = portfolio /\
  (logging_raises ai_res = true -> out_result out = None) /\
  (logging_raises ai_res = false ->
   exists tech' d,
     out_result out = Some (tech', d) /\
     final_score tech' = Some 0%Z /\ final_amt d = 0%Z /\ label d <> LABEL_BUY).
Proof.
  intros He Hc. unfold process_single_fund. rewrite He, Hc.
  set (tech := _get_safe_default_indicators msg).
  set (pos := get_position_float (fund_code fund) portfolio).
  set (ai_res := ai_result analyst tech).
  pose proof (safe_default_score analyst msg) as Hscore. cbv zeta in Hscore.
  fold tech in Hscore. fold ai_res in Hscore.
  destruct (engine_float_number tech (ai_adj_of ai_res) (ai_decision_of ai_res)
              (fst val) (snd val) base_amt max_daily pos (fund_strategy_type fund))
    as (Hfst & Hamt & Hlabel & _ & _).
  pose proof (calculate_position_keys tech (ai_adj_of ai_res) (ai_decision_of ai_res)
                (fst val) (snd val) base_amt max_daily (number_view pos)
                (fund_strategy_type fund)) as (Hp & Hf & _).
  pose proof (decision_unfold tech (ai_adj_of ai_res) (ai_decision_of ai_res)
                (fst val) (snd val) base_amt max_daily (number_view pos)
                (fund_strategy_type fund)) as Hd.
  rewrite <- Hfst in Hp, Hf. rewrite Hscore in Hf, Hd.
  assert (Hq : final_amt (snd (calculate_position_v13 tech (ai_adj_of ai_res)
                                 (ai_decision_of ai_res) (fst val) (snd val) base_amt
                                 max_daily (number_view pos) (fund_strategy_type fund)))
               = 0%Z /\
               label (snd (calculate_position_v13 tech (ai_adj_of ai_res)
                             (ai_decision_of ai_res) (fst val) (snd val) base_amt
                             max_daily (number_view pos) (fund_strategy_type fund)))
               <> LABEL_BUY).
  { rewrite Hd.
    destruct (final_mult_cases 0 (tech_cro_signal tech) (fst val) (number_view pos)
                (fund_strategy_type fund))
      as [(Hs & _) | [(_ & Hm) | (Hs & _)]]; [lia | | lia].
    destruct Hm as [Hm | [Hm | Hm]]; rewrite Hm;
      (split; [reflexivity | discriminate]). }
  rewrite <- Hamt, <- Hlabel in Hq.
  destruct (calculate_position_v13_float tech (ai_adj_of ai_res) (ai_decision_of ai_res)
              (fst val) (snd val) base_amt max_daily pos (fund_strategy_type fund))
    as [tech' d].
  cbn [fst snd] in Hp, Hf, Hq.
  rewrite (record_decision_price_zero today fund tech' d portfolio Hp).
  destruct (logging_raises ai_res); cbn [out_portfolio out_result].
  - split; [reflexivity |]. split; [reflexivity | discriminate].
  - split; [reflexivity |]. split; [discriminate |].
    intros _. exists tech', d. split; [reflexivity |]. split; [exact Hf | exact Hq].
Qed.

Lemma safe_default_leaves_ledger_witness :
  let df := flat_frame 12 20458 10 1000 in
  let out := process_single_fund plain_str_float firm_library "2026-11-04"
               (after_close 20500) etf (Some df) (1.0, "估值适中"%string)
               (Some (text_reply "EXECUTE" 20)) 1000 5000 held_ledger in
  let lost := process_single_fund plain_str_float firm_library "2026-11-04"
                (after_close 20500) etf (Some df) (1.0, "估值适中"%string)
                (Some (numeric_reply "EXECUTE" 20)) 1000 5000 held_ledger in
  df_empty df = false /\
  calculate_indicators plain_str_float firm_library (after_close 20500) (Some df)
  = _get_safe_default_indicators "K线数据不足(<30)" /\
  out_portfolio out = held_ledger /\
  (exists tech' d,
     out_result out = Some (tech', d) /\
     final_score tech' = Some 0%Z /\ final_amt d = 0%Z /\ label d <> LABEL_BUY) /\
  out_portfolio lost = held_ledger /\ out_result lost = None.
Proof.
  intros df out lost.
  assert (He : df_empty df = false) by reflexivity.
  assert (Hc : calculate_indicators plain_str_float firm_library (after_close 20500)
                 (Some df) = _get_safe_default_indicators "K线数据不足(<30)").
  { vm_compute. reflexivity. }
  split; [exact He |]. split; [exact Hc |].
  destruct (safe_default_leaves_ledger plain_str_float firm_library "2026-11-04"
              (after_close 20500) etf df (1.0, "估值适中"%string)
              (Some (text_reply "EXECUTE" 20)) 1000 5000 held_ledger _ He Hc)
    as (H1 & _ & H3).
  destruct (safe_default_leaves_ledger plain_str_float firm_library "2026-11-04"
              (after_close 20500) etf df (1.0, "估值适中"%string)
              (Some (numeric_reply "EXECUTE" 20)) 1000 5000 held_ledger _ He Hc)
    as (H4 & H5 & _).
  split; [exact H1 |]. split; [exact (H3 eq_refl) |].
  split; [exact H4 | exact (H5 eq_refl)].
Defined.

(** *** A VETO with an analyst that answers *)






End PipelineExtras.
